(** * export_help_scout_docs: a shallow embedding and its properties

    The program is a single-threaded pipeline: paginate a listing endpoint,
    collect article ids, fetch every article and write it to a fresh
    directory.  Python values are embedded as an inductive type, the effects
    (network calls, sleeps, logging, filesystem) as a state-and-exception
    monad over a [World] that keeps the filesystem and a chronological trace
    of the observable events.

    What the model takes from outside the program:
    - library functions the program only calls ([urllib.parse.urlencode],
      [json.dump], [str] and [int] on arbitrary values, [pathlib]'s [Path]
      and [/]) are the fields of the class [PyLib];
    - the remote server is an oracle [net]: the outcome of the [n]-th
      network call of the run, given the request it carries.  Building the
      [Request], [urlopen], reading and [json.loads] are one step of it, so
      a url that [Request] refuses (one without scheme) fails at that step;
      the urls of the program all start with [https://];
    - a [str] is a [string] whose characters are code points below 256; the
      keys of a decoded JSON object are pairwise distinct;
    - a path is identified with its text; the filesystem maps the existing
      paths to what they hold, and [Path.exists] reads this map and always
      answers (that [stat] itself fails, as for a name too long, is left
      out).  Whether the operating system refuses a [mkdir] or an [open] for
      a reason the map does not show (a missing parent, no permission, a
      name too long) is the oracle [os_refuses] of [PyLib];
    - [main] starts after [argparse] has parsed the command line;
    - the two [while] loops take a bound [fuel] on their iterations and end
      in [OutOfFuel] when it is used up. *)

From Stdlib Require Import ZArith NArith List String Ascii Bool Lia QArith.
From Stdlib Require Import DecimalString.
From Stdlib Require DecimalPos DecimalZ Finite.
Import ListNotations.
Local Open Scope string_scope.
Local Open Scope Z_scope.

Set Implicit Arguments.
Set Warnings "-register-all".

(** ** Python values *)

(** Values decoded by [json.loads] and handled by the program.  A finite
    float is kept as the rational it denotes. *)
Inductive value : Type :=
| VNone
| VBool (b : bool)
| VInt (z : Z)
| VFloat (q : Q)
| VStr (s : string)
| VList (l : list value)
| VDict (kv : list (string * value)).

(** A [pathlib.Path], identified with its textual form. *)
Definition Path := string.

(** The payload of a [urllib.error.HTTPError]. *)
Record http_error := mkHTTPError { http_code : Z; http_msg : string }.

Inductive exn : Type :=
| HTTPError (e : http_error)
| TransportError (what : string)   (* URLError, JSONDecodeError, ... raised under urlopen / json.loads *)
| UnicodeEncodeError
| KeyError (k : string)
| TypeError
| ValueError
| FileExistsError (p : Path)
| IsADirectoryError (p : Path)
| OSError (what : string)          (* FileNotFoundError, PermissionError, ... of mkdir / open *)
| SystemExit (status : Z)
| BareException.                   (* the [raise Exception] that ends safe_get *)

Inductive node : Type :=
| Dir
| File (content : string).

(** The filesystem: the existing paths and what they hold. *)
Definition FS := list (Path * node).

(** The operations that create something in the filesystem. *)
Inductive fs_op : Type :=
| OsMkdir (p : Path)
| OsOpen (p : Path).

(** ** Library functions used by the program, and the system under them *)

Class PyLib := {
  (** [urllib.parse.urlencode] on a dict of parameters *)
  urlencode : list (string * value) -> string;
  (** [str()] of a value that is neither a [str] nor an [int] *)
  py_repr : value -> string;
  (** [int()] on a [str]; [None] is a [ValueError] *)
  int_of_str : string -> option Z;
  (** the text [json.dump(obj, f, indent=n)] writes, also [json.dumps] *)
  json_dumps : value -> Z -> string;
  (** [Path(s)] *)
  mkPath : string -> Path;
  (** [directory / name] *)
  joinpath : Path -> string -> Path;
  (** the [OSError] with which [Path.mkdir] or [open(p, 'w')] is refused in a
      filesystem, if it is, for a reason other than what the target holds *)
  os_refuses : FS -> fs_op -> option string
}.

(** Decimal text of an integer, as in [str(n)] and in f-strings. *)
Definition str_of_int (z : Z) : string := NilZero.string_of_int (Z.to_int z).

Definition py_str `{PyLib} (v : value) : string :=
  match v with
  | VStr s => s
  | VInt z => str_of_int z
  | _ => py_repr v
  end.

(** [d[key]] for a string key. *)
Fixpoint assoc (key : string) (kv : list (string * value)) : option value :=
  match kv with
  | [] => None
  | (k, v) :: rest => if String.eqb k key then Some v else assoc key rest
  end.

Definition getitem (v : value) (key : string) : exn + value :=
  match v with
  | VDict kv =>
      match assoc key kv with
      | Some x => inr x
      | None => inl (KeyError key)
      end
  | _ => inl TypeError
  end.

(** [int(v)] *)
Definition py_int `{PyLib} (v : value) : exn + Z :=
  match v with
  | VInt z => inr z
  | VBool b => inr (if b then 1 else 0)
  | VFloat q => inr (Z.quot (Qnum q) (Zpos (Qden q)))
  | VStr s =>
      match int_of_str s with
      | Some z => inr z
      | None => inl ValueError
      end
  | VNone | VList _ | VDict _ => inl TypeError
  end.

Definition chars_of (s : string) : list value :=
  map (fun c => VStr (String c EmptyString)) (list_ascii_of_string s).

(** The elements a [for] loop draws from a value. *)
Definition py_iter (v : value) : exn + list value :=
  match v with
  | VList l => inr l
  | VDict kv => inr (map (fun p => VStr (fst p)) kv)
  | VStr s => inr (chars_of s)
  | _ => inl TypeError
  end.

(** ** Base64 and Basic authentication *)

Module Base64.

Definition alphabet : string :=
  "ABCDEFGHIJKLMNOPQRSTUVWXYZabcdefghijklmnopqrstuvwxyz0123456789+/".

Definition digit (n : N) : ascii :=
  match String.get (N.to_nat n) alphabet with
  | Some c => c
  | None => "="%char
  end.

Definition str1 (c : ascii) : string := String c EmptyString.

(** Three input bytes give four digits; a short tail is padded with [=]. *)
Fixpoint encode_bytes (l : list N) : string :=
  match l with
  | [] => EmptyString
  | [a] =>
      str1 (digit (N.shiftr a 2))
      ++ str1 (digit (N.shiftl (N.land a 3) 4))
      ++ "=="
  | [a; b] =>
      str1 (digit (N.shiftr a 2))
      ++ str1 (digit (N.lor (N.shiftl (N.land a 3) 4) (N.shiftr b 4)))
      ++ str1 (digit (N.shiftl (N.land b 15) 2))
      ++ "="
  | a :: b :: c :: rest =>
      str1 (digit (N.shiftr a 2))
      ++ str1 (digit (N.lor (N.shiftl (N.land a 3) 4) (N.shiftr b 4)))
      ++ str1 (digit (N.lor (N.shiftl (N.land b 15) 2) (N.shiftr c 6)))
      ++ str1 (digit (N.land c 63))
      ++ encode_bytes rest
  end.

(** [base64.b64encode(bs).decode("ascii")] *)
Definition b64encode (bs : list N) : string := encode_bytes bs.

End Base64.

(** [s.encode('ascii')]: the bytes of [s], or nothing when a character is
    outside the 7-bit range. *)
Definition encode_ascii (s : string) : option (list N) :=
  let codes := map N_of_ascii (list_ascii_of_string s) in
  if forallb (fun n => (n <? 128)%N) codes then Some codes else None.

(** ** Requests, events and the world *)

Record Request := mkRequest {
  req_url : string;
  req_headers : list (string * string)
}.

(** What one [urlopen] call, the read and the JSON decoding come to. *)
Inductive NetOutcome : Type :=
| NetOk (data : value)
| NetHTTPError (e : http_error)
| NetFailure (what : string).

Inductive log_msg : Type :=
| LogRequestError (e : http_error)
| LogStartingExport
| LogFoundArticleIds (n : Z)
| LogSavedAll (n : Z) (dir : Path)
| LogCreatingDirectory (dir : Path)
| LogDirectoryExists (dir : Path)
| LogGettingArticle (id : value) (i : Z) (total : Z)
| LogSavingArticle (p : Path)
| LogGettingPage (page : Z)
| LogGettingArticleIds (collection : string)
| LogGettingCollections
| LogNoCollection
| LogFetchingCollectionInfo
| LogFoundCollections
| LogCollection (id : value) (text : string)
| LogPleaseSpecify
| LogDefaultDirectory (name : string)
| LogParserError (text : string).

Inductive event : Type :=
| EvRequest (r : Request) (o : NetOutcome)
| EvSleep (seconds : Z)
| EvLog (m : log_msg)
| EvMkdir (p : Path)
| EvWrite (p : Path) (content : string).

Fixpoint fs_lookup (fs : FS) (p : Path) : option node :=
  match fs with
  | [] => None
  | (q, n) :: rest => if String.eqb q p then Some n else fs_lookup rest p
  end.

Definition fs_exists (fs : FS) (p : Path) : bool :=
  match fs_lookup fs p with
  | Some _ => true
  | None => false
  end.

Fixpoint fs_remove (fs : FS) (p : Path) : FS :=
  match fs with
  | [] => []
  | (q, n) :: rest =>
      if String.eqb q p then fs_remove rest p else (q, n) :: fs_remove rest p
  end.

Definition fs_put (fs : FS) (p : Path) (n : node) : FS :=
  (p, n) :: fs_remove fs p.

Record World := mkWorld {
  w_fs : FS;
  w_trace : list event
}.

Definition is_request (e : event) : bool :=
  match e with
  | EvRequest _ _ => true
  | _ => false
  end.

(** Number of network calls recorded in a trace. *)
Definition ncalls (tr : list event) : nat := List.length (filter is_request tr).

(** ** The effect monad *)

Inductive result (A : Type) : Type :=
| Ok (a : A)
| Raise (e : exn)
| OutOfFuel.

Arguments Ok {A} a.
Arguments Raise {A} e.
Arguments OutOfFuel {A}.

Definition M (A : Type) : Type := World -> result A * World.

Definition ret {A} (a : A) : M A := fun w => (Ok a, w).

Definition raise {A} (e : exn) : M A := fun w => (Raise e, w).

Definition out_of_fuel {A} : M A := fun w => (OutOfFuel, w).

Definition bind {A B} (m : M A) (k : A -> M B) : M B :=
  fun w =>
    match m w with
    | (Ok a, w') => k a w'
    | (Raise e, w') => (Raise e, w')
    | (OutOfFuel, w') => (OutOfFuel, w')
    end.

Declare Scope py_scope.
Delimit Scope py_scope with py.
Notation "x <- m ;; k" := (bind m (fun x => k))
  (at level 61, m at next level, right associativity) : py_scope.
Notation "m ;; k" := (bind m (fun _ => k))
  (at level 61, right associativity) : py_scope.
Local Open Scope py_scope.

(** Lift a pure computation that may raise. *)
Definition lift {A} (r : exn + A) : M A :=
  match r with
  | inr a => ret a
  | inl e => raise e
  end.

Definition emit (e : event) : M unit :=
  fun w => (Ok tt, mkWorld (w_fs w) (w_trace w ++ [e])).

Definition log (m : log_msg) : M unit := emit (EvLog m).

(** [time.sleep(n)] *)
Definition sleep (n : Z) : M unit := emit (EvSleep n).

(** [try: body  except HTTPError as e: handler e] *)
Definition try_except_HTTPError {A} (body : M A) (handler : http_error -> M A) : M A :=
  fun w =>
    match body w with
    | (Raise (HTTPError e), w') => handler e w'
    | other => other
    end.

Definition REQUEST_DELAY : Z := 1.

(** Sequencing of pure computations that may raise. *)
Definition sum_bind {A B} (r : exn + A) (k : A -> exn + B) : exn + B :=
  match r with
  | inr a => k a
  | inl e => inl e
  end.

Declare Scope sum_py_scope.
Delimit Scope sum_py_scope with sum_py.
Notation "x <- m ;; k" := (sum_bind m (fun x => k))
  (at level 61, m at next level, right associativity) : sum_py_scope.

(** ** The program *)

Section Program.

Context {lib : PyLib}.

(** The remote server: what the [n]-th network call of the run (counted
    from 0) comes to when it carries request [r]. *)
Variable net : nat -> Request -> NetOutcome.

(** [urlopen(request)], [response.read().decode()] and [json.loads]. *)
Definition urlopen (r : Request) : M value :=
  fun w =>
    let o := net (ncalls (w_trace w)) r in
    let w' := mkWorld (w_fs w) (w_trace w ++ [EvRequest r o]) in
    match o with
    | NetOk data => (Ok data, w')
    | NetHTTPError e => (Raise (HTTPError e), w')
    | NetFailure what => (Raise (TransportError what), w')
    end.

(** Truth value of an optional dict. *)
Definition params_truthy (params : option (list (string * value))) : bool :=
  match params with
  | Some (_ :: _) => true
  | _ => false
  end.

Definition params_items (params : option (list (string * value))) :=
  match params with
  | Some kv => kv
  | None => []
  end.

(** Lines 33-34: the url after one pass through the [if params:] branch. *)
Definition add_params (params : option (list (string * value))) (url : string) : string :=
  if params_truthy params
  then url ++ "?" ++ urlencode (params_items params)
  else url.

(** Lines 38-44: the headers of the request. *)
Definition auth_headers (auth : option (string * option string))
  : exn + list (string * string) :=
  match auth with
  | Some (username, password) =>
      let password := match password with
                      | None => EmptyString
                      | Some p => p
                      end in
      match encode_ascii (username ++ ":" ++ password) with
      | Some encoded =>
          inr [("Authorization", "Basic " ++ Base64.b64encode encoded)]
      | None => inl UnicodeEncodeError
      end
  | None => inr []
  end.

(** The [for attempt in range(retries)] loop of [safe_get].  [Some data] is
    the [return data] of line 51; [None] means the loop ran to completion
    without returning or raising. *)
Fixpoint safe_get_loop (attempts : list Z) (retries : Z) (url : string)
         (params : option (list (string * value)))
         (auth : option (string * option string)) : M (option value) :=
  match attempts with
  | [] => ret None
  | attempt :: rest =>
      let url := add_params params url in
      try_except_HTTPError
        (headers <- lift (auth_headers auth) ;;
         data <- urlopen (mkRequest url headers) ;;
         ret (Some data))
        (fun e =>
           log (LogRequestError e) ;;
           if attempt <? retries - 1
           then sleep REQUEST_DELAY ;;
                safe_get_loop rest retries url params auth
           else raise (HTTPError e))
  end.

(** [range(n)] *)
Definition range (n : Z) : list Z := map Z.of_nat (seq 0 (Z.to_nat n)).

Definition safe_get (url : string) (params : option (list (string * value)))
           (auth : option (string * option string)) (retries : Z) : M value :=
  r <- safe_get_loop (range retries) retries url params auth ;;
  match r with
  | Some data => ret data
  | None => raise BareException
  end.

(** Truth value of a [str]. *)
Definition str_truthy (s : string) : bool :=
  match s with
  | EmptyString => false
  | String _ _ => true
  end.

Definition help_scout_get (url : string) (params : option (list (string * value)))
           (token : option string) : M value :=
  let auth := match token with
              | Some t => if str_truthy t then Some (t, Some "x") else None
              | None => None
              end in
  safe_get url params auth 2.

(** [len(l)] *)
Definition len {A} (l : list A) : Z := Z.of_nat (List.length l).

(** [exit(n)] *)
Definition exit {A} (status : Z) : M A := raise (SystemExit status).

(** [path.exists()], taken to answer: it reads the map of existing paths. *)
Definition path_exists (p : Path) : M bool :=
  fun w => (Ok (fs_exists (w_fs w) p), w).

(** [path.mkdir(exist_ok=False)]: [FileExistsError] on an existing path,
    else whatever the system refuses (a missing parent, as [parents] is
    [False]; no permission), else the directory is made. *)
Definition mkdir (p : Path) : M unit :=
  fun w =>
    if fs_exists (w_fs w) p
    then (Raise (FileExistsError p), w)
    else match os_refuses (w_fs w) (OsMkdir p) with
         | Some what => (Raise (OSError what), w)
         | None => (Ok tt, mkWorld (fs_put (w_fs w) p Dir) (w_trace w ++ [EvMkdir p]))
         end.

(** [with open(p, 'w') as f: f.write(content)]: [IsADirectoryError] on a
    directory, else whatever the system refuses (a missing parent
    directory, as for a name with [/] in it; no permission), else the file
    holds [content], whatever it held before. *)
Definition write_file (p : Path) (content : string) : M unit :=
  fun w =>
    match fs_lookup (w_fs w) p with
    | Some Dir => (Raise (IsADirectoryError p), w)
    | _ =>
        match os_refuses (w_fs w) (OsOpen p) with
        | Some what => (Raise (OSError what), w)
        | None => (Ok tt, mkWorld (fs_put (w_fs w) p (File content))
                                  (w_trace w ++ [EvWrite p content]))
        end
    end.

(** The [while] loop of [unique_filename]; [fuel] bounds the number of
    iterations. *)
Fixpoint unique_filename_loop (fuel : nat) (directory_path : Path)
         (base_filename : value) (extension : string)
         (suffix : string) (counter : Z) : M Path :=
  let candidate := joinpath directory_path (py_str base_filename ++ suffix ++ extension) in
  found <- path_exists candidate ;;
  if found
  then match fuel with
       | O => out_of_fuel
       | S fuel' =>
           unique_filename_loop fuel' directory_path base_filename extension
                                ("-" ++ str_of_int counter) (counter + 1)
       end
  else ret candidate.

Definition unique_filename (fuel : nat) (directory_path : Path)
           (base_filename : value) (extension : string) : M Path :=
  unique_filename_loop fuel directory_path base_filename extension EmptyString 1.

(** [try: body  except FileExistsError: handler] *)
Definition try_except_FileExistsError {A} (body : M A) (handler : M A) : M A :=
  fun w =>
    match body w with
    | (Raise (FileExistsError _), w') => handler w'
    | other => other
    end.

(** [enumerate(l)], counting from [i]. *)
Fixpoint enumerate_from {A} (i : Z) (l : list A) : list (Z * A) :=
  match l with
  | [] => []
  | x :: rest => (i, x) :: enumerate_from (i + 1) rest
  end.

(** The [for i, article_id in enumerate(article_ids)] loop. *)
Fixpoint fetch_articles_loop (fuel : nat) (items : list (Z * value)) (total : Z)
         (directory_path : Path) (token : option string) : M unit :=
  match items with
  | [] => ret tt
  | (i, article_id) :: rest =>
      log (LogGettingArticle article_id (i + 1) total) ;;
      sleep REQUEST_DELAY ;;
      let url := "https://docsapi.helpscout.net/v1/articles/" ++ py_str article_id in
      data <- help_scout_get url None token ;;
      article <- lift (getitem data "article") ;;
      slug <- lift (getitem article "slug") ;;
      article_path <- unique_filename fuel directory_path slug ".json" ;;
      log (LogSavingArticle article_path) ;;
      write_file article_path (json_dumps data 2) ;;
      fetch_articles_loop fuel rest total directory_path token
  end.

Definition fetch_articles (fuel : nat) (article_ids : list value)
           (directory_path : Path) (token : option string) : M (list value) :=
  let articles : list value := [] in
  log (LogCreatingDirectory directory_path) ;;
  try_except_FileExistsError
    (mkdir directory_path)
    (log (LogDirectoryExists directory_path) ;; exit 1) ;;
  fetch_articles_loop fuel (enumerate_from 0 article_ids) (len article_ids)
                      directory_path token ;;
  ret articles.

(** [current_page is None or current_page < total_pages] *)
Definition paged_continue (current_page total_pages : option Z) : exn + bool :=
  match current_page with
  | None => inr true
  | Some c =>
      match total_pages with
      | Some t => inr (c <? t)
      | None => inl TypeError
      end
  end.

(** [int(data[entity_name]["page"])] *)
Definition page_number (data : value) (entity_name : string) : exn + Z :=
  (e <- getitem data entity_name ;; p <- getitem e "page" ;; py_int p)%sum_py.

(** [int(data[entity_name]["pages"])] *)
Definition page_count (data : value) (entity_name : string) : exn + Z :=
  (e <- getitem data entity_name ;; p <- getitem e "pages" ;; py_int p)%sum_py.

(** The entities [for entity in data[entity_name]["items"]] runs through. *)
Definition page_items (data : value) (entity_name : string) : exn + list value :=
  (e <- getitem data entity_name ;; i <- getitem e "items" ;; py_iter i)%sum_py.

(** The [while] loop of [get_paged_help_scout_entities]; [fuel] bounds the
    number of pages requested. *)
Fixpoint paged_loop (fuel : nat) (token : option string) (url : string)
         (entity_name : string) (current_page total_pages : option Z)
         (next_page : Z) (entities : list value) : M (list value) :=
  again <- lift (paged_continue current_page total_pages) ;;
  if again
  then match fuel with
       | O => out_of_fuel
       | S fuel' =>
           log (LogGettingPage next_page) ;;
           data <- help_scout_get url (Some [("page", VInt next_page)]) token ;;
           current_page <- lift (page_number data entity_name) ;;
           total_pages <- lift (page_count data entity_name) ;;
           let next_page := current_page + 1 in
           items <- lift (page_items data entity_name) ;;
           let entities := (entities ++ items)%list in
           sleep REQUEST_DELAY ;;
           paged_loop fuel' token url entity_name (Some current_page) (Some total_pages)
                      next_page entities
       end
  else ret entities.

Definition get_paged_help_scout_entities (fuel : nat) (token : option string)
           (url : string) (entity_name : string) : M (list value) :=
  paged_loop fuel token url entity_name None None 1 [].

(** [[article["id"] for article in articles]] *)
Fixpoint ids_of (articles : list value) : exn + list value :=
  match articles with
  | [] => inr []
  | article :: rest =>
      (id <- getitem article "id" ;;
       ids <- ids_of rest ;;
       inr (id :: ids))%sum_py
  end.

Definition get_article_ids (fuel : nat) (token : option string)
           (collection_id : string) : M (list value) :=
  log (LogGettingArticleIds collection_id) ;;
  articles <- get_paged_help_scout_entities fuel token
                ("https://docsapi.helpscout.net/v1/collections/" ++ collection_id ++ "/articles")
                "articles" ;;
  article_ids <- lift (ids_of articles) ;;
  ret article_ids.

Definition get_collections (fuel : nat) (token : option string) : M (list value) :=
  let url := "https://docsapi.helpscout.net/v1/collections" in
  log LogGettingCollections ;;
  collections <- get_paged_help_scout_entities fuel token url "collections" ;;
  ret collections.

Definition export_help_scout_docs (fuel : nat) (token : option string)
           (collection_id : string) (directory_path : Path) : M unit :=
  log LogStartingExport ;;
  article_ids <- get_article_ids fuel token collection_id ;;
  log (LogFoundArticleIds (len article_ids)) ;;
  articles <- fetch_articles fuel article_ids directory_path token ;;
  log (LogSavedAll (len articles) directory_path).

(** The parsed command line. *)
Record Namespace := mkNamespace {
  arg_token : option string;
  arg_collection : option string;
  arg_output_dir : option string
}.

(** [parser.error(message=...)]: prints the message and exits with status 2. *)
Definition parser_error {A} (message : string) : M A :=
  log (LogParserError message) ;; exit 2.

(** The [for collection in collections] loop of [main]. *)
Fixpoint log_collections (collections : list value) : M unit :=
  match collections with
  | [] => ret tt
  | collection :: rest =>
      id <- lift (getitem collection "id") ;;
      log (LogCollection id (json_dumps collection 2)) ;;
      log_collections rest
  end.

(** [main()], after argument parsing.  [getenv] is the value of the
    [HELPSCOUTAUTH] environment variable and [now] the text of
    [datetime.now().isoformat()]. *)
Definition main (fuel : nat) (args : Namespace) (getenv : option string)
           (now : string) : M unit :=
  let token := match arg_token args with
               | Some t => if str_truthy t then Some t else getenv
               | None => getenv
               end in
  match token with
  | None => parser_error "HELPSCOUTAUTH environment variable (or --token) must be set."
  | Some _ =>
      match arg_collection args with
      | None =>
          log LogNoCollection ;;
          log LogFetchingCollectionInfo ;;
          collections <- get_collections fuel token ;;
          match collections with
          | [] => parser_error "No collections found for token."
          | _ :: _ =>
              log LogFoundCollections ;;
              log_collections collections ;;
              log LogPleaseSpecify ;;
              exit 1
          end
      | Some collection =>
          directory_path <-
            match arg_output_dir args with
            | None =>
                let directory_name := "help-scout-export-" ++ now in
                log (LogDefaultDirectory directory_name) ;;
                ret (mkPath directory_name)
            | Some output_dir => ret (mkPath output_dir)
            end ;;
          found <- path_exists directory_path ;;
          if found
          then parser_error ("Output directory " ++ directory_path ++ " already exists.")
          else export_help_scout_docs fuel token collection directory_path
      end
  end.

End Program.

Arguments mkNamespace arg_token arg_collection arg_output_dir : clear implicits.

(** ** A concrete library and concrete servers, for running the model *)

Module Sample.

Definition newline : string := String (ascii_of_nat 10) EmptyString.

Definition hex_digit (n : nat) : string :=
  match String.get n "0123456789abcdef" with
  | Some c => String c EmptyString
  | None => "0"
  end.

(** One character inside a JSON string, as [json.dump] writes it (with
    [ensure_ascii]): the quote and the backslash behind a backslash, the
    control characters and those outside ASCII as escapes. *)
Definition escape_char (c : ascii) : string :=
  let n := nat_of_ascii c in
  let backslash := String (ascii_of_nat 92) EmptyString in
  if (n =? 34)%nat then backslash ++ String c EmptyString
  else if (n =? 92)%nat then backslash ++ backslash
  else if (n =? 10)%nat then backslash ++ "n"
  else if (n =? 13)%nat then backslash ++ "r"
  else if (n =? 9)%nat then backslash ++ "t"
  else if (n =? 8)%nat then backslash ++ "b"
  else if (n =? 12)%nat then backslash ++ "f"
  else if ((n <? 32) || (126 <? n))%nat
       then backslash ++ "u00" ++ hex_digit (n / 16) ++ hex_digit (n mod 16)
       else String c EmptyString.

Fixpoint escape (s : string) : string :=
  match s with
  | EmptyString => EmptyString
  | String c rest => escape_char c ++ escape rest
  end.

Definition quote (s : string) : string :=
  String (ascii_of_nat 34) (escape s) ++ String (ascii_of_nat 34) EmptyString.

(** A plain JSON printer: nested containers are indented by [step]
    more than their parent. *)
Fixpoint dumps_at (step : string) (indent : string) (v : value) : string :=
  match v with
  | VNone => "null"
  | VBool true => "true"
  | VBool false => "false"
  | VInt z => str_of_int z
  | VFloat q => str_of_int (Qnum q) ++ "/" ++ str_of_int (Zpos (Qden q))
  | VStr s => quote s
  | VList [] => "[]"
  | VList l =>
      let inner := indent ++ step in
      "[" ++ newline ++ inner
      ++ (fix items (l : list value) : string :=
            match l with
            | [] => EmptyString
            | [x] => dumps_at step inner x
            | x :: rest => dumps_at step inner x ++ "," ++ newline ++ inner ++ items rest
            end) l
      ++ newline ++ indent ++ "]"
  | VDict [] => "{}"
  | VDict kv =>
      let inner := indent ++ step in
      "{" ++ newline ++ inner
      ++ (fix items (kv : list (string * value)) : string :=
            match kv with
            | [] => EmptyString
            | [(k, x)] => quote k ++ ": " ++ dumps_at step inner x
            | (k, x) :: rest =>
                quote k ++ ": " ++ dumps_at step inner x ++ "," ++ newline ++ inner ++ items rest
            end) kv
      ++ newline ++ indent ++ "}"
  end.

Fixpoint spaces (n : nat) : string :=
  match n with
  | O => EmptyString
  | S n' => " " ++ spaces n'
  end.

Definition dumps (v : value) (indent : Z) : string :=
  dumps_at (spaces (Z.to_nat indent)) EmptyString v.

(** [str(v)] of a value that is no string: Python's own spelling of [None]
    and the booleans, the JSON text for the rest. *)
Definition repr (v : value) : string :=
  match v with
  | VNone => "None"
  | VBool true => "True"
  | VBool false => "False"
  | _ => dumps v 0
  end.

Definition text_of (v : value) : string :=
  match v with
  | VStr s => s
  | _ => repr v
  end.

(** [key=value] pairs joined by [&]; no character needs quoting in the
    parameters the program sends. *)
Fixpoint encode_pairs (kv : list (string * value)) : string :=
  match kv with
  | [] => EmptyString
  | [(k, v)] => k ++ "=" ++ text_of v
  | (k, v) :: rest => k ++ "=" ++ text_of v ++ "&" ++ encode_pairs rest
  end.

Fixpoint lstrip (s : string) : string :=
  match s with
  | String c rest => if Ascii.eqb c " " then lstrip rest else s
  | EmptyString => EmptyString
  end.

Definition reverse (s : string) : string :=
  string_of_list_ascii (rev (list_ascii_of_string s)).

Definition strip (s : string) : string := reverse (lstrip (reverse (lstrip s))).

(** [int(s)] on decimal digits with an optional sign, blanks around
    allowed. *)
Definition parse_int (s : string) : option Z :=
  match strip s with
  | String "+" digits =>
      match NilZero.uint_of_string digits with
      | Some d => Some (Z.of_uint d)
      | None => None
      end
  | String "-" digits =>
      match NilZero.uint_of_string digits with
      | Some d => Some (- Z.of_uint d)
      | None => None
      end
  | digits =>
      match NilZero.uint_of_string digits with
      | Some d => Some (Z.of_uint d)
      | None => None
      end
  end.

(** The text before the last [/] of a path, if it has one. *)
Fixpoint parent_of (p : string) : option string :=
  match p with
  | EmptyString => None
  | String c rest =>
      match parent_of rest with
      | Some d => Some (String c d)
      | None => if Ascii.eqb c "/" then Some EmptyString else None
      end
  end.

(** A system that refuses to make a directory or to open a file where the
    parent is not a directory; a name without [/] lives in the working
    directory, and the root is there. *)
Definition refuses (fs : FS) (op : fs_op) : option string :=
  let p := match op with
           | OsMkdir p => p
           | OsOpen p => p
           end in
  match parent_of p with
  | None | Some EmptyString => None
  | Some d =>
      match fs_lookup fs d with
      | Some Dir => None
      | _ => Some "FileNotFoundError"
      end
  end.

#[export] Instance lib : PyLib := {|
  urlencode := encode_pairs;
  py_repr := repr;
  int_of_str := parse_int;
  json_dumps := dumps;
  mkPath := fun s => s;
  joinpath := fun d name => d ++ "/" ++ name;
  os_refuses := refuses
|}.

Definition world0 : World := mkWorld [] [].

Definition err503 : http_error := mkHTTPError 503 "Service Unavailable".
Definition err404 : http_error := mkHTTPError 404 "Not Found".

(** A server that answers every call with the same document. *)
Definition always (data : value) : nat -> Request -> NetOutcome :=
  fun _ _ => NetOk data.

(** A server that fails the first [n] calls and then answers [data]. *)
Definition flaky (n : nat) (e : http_error) (data : value) : nat -> Request -> NetOutcome :=
  fun k _ => if (k <? n)%nat then NetHTTPError e else NetOk data.

(** A server that fails every call. *)
Definition down (e : http_error) : nat -> Request -> NetOutcome :=
  fun _ _ => NetHTTPError e.

(** A server that answers by the url alone. *)
Definition by_url (table : list (string * value)) : nat -> Request -> NetOutcome :=
  fun _ r =>
    match assoc (req_url r) table with
    | Some data => NetOk data
    | None => NetHTTPError err404
    end.

Definition page (entity_name : string) (page pages : Z) (items : list value) : value :=
  VDict [(entity_name,
          VDict [("page", VInt page); ("pages", VInt pages); ("items", VList items)])].

Definition article (slug id : string) : value :=
  VDict [("article", VDict [("slug", VStr slug); ("id", VStr id)])].

End Sample.

(** ** Vocabulary of the statements *)

(** *** Traces *)

Definition requests_of (tr : list event) : list Request :=
  flat_map (fun e => match e with
                     | EvRequest r _ => [r]
                     | _ => []
                     end) tr.

Definition sleeps_of (tr : list event) : list Z :=
  flat_map (fun e => match e with
                     | EvSleep n => [n]
                     | _ => []
                     end) tr.

Definition writes_of (tr : list event) : list (Path * string) :=
  flat_map (fun e => match e with
                     | EvWrite p c => [(p, c)]
                     | _ => []
                     end) tr.

(** The documents successfully fetched, in order. *)
Definition fetched_of (tr : list event) : list value :=
  flat_map (fun e => match e with
                     | EvRequest _ (NetOk data) => [data]
                     | _ => []
                     end) tr.

Definition is_log (e : event) : Prop :=
  match e with
  | EvLog _ => True
  | _ => False
  end.

(** *** The HTTP client *)

(** [k] copies of [s] in a row. *)
Fixpoint repeat_str (s : string) (k : nat) : string :=
  match k with
  | O => EmptyString
  | S k' => s ++ repeat_str s k'
  end.

(** The url the [k]-th attempt of a call requests, [k] counted from 1. *)
Definition attempt_url `{lib : PyLib} (params : option (list (string * value))) (url : string)
           (k : nat) : string :=
  Nat.iter k (add_params params) url.

(** The requests a call may issue: the same headers every time, the url of
    attempt [k] at position [k]. *)
Definition attempt_requests `{lib : PyLib} (params : option (list (string * value))) (url : string)
           (headers : list (string * string)) (n : nat) : list Request :=
  map (fun k => mkRequest (attempt_url params url k) headers) (seq 1 n).

(** The events of attempts that fail with the errors [es], none of them
    the last attempt allowed: request, log line, one delay. *)
Fixpoint failed_attempts `{lib : PyLib} (headers : list (string * string))
         (params : option (list (string * value))) (url : string)
         (es : list http_error) : list event :=
  match es with
  | [] => []
  | e :: es' =>
      let url' := add_params params url in
      EvRequest (mkRequest url' headers) (NetHTTPError e)
      :: EvLog (LogRequestError e)
      :: EvSleep REQUEST_DELAY
      :: failed_attempts headers params url' es'
  end.

(** Ways in which control leaves [safe_get] from inside the loop. *)
Definition left_from_loop {A} (r : result A) : Prop :=
  (exists data, r = Ok data)
  \/ (exists e, r = Raise (HTTPError e))
  \/ r = Raise UnicodeEncodeError
  \/ (exists what, r = Raise (TransportError what)).

(** The credentials [help_scout_get] hands to [safe_get]. *)
Definition token_auth (token : option string) : option (string * option string) :=
  match token with
  | Some t => if str_truthy t then Some (t, Some "x") else None
  | None => None
  end.

(** *** Listings *)

(** The request for page [k] of a listing, on its first attempt. *)
Definition page_request `{lib : PyLib} (url : string) (headers : list (string * string))
           (k : Z) : Request :=
  mkRequest (url ++ "?" ++ urlencode [("page", VInt k)]) headers.

(** What fetching page [k] at the first attempt leaves in the trace. *)
Definition page_events `{lib : PyLib} (url : string) (headers : list (string * string))
           (k : Z) (data : value) : list event :=
  [EvLog (LogGettingPage k);
   EvRequest (page_request url headers k) (NetOk data);
   EvSleep REQUEST_DELAY].

(** A listing of [pages] behind [url]: at any time, the request for page
    [k] is answered by the document [doc k], which reports page [k] of
    [length pages] and carries the [k]-th list of items.  A listing without
    pages still answers the request for page 1, with no items. *)
Definition serves_pages `{lib : PyLib} (net : nat -> Request -> NetOutcome)
           (url entity_name : string) (headers : list (string * string))
           (pages : list (list value)) (doc : nat -> value) : Prop :=
  forall c k,
    (1 <= k <= Nat.max 1 (List.length pages))%nat ->
    net c (page_request url headers (Z.of_nat k)) = NetOk (doc k)
    /\ page_number (doc k) entity_name = inr (Z.of_nat k)
    /\ page_count (doc k) entity_name = inr (len pages)
    /\ page_items (doc k) entity_name = inr (nth (k - 1) pages []).

(** *** Exported files *)

(** The names [unique_filename] tries, in order: [<base><ext>],
    [<base>-1<ext>], [<base>-2<ext>], ... *)
Definition suffix_of (k : nat) : string :=
  match k with
  | O => EmptyString
  | S _ => "-" ++ str_of_int (Z.of_nat k)
  end.

Definition candidate `{lib : PyLib} (directory_path : Path) (base_filename : value)
           (extension : string) (k : nat) : Path :=
  joinpath directory_path (py_str base_filename ++ suffix_of k ++ extension).

(** A file written from the document [data]: its text is the whole of
    [data] dumped with indent 2, its name one of the candidates built on the
    [slug] of the inner [article] object. *)
Definition written_from `{lib : PyLib} (dir : Path) (data : value)
           (file : Path * string) : Prop :=
  snd file = json_dumps data 2
  /\ exists article slug k,
      getitem data "article" = inr article
      /\ getitem article "slug" = inr slug
      /\ fst file = candidate dir slug ".json" k.

(** The output directory [main] settles on. *)
Definition resolved_directory `{lib : PyLib} (args : Namespace) (now : string) : Path :=
  match arg_output_dir args with
  | None => mkPath ("help-scout-export-" ++ now)
  | Some output_dir => mkPath output_dir
  end.

(** *** A scenario: two articles with the same slug *)

Module Scenario.

Definition summaries : list value :=
  [VDict [("id", VStr "a1")]; VDict [("id", VStr "a2")]].

Definition server : nat -> Request -> NetOutcome :=
  Sample.by_url
    [("https://docsapi.helpscout.net/v1/collections/c1/articles?page=1",
      Sample.page "articles" 1 1 summaries);
     ("https://docsapi.helpscout.net/v1/articles/a1", Sample.article "intro" "a1");
     ("https://docsapi.helpscout.net/v1/articles/a2", Sample.article "intro" "a2")].

Definition args : Namespace := mkNamespace (Some "tok") (Some "c1") (Some "out").

Definition run : result unit * World :=
  main (lib := Sample.lib) server 5 args None "2024-01-01T00:00:00" Sample.world0.

End Scenario.

(** *** The filesystem in a trace, article urls, credentials *)

(** Events that change the filesystem. *)
Definition touches_fs (e : event) : bool :=
  match e with
  | EvMkdir _ | EvWrite _ _ => true
  | _ => false
  end.

(** A stretch of trace in which the filesystem is left alone. *)
Definition quiet (tr : list event) : Prop :=
  Forall (fun e => touches_fs e = false) tr.

(** The url [fetch_articles] builds for an article id. *)
Definition article_url `{lib : PyLib} (article_id : value) : string :=
  "https://docsapi.helpscout.net/v1/articles/" ++ py_str article_id.

(** The url of the article listing of a collection, and of the listing of
    collections. *)
Definition articles_url (collection_id : string) : string :=
  "https://docsapi.helpscout.net/v1/collections/" ++ collection_id ++ "/articles".

Definition collections_url : string :=
  "https://docsapi.helpscout.net/v1/collections".

(** The credential [main] settles on: [args.token or os.getenv(...)]. *)
Definition resolved_token (args : Namespace) (getenv : option string) : option string :=
  match arg_token args with
  | Some t => if str_truthy t then Some t else getenv
  | None => getenv
  end.

(** The names tried for [base] and [extension] in [dir] are different
    paths. *)
Definition candidates_differ `{lib : PyLib} (dir : Path) (base : value)
           (extension : string) : Prop :=
  forall j k, candidate dir base extension j = candidate dir base extension k -> j = k.

(** The system lets the exporter work in [dir] for the articles of
    [article_ids]: it refuses no [open] of a name tried for the slug of one
    of them, as long as [dir] is a directory. *)
Definition accepts_articles `{lib : PyLib} (dir : Path) (article_ids : list value)
           (doc : value -> value) : Prop :=
  forall fs article_id article slug k,
    In article_id article_ids ->
    getitem (doc article_id) "article" = inr article ->
    getitem article "slug" = inr slug ->
    fs_lookup fs dir = Some Dir ->
    os_refuses fs (OsOpen (candidate dir slug ".json" k)) = None.

(** The beat of a run: its requests and its sleeps, in the order in which
    they happen. *)
Inductive beat : Type :=
| BeatRequest (r : Request)
| BeatSleep (seconds : Z).

Definition beats_of (tr : list event) : list beat :=
  flat_map (fun e => match e with
                     | EvRequest r _ => [BeatRequest r]
                     | EvSleep n => [BeatSleep n]
                     | _ => []
                     end) tr.

(** The requests [rs] with one sleep of [REQUEST_DELAY] between two
    consecutive ones, none before the first and none after the last. *)
Fixpoint sleep_between (rs : list Request) : list beat :=
  match rs with
  | [] => []
  | r :: rest =>
      match rest with
      | [] => [BeatRequest r]
      | _ :: _ => BeatRequest r :: BeatSleep REQUEST_DELAY :: sleep_between rest
      end
  end.

(** One sleep of [REQUEST_DELAY] after each of the requests [rs]. *)
Definition sleep_after (rs : list Request) : list beat :=
  flat_map (fun r => [BeatRequest r; BeatSleep REQUEST_DELAY]) rs.

(** One sleep of [REQUEST_DELAY] before each of the requests [rs]. *)
Definition sleep_before (rs : list Request) : list beat :=
  flat_map (fun r => [BeatSleep REQUEST_DELAY; BeatRequest r]) rs.

(** A server behind which every id of [article_ids] has its article: at any
    time the request for the id is answered by the document [doc id], an
    object whose [article] has a [slug]. *)
Definition serves_articles `{lib : PyLib} (net : nat -> Request -> NetOutcome)
           (headers : list (string * string)) (article_ids : list value)
           (doc : value -> value) : Prop :=
  forall c article_id,
    In article_id article_ids ->
    net c (mkRequest (article_url article_id) headers) = NetOk (doc article_id)
    /\ exists article slug,
        getitem (doc article_id) "article" = inr article
        /\ getitem article "slug" = inr slug.

(** * Properties *)

(** ** Strings *)

Lemma append_assoc (a b c : string) : (a ++ b) ++ c = a ++ (b ++ c).
Proof.
  induction a as [|x a IH]; simpl; [reflexivity | now rewrite IH].
Qed.

Lemma append_nil_r (a : string) : a ++ EmptyString = a.
Proof.
  induction a as [|x a IH]; simpl; [reflexivity | now rewrite IH].
Qed.

Lemma length_append (a b : string) :
  String.length (a ++ b) = (String.length a + String.length b)%nat.
Proof.
  induction a as [|x a IH]; simpl; [reflexivity | now rewrite IH].
Qed.

(** A string followed by something non-empty is a different string. *)
Lemma append_nonempty_neq (a b : string) : b <> EmptyString -> a ++ b <> a.
Proof.
  intros Hb E.
  assert (L : String.length (a ++ b) = String.length a) by now rewrite E.
  rewrite length_append in L.
  destruct b; [now apply Hb | simpl in L; lia].
Qed.

(** ** Traces *)

Lemma ncalls_app (t1 t2 : list event) : ncalls (t1 ++ t2) = (ncalls t1 + ncalls t2)%nat.
Proof.
  unfold ncalls. now rewrite filter_app, length_app.
Qed.

Lemma requests_of_app (t1 t2 : list event) :
  requests_of (t1 ++ t2) = (requests_of t1 ++ requests_of t2)%list.
Proof. apply flat_map_app. Qed.

Lemma writes_of_app (t1 t2 : list event) :
  writes_of (t1 ++ t2) = (writes_of t1 ++ writes_of t2)%list.
Proof. apply flat_map_app. Qed.

Lemma fetched_of_app (t1 t2 : list event) :
  fetched_of (t1 ++ t2) = (fetched_of t1 ++ fetched_of t2)%list.
Proof. apply flat_map_app. Qed.

(** ** The retry loop of safe_get *)

Section SafeGet.

Context {lib : PyLib}.
Variable net : nat -> Request -> NetOutcome.

Lemma attempt_url_shift params url k :
  attempt_url params (add_params params url) k = attempt_url params url (S k).
Proof.
  unfold attempt_url. now rewrite Nat.iter_succ_r.
Qed.

Lemma attempt_url_truthy kv url k :
  kv <> [] ->
  attempt_url (Some kv) url k = url ++ repeat_str ("?" ++ urlencode kv) k.
Proof.
  intros Hkv. unfold attempt_url.
  induction k as [|k IH]; simpl.
  - now rewrite append_nil_r.
  - rewrite IH. unfold add_params.
    destruct kv as [|p kv]; [contradiction|]. cbn [params_truthy params_items].
    rewrite append_assoc. f_equal.
    clear. induction k as [|k IH]; simpl.
    + now rewrite append_nil_r.
    + rewrite <- IH. now rewrite !append_assoc.
Qed.

Lemma auth_headers_error auth e :
  auth_headers auth = inl e -> e = UnicodeEncodeError.
Proof.
  unfold auth_headers. destruct auth as [[u p]|]; [|discriminate].
  destruct (encode_ascii _); [discriminate | congruence].
Qed.

(** One pass through the body of the loop. *)
Lemma safe_get_loop_step attempt rest retries url params auth w :
  safe_get_loop net (attempt :: rest) retries url params auth w =
  match auth_headers auth with
  | inl _ => (Raise UnicodeEncodeError, w)
  | inr headers =>
      let url' := add_params params url in
      let o := net (ncalls (w_trace w)) (mkRequest url' headers) in
      let tr := (w_trace w ++ [EvRequest (mkRequest url' headers) o])%list in
      match o with
      | NetOk data => (Ok (Some data), mkWorld (w_fs w) tr)
      | NetFailure what => (Raise (TransportError what), mkWorld (w_fs w) tr)
      | NetHTTPError e =>
          if attempt <? retries - 1
          then safe_get_loop net rest retries url' params auth
                 (mkWorld (w_fs w)
                          (tr ++ [EvLog (LogRequestError e); EvSleep REQUEST_DELAY]))
          else (Raise (HTTPError e),
                mkWorld (w_fs w) (tr ++ [EvLog (LogRequestError e)]))
      end
  end.
Proof.
  cbn [safe_get_loop]. unfold try_except_HTTPError, bind at 1.
  destruct (auth_headers auth) as [e|headers] eqn:Ha.
  - apply auth_headers_error in Ha. subst e. reflexivity.
  - cbn [lift ret]. unfold bind at 1, urlopen. cbn zeta.
    destruct (net _ _) as [data|e|what]; cbn; try reflexivity.
    destruct (attempt <? retries - 1); unfold bind, log, sleep, emit, raise; cbn;
      rewrite <- ?app_assoc; reflexivity.
Qed.

Lemma ncalls_failed_attempts headers params url es :
  ncalls (failed_attempts headers params url es) = List.length es.
Proof.
  revert url. induction es as [|e es IH]; intros url; [reflexivity|].
  cbn [failed_attempts]. change (ncalls (?a :: ?b :: ?c :: ?t)) with (S (ncalls t)).
  now rewrite IH.
Qed.

Lemma sleeps_failed_attempts headers params url es :
  sleeps_of (failed_attempts headers params url es) = repeat REQUEST_DELAY (List.length es).
Proof.
  revert url. induction es as [|e es IH]; intros url; [reflexivity|].
  cbn [failed_attempts List.length repeat].
  change (sleeps_of (?a :: ?b :: EvSleep ?n :: ?t)) with (n :: sleeps_of t).
  now rewrite IH.
Qed.

(** The loop through a run of failing attempts that are not the last. *)
Lemma safe_get_loop_failures es :
  forall a n url params auth headers w,
    auth_headers auth = inr headers ->
    (List.length es < n)%nat ->
    (forall k e, nth_error es k = Some e ->
                 net (ncalls (w_trace w) + k)
                     (mkRequest (attempt_url params url (S k)) headers) = NetHTTPError e) ->
    safe_get_loop net (map Z.of_nat (seq a n)) (Z.of_nat (a + n)) url params auth w =
    safe_get_loop net (map Z.of_nat (seq (a + List.length es) (n - List.length es)))
                  (Z.of_nat (a + n)) (attempt_url params url (List.length es)) params auth
                  (mkWorld (w_fs w) (w_trace w ++ failed_attempts headers params url es)).
Proof.
  induction es as [|e es IH]; intros a n url params auth headers w Ha Hn Hf.
  - cbn. rewrite Nat.add_0_r, Nat.sub_0_r, app_nil_r. now destruct w.
  - cbn [List.length] in *. destruct n as [|n]; [lia|].
    cbn [seq map]. rewrite safe_get_loop_step, Ha. cbn zeta.
    pose proof (Hf 0%nat e eq_refl) as H0. rewrite Nat.add_0_r in H0.
    change (attempt_url params url 1) with (add_params params url) in H0.
    rewrite H0.
    replace (Z.of_nat a <? Z.of_nat (a + S n) - 1) with true
      by (symmetry; apply Z.ltb_lt; lia).
    replace (Z.of_nat (a + S n)) with (Z.of_nat (S a + n)) by (f_equal; lia).
    rewrite (IH (S a) n (add_params params url) params auth headers); auto; try lia.
    + cbn [w_fs w_trace]. rewrite attempt_url_shift.
      replace (S a + List.length es)%nat with (a + S (List.length es))%nat by lia.
      cbn [Nat.sub failed_attempts]. rewrite <- !app_assoc. reflexivity.
    + intros k e' Hk. cbn [w_trace]. rewrite attempt_url_shift.
      rewrite <- app_assoc, ncalls_app.
      cbn [app]. change (ncalls (_ :: _ :: _ :: nil)) with 1%nat.
      replace (ncalls (w_trace w) + 1 + k)%nat with (ncalls (w_trace w) + S k)%nat by lia.
      apply (Hf (S k)). exact Hk.
Qed.

End SafeGet.

Section SafeGetRuns.

Context {lib : PyLib}.
Variable net : nat -> Request -> NetOutcome.

Lemma attempt_requests_cons params url headers n :
  attempt_requests params url headers (S n) =
  mkRequest (add_params params url) headers
  :: attempt_requests params (add_params params url) headers n.
Proof.
  unfold attempt_requests. cbn [seq map]. f_equal.
  rewrite <- seq_shift, map_map. apply map_ext. intros k.
  now rewrite attempt_url_shift.
Qed.

(** What any run of the loop leaves behind: the filesystem is untouched,
    and the requests issued are an initial segment of [attempt_requests]. *)
Lemma safe_get_loop_trace attempts :
  forall retries url params auth w,
  exists new n,
    snd (safe_get_loop net attempts retries url params auth w)
    = mkWorld (w_fs w) (w_trace w ++ new)
    /\ (n <= List.length attempts)%nat
    /\ writes_of new = []
    /\ match auth_headers auth with
       | inr headers =>
           requests_of new = attempt_requests params url headers n
           /\ (attempts <> [] -> (1 <= n)%nat)
       | inl _ => new = []
       end.
Proof.
  induction attempts as [|attempt rest IH]; intros retries url params auth w.
  - exists [], 0%nat. cbn. rewrite app_nil_r. destruct w.
    repeat split; auto. destruct (auth_headers auth); [reflexivity|].
    split; [reflexivity | congruence].
  - rewrite safe_get_loop_step.
    destruct (auth_headers auth) as [e|headers] eqn:Ha.
    + exists [], 0%nat. cbn. rewrite app_nil_r. destruct w.
      repeat split; auto. lia.
    + cbn zeta. destruct (net _ _) as [data|e|what] eqn:Hn.
      * eexists [_], 1%nat. cbn [snd List.length]. repeat split; auto; lia.
      * destruct (attempt <? retries - 1).
        -- specialize (IH retries (add_params params url) params auth
                          (mkWorld (w_fs w)
                             ((w_trace w ++ [EvRequest (mkRequest (add_params params url) headers)
                                                       (NetHTTPError e)])
                              ++ [EvLog (LogRequestError e); EvSleep REQUEST_DELAY]))).
           destruct IH as (new & n & Hw & Hle & Hwr & Hreq).
           rewrite Ha in Hreq. destruct Hreq as [Hreq _].
           exists (EvRequest (mkRequest (add_params params url) headers) (NetHTTPError e)
                   :: EvLog (LogRequestError e) :: EvSleep REQUEST_DELAY :: new), (S n).
           rewrite Hw. cbn [w_fs w_trace List.length].
           rewrite <- !app_assoc. cbn [app].
           repeat split; auto; try lia.
           rewrite attempt_requests_cons. unfold requests_of in Hreq |- *.
           cbn [flat_map app]. now rewrite Hreq.
        -- eexists [_; _], 1%nat. cbn [snd List.length].
           rewrite <- app_assoc. cbn [app]. repeat split; auto; lia.
      * eexists [_], 1%nat. cbn [snd List.length]. repeat split; auto; lia.
Qed.

(** With the attempts numbered up to [retries - 1], the loop never runs to
    completion. *)
Lemma safe_get_loop_leaves n :
  forall a url params auth w,
    (1 <= n)%nat ->
    (exists data,
        fst (safe_get_loop net (map Z.of_nat (seq a n)) (Z.of_nat (a + n)) url params auth w)
        = Ok (Some data))
    \/ (exists e,
        fst (safe_get_loop net (map Z.of_nat (seq a n)) (Z.of_nat (a + n)) url params auth w)
        = Raise e
        /\ ((exists h, e = HTTPError h) \/ e = UnicodeEncodeError
            \/ (exists what, e = TransportError what))).
Proof.
  induction n as [|n IH]; intros a url params auth w Hn; [lia|].
  cbn [seq map]. rewrite safe_get_loop_step.
  destruct (auth_headers auth) as [e|headers].
  { right. exists UnicodeEncodeError. cbn. auto. }
  cbn zeta. destruct (net _ _) as [data|e|what].
  - left. exists data. reflexivity.
  - destruct (Z.of_nat a <? Z.of_nat (a + S n) - 1) eqn:Hlt.
    + apply Z.ltb_lt in Hlt.
      replace (Z.of_nat (a + S n)) with (Z.of_nat (S a + n)) by (f_equal; lia).
      apply IH. lia.
    + right. exists (HTTPError e). cbn. eauto.
  - right. exists (TransportError what). cbn. eauto.
Qed.

Lemma range_seq retries :
  range retries = map Z.of_nat (seq 0 (Z.to_nat retries)).
Proof. reflexivity. Qed.

(** A non-empty loop with encodable credentials opens with a request to the
    url extended once. *)
Lemma safe_get_loop_first_request attempt rest retries url params auth headers w :
  auth_headers auth = inr headers ->
  exists o tail,
    snd (safe_get_loop net (attempt :: rest) retries url params auth w)
    = mkWorld (w_fs w)
        (w_trace w ++ EvRequest (mkRequest (add_params params url) headers) o :: tail).
Proof.
  intros Ha. rewrite safe_get_loop_step, Ha. cbn zeta.
  destruct (net _ _) as [data|e|what].
  - exists (NetOk data), []. reflexivity.
  - exists (NetHTTPError e). destruct (attempt <? retries - 1).
    + match goal with
      | |- context [safe_get_loop net rest retries ?u params auth ?w0] =>
          destruct (safe_get_loop_trace rest retries u params auth w0)
            as (new & n & Hw & _)
      end.
      exists (EvLog (LogRequestError e) :: EvSleep REQUEST_DELAY :: new).
      rewrite Hw. cbn [w_fs w_trace]. now rewrite <- !app_assoc.
    + exists [EvLog (LogRequestError e)]. cbn [snd]. now rewrite <- app_assoc.
  - exists (NetFailure what), []. reflexivity.
Qed.

Lemma safe_get_snd url params auth retries w :
  snd (safe_get net url params auth retries w)
  = snd (safe_get_loop net (range retries) retries url params auth w).
Proof.
  unfold safe_get, bind.
  now destruct (safe_get_loop net (range retries) retries url params auth w)
    as [[[d|]|e|] w'].
Qed.

End SafeGetRuns.

(** ** Properties of the HTTP client *)

(** C3.  Retry policy of [safe_get].  Let the first [length es] attempts of
    a call fail with the HTTP errors [es], where attempt [N = length es + 1]
    is still within the [retries] attempts allowed.  If attempt [N] succeeds,
    its decoded JSON is returned and no error is raised.  If attempt [N]
    fails with an HTTP error and [N = retries], exactly that error is raised.
    In both cases every failed attempt but the last allowed one is followed
    by a sleep of [REQUEST_DELAY = 1] and then by the next attempt. *)
Theorem safe_get_retry_policy `{lib : PyLib} (net : nat -> Request -> NetOutcome)
        (url : string) (params : option (list (string * value)))
        (auth : option (string * option string)) (headers : list (string * string))
        (retries : Z) (es : list http_error) (w : World) :
  auth_headers auth = inr headers ->
  Z.of_nat (List.length es) + 1 <= retries ->
  (forall k e, nth_error es k = Some e ->
               net (ncalls (w_trace w) + k)%nat
                   (mkRequest (attempt_url params url (S k)) headers) = NetHTTPError e) ->
  let last := mkRequest (attempt_url params url (S (List.length es))) headers in
  let c := (ncalls (w_trace w) + List.length es)%nat in
  (forall data,
      net c last = NetOk data ->
      safe_get net url params auth retries w
      = (Ok data,
         mkWorld (w_fs w)
                 (w_trace w ++ failed_attempts headers params url es
                  ++ [EvRequest last (NetOk data)])))
  /\ (forall e,
         net c last = NetHTTPError e ->
         Z.of_nat (List.length es) + 1 = retries ->
         safe_get net url params auth retries w
         = (Raise (HTTPError e),
            mkWorld (w_fs w)
                    (w_trace w ++ failed_attempts headers params url es
                     ++ [EvRequest last (NetHTTPError e); EvLog (LogRequestError e)])))
  /\ sleeps_of (failed_attempts headers params url es) = repeat 1 (List.length es).
Proof.
  intros Ha Hle Hf last c.
  assert (Hloop :
    safe_get_loop net (range retries) retries url params auth w
    = safe_get_loop net
        (map Z.of_nat (seq (List.length es) (Z.to_nat retries - List.length es)))
        retries (attempt_url params url (List.length es)) params auth
        (mkWorld (w_fs w) (w_trace w ++ failed_attempts headers params url es))).
  { rewrite range_seq.
    pose proof (@safe_get_loop_failures lib net es 0%nat (Z.to_nat retries)
                  url params auth headers w Ha) as H.
    cbn [Nat.add] in H. rewrite Z2Nat.id in H by lia.
    apply H; [lia | exact Hf]. }
  assert (Hseq : exists m, (Z.to_nat retries - List.length es)%nat = S m).
  { exists (Z.to_nat retries - List.length es - 1)%nat. lia. }
  destruct Hseq as [m Hm].
  assert (Hstep : forall o, net c last = o ->
    safe_get_loop net (range retries) retries url params auth w
    = match o with
      | NetOk data =>
          (Ok (Some data),
           mkWorld (w_fs w) (w_trace w ++ failed_attempts headers params url es
                             ++ [EvRequest last o]))
      | NetFailure what =>
          (Raise (TransportError what),
           mkWorld (w_fs w) (w_trace w ++ failed_attempts headers params url es
                             ++ [EvRequest last o]))
      | NetHTTPError e =>
          if Z.of_nat (List.length es) <? retries - 1
          then safe_get_loop net (map Z.of_nat (seq (S (List.length es)) m)) retries
                 (attempt_url params url (S (List.length es))) params auth
                 (mkWorld (w_fs w)
                    (w_trace w ++ failed_attempts headers params url es
                     ++ [EvRequest last o; EvLog (LogRequestError e); EvSleep REQUEST_DELAY]))
          else (Raise (HTTPError e),
                mkWorld (w_fs w)
                  (w_trace w ++ failed_attempts headers params url es
                   ++ [EvRequest last o; EvLog (LogRequestError e)]))
      end).
  { intros o Ho. rewrite Hloop, Hm. cbn [seq map].
    rewrite safe_get_loop_step, Ha. cbn zeta. cbn [w_fs w_trace].
    rewrite ncalls_app, ncalls_failed_attempts.
    change (add_params params (attempt_url params url (List.length es)))
      with (attempt_url params url (S (List.length es))).
    fold last. fold c. rewrite Ho.
    destruct o; rewrite <- ?app_assoc; reflexivity. }
  split; [|split].
  - intros data Hd. unfold safe_get, bind. now rewrite (Hstep _ Hd).
  - intros e He Heq. unfold safe_get, bind. rewrite (Hstep _ He).
    replace (Z.of_nat (List.length es) <? retries - 1) with false
      by (symmetry; apply Z.ltb_ge; lia).
    reflexivity.
  - apply sleeps_failed_attempts.
Qed.

(** One failure and then a success within the default two attempts; and two
    failures, which exhaust them. *)
Lemma safe_get_retry_policy_witness :
  safe_get (lib := Sample.lib) (Sample.flaky 1 Sample.err503 (VInt 7))
           "https://h" None (Some ("tok", Some "x")) 2 Sample.world0
  = (Ok (VInt 7),
     mkWorld []
       [EvRequest (mkRequest "https://h" [("Authorization", "Basic dG9rOng=")])
                  (NetHTTPError Sample.err503);
        EvLog (LogRequestError Sample.err503);
        EvSleep 1;
        EvRequest (mkRequest "https://h" [("Authorization", "Basic dG9rOng=")])
                  (NetOk (VInt 7))])
  /\ safe_get (lib := Sample.lib) (Sample.down Sample.err503)
              "https://h" None (Some ("tok", Some "x")) 2 Sample.world0
     = (Raise (HTTPError Sample.err503),
        mkWorld []
          [EvRequest (mkRequest "https://h" [("Authorization", "Basic dG9rOng=")])
                     (NetHTTPError Sample.err503);
           EvLog (LogRequestError Sample.err503);
           EvSleep 1;
           EvRequest (mkRequest "https://h" [("Authorization", "Basic dG9rOng=")])
                     (NetHTTPError Sample.err503);
           EvLog (LogRequestError Sample.err503)]).
Proof.
  split.
  - refine (proj1 (@safe_get_retry_policy Sample.lib
                     (Sample.flaky 1 Sample.err503 (VInt 7)) "https://h" None
                     (Some ("tok", Some "x"))
                     [("Authorization", "Basic dG9rOng=")] 2 [Sample.err503]
                     Sample.world0 eq_refl _ _) (VInt 7) eq_refl).
    + simpl. lia.
    + intros [|[|k]] e Hk; simpl in Hk; try discriminate.
      injection Hk as <-. reflexivity.
  - refine (proj1 (proj2 (@safe_get_retry_policy Sample.lib
                     (Sample.down Sample.err503) "https://h" None
                     (Some ("tok", Some "x"))
                     [("Authorization", "Basic dG9rOng=")] 2 [Sample.err503]
                     Sample.world0 eq_refl _ _)) Sample.err503 eq_refl eq_refl).
    + simpl. lia.
    + intros [|[|k]] e Hk; simpl in Hk; try discriminate.
      injection Hk as <-. reflexivity.
Defined.

(** C8 (amended).  For [retries >= 1] the loop of [safe_get] never runs to
    completion, so the [raise Exception] after it is not reached: the call
    returns the decoded JSON, or raises the HTTP error of an attempt, or lets
    through an exception that is no [HTTPError] (the credentials do not
    encode, or the transport or the JSON decoding fails), each from inside
    the loop. *)
Theorem safe_get_never_falls_through `{lib : PyLib} (net : nat -> Request -> NetOutcome)
        (url : string) (params : option (list (string * value)))
        (auth : option (string * option string)) (retries : Z) (w : World) :
  1 <= retries ->
  fst (safe_get_loop net (range retries) retries url params auth w) <> Ok None
  /\ left_from_loop (fst (safe_get net url params auth retries w))
  /\ fst (safe_get net url params auth retries w) <> Raise BareException.
Proof.
  intros Hr.
  assert (Hn : (1 <= Z.to_nat retries)%nat) by lia.
  pose proof (@safe_get_loop_leaves lib net (Z.to_nat retries) 0%nat
                url params auth w Hn) as H.
  cbn [Nat.add] in H. rewrite Z2Nat.id in H by lia. rewrite <- range_seq in H.
  unfold safe_get, bind, left_from_loop.
  destruct (safe_get_loop net (range retries) retries url params auth w) as [r w'].
  cbn [fst] in *.
  destruct H as [[data ->] | (e & -> & He)].
  - split; [discriminate|]. cbn. split; [eauto | discriminate].
  - split; [discriminate|]. cbn.
    destruct He as [[h ->] | [-> | [what ->]]]; split; eauto; discriminate.
Qed.

Lemma safe_get_never_falls_through_witness :
  left_from_loop
    (fst (safe_get (lib := Sample.lib) (Sample.down Sample.err503)
                   "https://h" None None 1 Sample.world0)).
Proof.
  apply (@safe_get_never_falls_through Sample.lib). lia.
Defined.

(** C8, as first stated, fails on credentials that are not ASCII: the call
    neither returns a value nor raises an HTTP error. *)
Lemma safe_get_raises_encode_error :
  let r := fst (safe_get (lib := Sample.lib) (Sample.always VNone) "https://h" None
                         (Some (String (ascii_of_nat 233) EmptyString, None))
                         2 Sample.world0) in
  1 <= 2
  /\ r = Raise UnicodeEncodeError
  /\ ~ ((exists data, r = Ok data) \/ (exists e, r = Raise (HTTPError e))).
Proof.
  cbv zeta. split; [lia|]. split; [reflexivity|].
  intros [[data H] | [e H]]; vm_compute in H; discriminate.
Qed.

(** C10.  With a non-empty [params], [safe_get] appends the encoded query
    to [url] once per attempt: the [k]-th request of the call goes to [url]
    followed by [k] copies of the query string.  When the first attempt
    fails with an HTTP error and a second attempt is allowed, the second
    request goes to a url different from the first. *)
Theorem safe_get_appends_query_per_attempt `{lib : PyLib}
        (net : nat -> Request -> NetOutcome) (url : string)
        (kv : list (string * value)) (auth : option (string * option string))
        (retries : Z) (w : World) :
  kv <> [] ->
  let query := "?" ++ urlencode kv in
  (exists new,
      snd (safe_get net url (Some kv) auth retries w)
      = mkWorld (w_fs w) (w_trace w ++ new)
      /\ map req_url (requests_of new)
         = map (fun k => url ++ repeat_str query k)
               (seq 1 (List.length (requests_of new))))
  /\ (forall headers e,
         auth_headers auth = inr headers ->
         2 <= retries ->
         net (ncalls (w_trace w)) (mkRequest (url ++ query) headers) = NetHTTPError e ->
         exists o rest,
           snd (safe_get net url (Some kv) auth retries w)
           = mkWorld (w_fs w)
               (w_trace w
                ++ EvRequest (mkRequest (url ++ query) headers) (NetHTTPError e)
                   :: EvLog (LogRequestError e)
                   :: EvSleep REQUEST_DELAY
                   :: EvRequest (mkRequest (url ++ query ++ query) headers) o
                   :: rest)
           /\ url ++ query ++ query <> url ++ query).
Proof.
  intros Hkv query. split.
  - destruct (@safe_get_loop_trace lib net (range retries) retries url (Some kv) auth w)
      as (new & n & Hw & _ & _ & Hreq).
    exists new. split.
    + now rewrite safe_get_snd.
    + destruct (auth_headers auth) as [e|headers].
      * subst new. reflexivity.
      * destruct Hreq as [Hreq _]. rewrite Hreq. unfold attempt_requests.
        rewrite length_map, length_seq, map_map. apply map_ext. intros k.
        cbn [req_url]. now apply attempt_url_truthy.
  - intros headers e Ha Hr Hnet.
    assert (Hq : add_params (Some kv) url = url ++ query).
    { unfold add_params. destruct kv; [contradiction | reflexivity]. }
    assert (Hq2 : add_params (Some kv) (url ++ query) = url ++ query ++ query).
    { unfold add_params. destruct kv; [contradiction|].
      cbn [params_truthy params_items]. fold query. now rewrite append_assoc. }
    destruct (Z.to_nat retries) as [|[|m]] eqn:Hm; try lia.
    rewrite safe_get_snd, range_seq, Hm. cbn [seq map].
    rewrite safe_get_loop_step, Ha. cbn zeta. rewrite Hq, Hnet.
    replace (Z.of_nat 0 <? retries - 1) with true by (symmetry; apply Z.ltb_lt; lia).
    match goal with
    | |- context [safe_get_loop net (?a :: ?l) retries ?u ?p auth ?w0] =>
        destruct (@safe_get_loop_first_request lib net a l retries u p auth headers w0 Ha)
          as (o & tail & Hw)
    end.
    exists o, tail. rewrite Hw, Hq2. cbn [w_fs w_trace]. split.
    + now rewrite <- !app_assoc.
    + rewrite <- append_assoc. apply append_nonempty_neq. discriminate.
Qed.

Lemma safe_get_appends_query_per_attempt_witness :
  exists o rest,
    snd (safe_get (lib := Sample.lib) (Sample.flaky 1 Sample.err503 (VInt 7))
                  "https://h/articles" (Some [("page", VInt 1)]) None 2 Sample.world0)
    = mkWorld []
        ([] ++ EvRequest (mkRequest "https://h/articles?page=1" []) (NetHTTPError Sample.err503)
            :: EvLog (LogRequestError Sample.err503)
            :: EvSleep 1
            :: EvRequest (mkRequest "https://h/articles?page=1?page=1" []) o
            :: rest)
    /\ "https://h/articles?page=1?page=1" <> "https://h/articles?page=1".
Proof.
  assert (Hkv : [("page", VInt 1)] <> @nil (string * value)) by discriminate.
  exact (proj2 (@safe_get_appends_query_per_attempt Sample.lib
                  (Sample.flaky 1 Sample.err503 (VInt 7)) "https://h/articles"
                  [("page", VInt 1)] None 2 Sample.world0 Hkv)
               [] Sample.err503 eq_refl ltac:(lia) eq_refl).
Defined.

(** C1 (amended).  A call of [help_scout_get] with a non-empty ASCII token
    issues at least one request, and every request it issues carries the one
    header [Authorization: Basic base64(token + ":x")]: the password sent is
    the fixed text [x].  The empty password is what [safe_get] itself puts in
    when it is handed the password [None]: then the header is
    [Basic base64(username + ":")]. *)
Theorem help_scout_get_authorization `{lib : PyLib} (net : nat -> Request -> NetOutcome)
        (url : string) (params : option (list (string * value)))
        (token : string) (bytes : list N) (w : World) :
  str_truthy token = true ->
  encode_ascii (token ++ ":x") = Some bytes ->
  (exists new,
      snd (help_scout_get net url params (Some token) w)
      = mkWorld (w_fs w) (w_trace w ++ new)
      /\ requests_of new <> []
      /\ Forall (fun r => req_headers r
                          = [("Authorization", "Basic " ++ Base64.b64encode bytes)])
                (requests_of new))
  /\ (forall retries bytes0,
         1 <= retries ->
         encode_ascii (token ++ ":") = Some bytes0 ->
         exists new,
           snd (safe_get net url params (Some (token, None)) retries w)
           = mkWorld (w_fs w) (w_trace w ++ new)
           /\ requests_of new <> []
           /\ Forall (fun r => req_headers r
                               = [("Authorization", "Basic " ++ Base64.b64encode bytes0)])
                     (requests_of new)).
Proof.
  intros Ht Hb.
  assert (Hgen : forall auth headers retries,
             1 <= retries ->
             auth_headers auth = inr headers ->
             exists new,
               snd (safe_get net url params auth retries w)
               = mkWorld (w_fs w) (w_trace w ++ new)
               /\ requests_of new <> []
               /\ Forall (fun r => req_headers r = headers) (requests_of new)).
  { intros auth headers retries Hr Ha.
    destruct (@safe_get_loop_trace lib net (range retries) retries url params auth w)
      as (new & n & Hw & _ & _ & Hreq).
    rewrite Ha in Hreq. destruct Hreq as [Hreq Hn].
    exists new. rewrite safe_get_snd. split; [exact Hw|].
    assert (H1 : (1 <= n)%nat).
    { apply Hn. rewrite range_seq.
      destruct (Z.to_nat retries) eqn:E; [lia | discriminate]. }
    rewrite Hreq. unfold attempt_requests. split.
    - destruct n; [lia | discriminate].
    - apply Forall_forall. intros r Hin. apply in_map_iff in Hin.
      destruct Hin as (k & <- & _). reflexivity. }
  split.
  - unfold help_scout_get. rewrite Ht. apply Hgen; [lia|].
    unfold auth_headers.
    change (token ++ ":" ++ "x") with (token ++ ":x"). now rewrite Hb.
  - intros retries bytes0 Hr Hb0. apply Hgen; [exact Hr|].
    unfold auth_headers.
    change (token ++ ":" ++ EmptyString) with (token ++ ":"). now rewrite Hb0.
Qed.

Lemma help_scout_get_authorization_witness :
  exists new,
    snd (help_scout_get (lib := Sample.lib) (Sample.always VNone) "https://h" None
                        (Some "tok") Sample.world0)
    = mkWorld [] ([] ++ new)
    /\ requests_of new <> []
    /\ Forall (fun r => req_headers r = [("Authorization", "Basic dG9rOng=")])
              (requests_of new).
Proof.
  exact (proj1 (@help_scout_get_authorization Sample.lib (Sample.always VNone)
                  "https://h" None "tok" [116; 111; 107; 58; 120]%N Sample.world0
                  eq_refl eq_refl)).
Defined.

(** C1, as first stated, fails: for the token [a] the header sent is
    [Basic YTp4], the encoding of [a:x], and not [Basic YTo=], the encoding
    of [a:]. *)
Lemma help_scout_get_password_not_empty :
  let w := snd (help_scout_get (lib := Sample.lib) (Sample.always VNone) "https://h" None
                               (Some "a") Sample.world0) in
  requests_of (w_trace w)
  = [mkRequest "https://h" [("Authorization", "Basic YTp4")]]
  /\ option_map (fun bytes => "Basic " ++ Base64.b64encode bytes) (encode_ascii ("a" ++ ":"))
     = Some "Basic YTo="
  /\ ~ Forall (fun r => forall bytes,
                   encode_ascii ("a" ++ ":") = Some bytes ->
                   In ("Authorization", "Basic " ++ Base64.b64encode bytes) (req_headers r))
              (requests_of (w_trace w)).
Proof.
  cbv zeta. split; [reflexivity|]. split; [reflexivity|].
  intros H. inversion H as [|r l Hr _]; subst.
  specialize (Hr _ eq_refl). cbn in Hr.
  destruct Hr as [Hr | []]. discriminate Hr.
Qed.

(** ** Unique file names *)

Lemma unique_filename_loop_from `{lib : PyLib} (dir : Path) (base : value) (ext : string)
      (w : World) (k : nat) :
  (forall j, (j < k)%nat -> fs_exists (w_fs w) (candidate dir base ext j) = true) ->
  fs_exists (w_fs w) (candidate dir base ext k) = false ->
  forall d j fuel,
    (j + d = k)%nat ->
    (d <= fuel)%nat ->
    unique_filename_loop fuel dir base ext (suffix_of j) (Z.of_nat j + 1) w
    = (Ok (candidate dir base ext k), w).
Proof.
  intros Hbusy Hfree.
  induction d as [|d IH]; intros j fuel Hj Hfuel.
  - replace j with k by lia.
    destruct fuel; cbn [unique_filename_loop]; unfold bind, path_exists;
      fold (candidate dir base ext k); now rewrite Hfree.
  - destruct fuel as [|fuel]; [lia|].
    cbn [unique_filename_loop]. unfold bind at 1, path_exists.
    fold (candidate dir base ext j). rewrite Hbusy by lia.
    replace (Z.of_nat j + 1) with (Z.of_nat (S j)) by lia.
    change ("-" ++ str_of_int (Z.of_nat (S j))) with (suffix_of (S j)).
    apply IH; lia.
Qed.

(** C5.  When the first [k] names tried by [unique_filename] exist in the
    directory and the next one does not, the call returns that next name and
    leaves the world as it was: it returns the first of [<base><ext>],
    [<base>-1<ext>], [<base>-2<ext>], ... that does not exist at call time
    (for [foo.json] alone that is [foo-1.json], for [foo.json] and
    [foo-1.json] it is [foo-2.json]). *)
Theorem unique_filename_first_free `{lib : PyLib} (fuel : nat) (dir : Path) (base : value)
        (ext : string) (w : World) (k : nat) :
  (forall j, (j < k)%nat -> fs_exists (w_fs w) (candidate dir base ext j) = true) ->
  fs_exists (w_fs w) (candidate dir base ext k) = false ->
  (k <= fuel)%nat ->
  unique_filename fuel dir base ext w = (Ok (candidate dir base ext k), w)
  /\ candidate dir base ext 0 = joinpath dir (py_str base ++ ext)
  /\ candidate dir base ext 1 = joinpath dir (py_str base ++ "-1" ++ ext)
  /\ candidate dir base ext 2 = joinpath dir (py_str base ++ "-2" ++ ext).
Proof.
  intros Hbusy Hfree Hfuel. split; [|repeat split].
  unfold unique_filename.
  apply (@unique_filename_loop_from lib dir base ext w k Hbusy Hfree k 0%nat fuel);
    [lia | exact Hfuel].
Qed.

Lemma unique_filename_first_free_witness :
  let only_foo := mkWorld [("out/foo.json", File "{}"); ("out", Dir)] [] in
  let foo_and_foo1 :=
    mkWorld [("out/foo-1.json", File "{}"); ("out/foo.json", File "{}"); ("out", Dir)] [] in
  unique_filename (lib := Sample.lib) 5 "out" (VStr "foo") ".json" only_foo
  = (Ok "out/foo-1.json", only_foo)
  /\ unique_filename (lib := Sample.lib) 5 "out" (VStr "foo") ".json" foo_and_foo1
     = (Ok "out/foo-2.json", foo_and_foo1)
  /\ unique_filename (lib := Sample.lib) 5 "out" (VStr "foo") ".json" (mkWorld [("out", Dir)] [])
     = (Ok "out/foo.json", mkWorld [("out", Dir)] []).
Proof.
  cbv zeta. split; [|split].
  - apply (@unique_filename_first_free Sample.lib 5 "out" (VStr "foo") ".json" _ 1%nat);
      [intros [|j] Hj; [reflexivity | lia] | reflexivity | lia].
  - apply (@unique_filename_first_free Sample.lib 5 "out" (VStr "foo") ".json" _ 2%nat);
      [intros [|[|j]] Hj; [reflexivity | reflexivity | lia] | reflexivity | lia].
  - apply (@unique_filename_first_free Sample.lib 5 "out" (VStr "foo") ".json" _ 0%nat);
      [intros j Hj; lia | reflexivity | lia].
Defined.

(** ** The paginated fetcher *)

Section Paging.

Context {lib : PyLib}.
Variable net : nat -> Request -> NetOutcome.

Lemma help_scout_get_ok url params token headers data w :
  auth_headers (token_auth token) = inr headers ->
  net (ncalls (w_trace w)) (mkRequest (add_params params url) headers) = NetOk data ->
  help_scout_get net url params token w
  = (Ok data,
     mkWorld (w_fs w)
             (w_trace w ++ [EvRequest (mkRequest (add_params params url) headers)
                                      (NetOk data)])).
Proof.
  intros Ha Hn. change (help_scout_get net url params token)
    with (safe_get net url params (token_auth token) 2).
  unfold safe_get, bind. change (range 2) with [0; 1].
  now rewrite safe_get_loop_step, Ha; cbn zeta; rewrite Hn.
Qed.

(** One turn of the [while] loop when the page arrives at the first attempt. *)
Lemma paged_loop_turn fuel token url entity_name cur tot next entities w
      headers data cp tp items :
  paged_continue cur tot = inr true ->
  auth_headers (token_auth token) = inr headers ->
  net (ncalls (w_trace w)) (page_request url headers next) = NetOk data ->
  page_number data entity_name = inr cp ->
  page_count data entity_name = inr tp ->
  page_items data entity_name = inr items ->
  paged_loop net (S fuel) token url entity_name cur tot next entities w
  = paged_loop net fuel token url entity_name (Some cp) (Some tp) (cp + 1)
               (entities ++ items)
               (mkWorld (w_fs w) (w_trace w ++ page_events url headers next data)).
Proof.
  intros Hc Ha Hn Hp Ht Hi.
  cbn [paged_loop]. unfold bind at 1. rewrite Hc. cbn [lift ret].
  unfold bind at 1, log, emit.
  unfold bind at 1.
  rewrite (@help_scout_get_ok url (Some [("page", VInt next)]) token headers data
             (mkWorld (w_fs w) (w_trace w ++ [EvLog (LogGettingPage next)])) Ha).
  2:{ cbn [w_trace]. rewrite ncalls_app. cbn [ncalls filter is_request List.length].
      rewrite Nat.add_0_r. exact Hn. }
  unfold bind at 1. rewrite Hp. cbn [lift ret].
  unfold bind at 1. rewrite Ht. cbn [lift ret].
  unfold bind at 1. rewrite Hi. cbn [lift ret].
  unfold bind at 1, sleep, emit. cbn [w_fs w_trace].
  unfold page_events, page_request. rewrite <- !app_assoc. reflexivity.
Qed.

Lemma paged_loop_stop fuel token url entity_name cp tp next entities w :
  tp <= cp ->
  paged_loop net fuel token url entity_name (Some cp) (Some tp) next entities w
  = (Ok entities, w).
Proof.
  intros H. assert (Hc : (cp <? tp) = false) by (apply Z.ltb_ge; lia).
  destruct fuel; cbn [paged_loop]; unfold bind, paged_continue; rewrite Hc; reflexivity.
Qed.

End Paging.

(** C2 (amended).  When the first response reports [pages <= page] (as
    with [pages] 0 or 1 on page 1), the fetcher issues that one request only
    and returns exactly the items of page 1, so the empty sequence when page
    1 has no items. *)
Theorem paged_fetch_single_page `{lib : PyLib} (net : nat -> Request -> NetOutcome)
        (fuel : nat) (token : option string) (url entity_name : string) (w : World)
        (headers : list (string * string)) (data : value) (cp tp : Z)
        (items : list value) :
  auth_headers (token_auth token) = inr headers ->
  net (ncalls (w_trace w)) (page_request url headers 1) = NetOk data ->
  page_number data entity_name = inr cp ->
  page_count data entity_name = inr tp ->
  page_items data entity_name = inr items ->
  tp <= cp ->
  (1 <= fuel)%nat ->
  get_paged_help_scout_entities net fuel token url entity_name w
  = (Ok items, mkWorld (w_fs w) (w_trace w ++ page_events url headers 1 data))
  /\ requests_of (page_events url headers 1 data) = [page_request url headers 1]
  /\ (items = [] ->
      fst (get_paged_help_scout_entities net fuel token url entity_name w) = Ok []).
Proof.
  intros Ha Hn Hp Ht Hi Hle Hfuel.
  assert (Hrun : get_paged_help_scout_entities net fuel token url entity_name w
                 = (Ok items, mkWorld (w_fs w) (w_trace w ++ page_events url headers 1 data))).
  { unfold get_paged_help_scout_entities. destruct fuel as [|fuel]; [lia|].
    rewrite (@paged_loop_turn lib net fuel token url entity_name None None 1 [] w
               headers data cp tp items eq_refl Ha Hn Hp Ht Hi).
    now rewrite paged_loop_stop. }
  split; [exact Hrun|]. split; [reflexivity|].
  intros ->. now rewrite Hrun.
Qed.

Lemma paged_fetch_single_page_witness :
  get_paged_help_scout_entities (lib := Sample.lib)
    (Sample.always (Sample.page "articles" 1 0 [])) 1 (Some "tok")
    "https://h/articles" "articles" Sample.world0
  = (Ok [],
     mkWorld []
       [EvLog (LogGettingPage 1);
        EvRequest (mkRequest "https://h/articles?page=1"
                             [("Authorization", "Basic dG9rOng=")])
                  (NetOk (Sample.page "articles" 1 0 []));
        EvSleep 1]).
Proof.
  exact (proj1 (@paged_fetch_single_page Sample.lib
                  (Sample.always (Sample.page "articles" 1 0 [])) 1 (Some "tok")
                  "https://h/articles" "articles" Sample.world0
                  [("Authorization", "Basic dG9rOng=")]
                  (Sample.page "articles" 1 0 []) 1 0 []
                  eq_refl eq_refl eq_refl eq_refl eq_refl
                  ltac:(lia) ltac:(lia))).
Defined.

(** C2, as first stated, fails on both of its cases.  An empty page 1 of
    two pages does not stop the walk: page 2 is requested and its items are
    returned.  And a first response with [pages] 0 that still carries items
    has those items returned. *)
Lemma paged_fetch_empty_first_page_continues :
  let server := Sample.by_url
                  [("https://h/articles?page=1", Sample.page "articles" 1 2 []);
                   ("https://h/articles?page=2", Sample.page "articles" 2 2 [VStr "a"])] in
  let r := get_paged_help_scout_entities (lib := Sample.lib) server 5 (Some "tok")
             "https://h/articles" "articles" Sample.world0 in
  let r0 := get_paged_help_scout_entities (lib := Sample.lib)
              (Sample.always (Sample.page "articles" 1 0 [VStr "a"])) 5 (Some "tok")
              "https://h/articles" "articles" Sample.world0 in
  page_items (Sample.page "articles" 1 2 []) "articles" = inr []
  /\ fst r = Ok [VStr "a"]
  /\ map req_url (requests_of (w_trace (snd r)))
     = ["https://h/articles?page=1"; "https://h/articles?page=2"]
  /\ page_count (lib := Sample.lib) (Sample.page "articles" 1 0 [VStr "a"]) "articles" = inr 0
  /\ fst r0 = Ok [VStr "a"]
  /\ ~ (fst r = Ok [] /\ List.length (requests_of (w_trace (snd r))) = 1%nat)
  /\ fst r0 <> Ok [].
Proof.
  cbv zeta. repeat (split; [reflexivity|]). split.
  - intros [H _]. vm_compute in H. discriminate.
  - intros H. vm_compute in H. discriminate.
Qed.

Lemma skipn_nth_cons {A} (l : list A) (d : A) (j : nat) :
  (j < List.length l)%nat -> skipn j l = nth j l d :: skipn (S j) l.
Proof.
  revert j. induction l as [|x l IH]; intros j Hj; cbn [List.length] in Hj; [lia|].
  destruct j as [|j]; [reflexivity|].
  cbn [skipn nth]. apply IH. lia.
Qed.

Lemma length_concat_sum {A} (ls : list (list A)) :
  List.length (List.concat ls) = list_sum (map (@List.length A) ls).
Proof.
  induction ls as [|l ls IH]; [reflexivity|].
  cbn [List.concat map list_sum]. now rewrite length_app, IH.
Qed.

Section Listing.

Context {lib : PyLib}.
Variable net : nat -> Request -> NetOutcome.
Variables (token : option string) (url entity_name : string).
Variable headers : list (string * string).
Variable pages : list (list value).
Variable doc : nat -> value.

Hypothesis Hauth : auth_headers (token_auth token) = inr headers.
Hypothesis Hserves : serves_pages net url entity_name headers pages doc.

(** From page [j] on: the remaining pages are fetched in order and their
    items appended. *)
Lemma paged_loop_remaining d :
  forall j fuel entities w,
    (1 <= j)%nat ->
    (j + d = Nat.max 1 (List.length pages))%nat ->
    (d <= fuel)%nat ->
    paged_loop net fuel token url entity_name (Some (Z.of_nat j)) (Some (len pages))
               (Z.of_nat j + 1) entities w
    = (Ok (entities ++ List.concat (skipn j pages))%list,
       mkWorld (w_fs w)
               (w_trace w
                ++ flat_map (fun k => page_events url headers (Z.of_nat k) (doc k))
                            (seq (S j) d))).
Proof.
  induction d as [|d IH]; intros j fuel entities w Hj Hd Hfuel.
  - rewrite paged_loop_stop by (unfold len; lia).
    rewrite skipn_all2 by lia. cbn [List.concat seq flat_map].
    rewrite !app_nil_r. now destruct w.
  - destruct fuel as [|fuel]; [lia|].
    assert (HjP : (j < List.length pages)%nat) by lia.
    destruct (Hserves (ncalls (w_trace w)) (k := S j)) as (Hn & Hp & Ht & Hi); [lia|].
    replace (Z.of_nat j + 1) with (Z.of_nat (S j)) by lia.
    rewrite (@paged_loop_turn lib net fuel token url entity_name
               (Some (Z.of_nat j)) (Some (len pages)) (Z.of_nat (S j)) entities w
               headers (doc (S j)) (Z.of_nat (S j)) (len pages) (nth (S j - 1) pages []));
      auto.
    2:{ unfold paged_continue, len.
        replace (Z.of_nat j <? Z.of_nat (List.length pages)) with true
          by (symmetry; apply Z.ltb_lt; lia).
        reflexivity. }
    rewrite IH by lia. cbn [w_fs w_trace seq flat_map].
    replace (S j - 1)%nat with j by lia.
    rewrite (skipn_nth_cons pages [] HjP). cbn [List.concat].
    now rewrite <- !app_assoc.
Qed.

Lemma paged_all_pages fuel w :
  (Nat.max 1 (List.length pages) <= fuel)%nat ->
  get_paged_help_scout_entities net fuel token url entity_name w
  = (Ok (List.concat pages),
     mkWorld (w_fs w)
             (w_trace w
              ++ flat_map (fun k => page_events url headers (Z.of_nat k) (doc k))
                          (seq 1 (Nat.max 1 (List.length pages))))).
Proof.
  intros Hfuel. unfold get_paged_help_scout_entities.
  destruct fuel as [|fuel]; [lia|].
  destruct (Hserves (ncalls (w_trace w)) (k := 1%nat)) as (Hn & Hp & Ht & Hi); [lia|].
  rewrite (@paged_loop_turn lib net fuel token url entity_name None None 1 [] w
             headers (doc 1%nat) 1 (len pages) (nth 0 pages []) eq_refl Hauth Hn Hp Ht Hi).
  change 1 with (Z.of_nat 1) at 1.
  rewrite (@paged_loop_remaining (Nat.max 1 (List.length pages) - 1) 1%nat) by lia.
  cbn [w_fs w_trace app].
  replace (Nat.max 1 (List.length pages)) with (S (Nat.max 1 (List.length pages) - 1)) at 2
    by lia.
  cbn [seq flat_map]. rewrite <- app_assoc. f_equal.
  destruct pages as [|p ps]; [reflexivity|]. cbn [nth skipn List.concat]. reflexivity.
Qed.

End Listing.

(** C4.  Against a listing of [P] pages, the fetcher asks for page 1, page
    2, ..., page [P] in this order, one request each, and returns the items
    of page 1 followed by those of page 2 and so on: every item appears once
    per occurrence, and the length is the sum of the page sizes. *)
Theorem paged_fetch_concatenates `{lib : PyLib} (net : nat -> Request -> NetOutcome)
        (token : option string) (url entity_name : string)
        (headers : list (string * string)) (pages : list (list value))
        (doc : nat -> value) (fuel : nat) (w : World) :
  auth_headers (token_auth token) = inr headers ->
  serves_pages net url entity_name headers pages doc ->
  (Nat.max 1 (List.length pages) <= fuel)%nat ->
  exists new,
    get_paged_help_scout_entities net fuel token url entity_name w
    = (Ok (List.concat pages), mkWorld (w_fs w) (w_trace w ++ new))
    /\ requests_of new
       = map (fun k => page_request url headers (Z.of_nat k))
             (seq 1 (Nat.max 1 (List.length pages)))
    /\ List.length (List.concat pages) = list_sum (map (@List.length value) pages).
Proof.
  intros Ha Hs Hfuel.
  exists (flat_map (fun k => page_events url headers (Z.of_nat k) (doc k))
                   (seq 1 (Nat.max 1 (List.length pages)))).
  split; [now apply paged_all_pages|]. split; [|apply length_concat_sum].
  generalize (seq 1 (Nat.max 1 (List.length pages))). intros l.
  induction l as [|k l IH]; [reflexivity|].
  cbn [flat_map map]. rewrite requests_of_app, IH. reflexivity.
Qed.

(** Two pages that share the item [b]: it comes back twice. *)
Lemma paged_fetch_concatenates_witness :
  let pages := [[VStr "a"; VStr "b"]; [VStr "b"]] in
  let doc := fun k => Sample.page "articles" (Z.of_nat k) 2 (nth (k - 1) pages []) in
  let server := Sample.by_url [("https://h/articles?page=1", doc 1%nat);
                               ("https://h/articles?page=2", doc 2%nat)] in
  exists new,
    get_paged_help_scout_entities (lib := Sample.lib) server 2 (Some "tok")
      "https://h/articles" "articles" Sample.world0
    = (Ok [VStr "a"; VStr "b"; VStr "b"], mkWorld [] ([] ++ new))
    /\ requests_of new
       = [mkRequest "https://h/articles?page=1" [("Authorization", "Basic dG9rOng=")];
          mkRequest "https://h/articles?page=2" [("Authorization", "Basic dG9rOng=")]]
    /\ List.length [VStr "a"; VStr "b"; VStr "b"] = 3%nat.
Proof.
  cbv zeta.
  refine (@paged_fetch_concatenates Sample.lib _ (Some "tok")
            "https://h/articles" "articles" [("Authorization", "Basic dG9rOng=")]
            [[VStr "a"; VStr "b"]; [VStr "b"]]
            (fun k => Sample.page "articles" (Z.of_nat k) 2
                        (nth (k - 1) [[VStr "a"; VStr "b"]; [VStr "b"]] []))
            2 Sample.world0 eq_refl _ _).
  - intros c k Hk. cbn [List.length Nat.max] in Hk.
    destruct k as [|[|[|k]]]; try lia; repeat split; reflexivity.
  - cbn. lia.
Defined.

(** ** The exporter and the command line *)

Lemma only_logs_no_requests (tr : list event) :
  Forall is_log tr -> requests_of tr = [] /\ writes_of tr = [].
Proof.
  induction 1 as [|e tr He _ [IH1 IH2]]; [split; reflexivity|].
  destruct e; try contradiction. split; [exact IH1 | exact IH2].
Qed.

(** C6.  If a collection is given and the output directory [main] settles
    on exists, the process ends with exit status 2 having only written log
    lines: no request is issued, no file or directory is written, the
    filesystem is as before.  And [fetch_articles] itself, called on an
    existing directory, ends with exit status 1 before any request or write,
    the filesystem as before. *)
Theorem existing_directory_refused `{lib : PyLib} (net : nat -> Request -> NetOutcome)
        (fuel : nat) (args : Namespace) (getenv : option string) (now : string)
        (collection : string) (w : World) :
  arg_collection args = Some collection ->
  fs_exists (w_fs w) (resolved_directory args now) = true ->
  (exists new,
      main net fuel args getenv now w
      = (Raise (SystemExit 2), mkWorld (w_fs w) (w_trace w ++ new))
      /\ Forall is_log new
      /\ requests_of new = []
      /\ writes_of new = [])
  /\ (forall article_ids token,
         fetch_articles net fuel article_ids (resolved_directory args now) token w
         = (Raise (SystemExit 1),
            mkWorld (w_fs w)
                    (w_trace w
                     ++ [EvLog (LogCreatingDirectory (resolved_directory args now));
                         EvLog (LogDirectoryExists (resolved_directory args now))]))).
Proof.
  intros Hc Hex. split.
  - assert (Hlogs : forall new, Forall is_log new ->
                                Forall is_log new /\ requests_of new = [] /\ writes_of new = []).
    { intros new H. split; [exact H | now apply only_logs_no_requests]. }
    unfold main. rewrite Hc.
    destruct (match arg_token args with
              | Some t => if str_truthy t then Some t else getenv
              | None => getenv
              end) as [t|].
    + unfold resolved_directory in Hex.
      destruct (arg_output_dir args) as [output_dir|].
      * eexists [_]. unfold bind, ret, path_exists, parser_error, log, emit, exit, raise.
        cbn [w_fs w_trace]. rewrite Hex. split; [reflexivity|].
        apply Hlogs. repeat constructor.
      * eexists [_; _]. unfold bind, ret, path_exists, parser_error, log, emit, exit, raise.
        cbn [w_fs w_trace]. rewrite Hex.
        unfold bind, log, emit. cbn [w_fs w_trace]. rewrite <- app_assoc.
        split; [reflexivity|]. apply Hlogs. repeat constructor.
    + eexists [_]. unfold parser_error, bind, log, emit, exit, raise.
      split; [reflexivity|]. apply Hlogs. repeat constructor.
  - intros article_ids token. unfold fetch_articles.
    unfold bind at 1, log, emit. unfold bind at 1.
    unfold try_except_FileExistsError, mkdir. cbn [w_fs w_trace]. rewrite Hex.
    unfold bind, log, emit, exit, raise. cbn [w_fs w_trace].
    now rewrite <- app_assoc.
Qed.

Lemma existing_directory_refused_witness :
  let w := mkWorld [("backup/old.json", File "{}"); ("backup", Dir)] [] in
  let args := mkNamespace (Some "tok") (Some "c1") (Some "backup") in
  exists new,
    main (lib := Sample.lib) (Sample.always VNone) 5 args None "2024-01-01T00:00:00" w
    = (Raise (SystemExit 2), mkWorld (w_fs w) (w_trace w ++ new))
    /\ Forall is_log new
    /\ requests_of new = []
    /\ writes_of new = [].
Proof.
  cbv zeta.
  exact (proj1 (@existing_directory_refused Sample.lib (Sample.always VNone) 5
                  (mkNamespace (Some "tok") (Some "c1") (Some "backup")) None
                  "2024-01-01T00:00:00" "c1"
                  (mkWorld [("backup/old.json", File "{}"); ("backup", Dir)] [])
                  eq_refl eq_refl)).
Defined.

(** *** The filesystem *)

Lemma fs_lookup_remove_other (fs : FS) (p q : Path) :
  q <> p -> fs_lookup (fs_remove fs p) q = fs_lookup fs q.
Proof.
  intros Hq. induction fs as [|[r n] fs IH]; [reflexivity|].
  cbn [fs_remove fs_lookup].
  destruct (String.eqb_spec r p) as [->|Hr].
  - rewrite IH. destruct (String.eqb_spec p q) as [->|]; [contradiction | reflexivity].
  - cbn [fs_lookup]. now rewrite IH.
Qed.

Lemma fs_lookup_put_same (fs : FS) (p : Path) (n : node) :
  fs_lookup (fs_put fs p n) p = Some n.
Proof.
  unfold fs_put. cbn [fs_lookup]. now rewrite String.eqb_refl.
Qed.

Lemma fs_lookup_put_other (fs : FS) (p q : Path) (n : node) :
  q <> p -> fs_lookup (fs_put fs p n) q = fs_lookup fs q.
Proof.
  intros Hq. unfold fs_put. cbn [fs_lookup].
  destruct (String.eqb_spec p q) as [->|]; [contradiction|].
  now apply fs_lookup_remove_other.
Qed.

(** Writing to a path that does not exist keeps every existing entry. *)
Lemma fs_put_fresh_keeps (fs : FS) (p q : Path) (n m : node) :
  fs_exists fs p = false ->
  fs_lookup fs q = Some m ->
  fs_lookup (fs_put fs p n) q = Some m.
Proof.
  intros Hp Hq. rewrite fs_lookup_put_other; [exact Hq|].
  intros ->. unfold fs_exists in Hp. now rewrite Hq in Hp.
Qed.

Section ExportSteps.

Context {lib : PyLib}.
Variable net : nat -> Request -> NetOutcome.

(** The only document a run of the retry loop fetches is the one it
    returns. *)
Lemma safe_get_loop_fetched attempts :
  forall retries url params auth w,
  exists new,
    snd (safe_get_loop net attempts retries url params auth w)
    = mkWorld (w_fs w) (w_trace w ++ new)
    /\ writes_of new = []
    /\ fetched_of new
       = match fst (safe_get_loop net attempts retries url params auth w) with
         | Ok (Some data) => [data]
         | _ => []
         end.
Proof.
  induction attempts as [|attempt rest IH]; intros retries url params auth w.
  - exists []. cbn. rewrite app_nil_r. now destruct w.
  - rewrite safe_get_loop_step.
    destruct (auth_headers auth) as [e|headers].
    { exists []. cbn. rewrite app_nil_r. now destruct w. }
    cbn zeta. destruct (net _ _) as [data|e|what].
    + eexists [_]. cbn [fst snd]. repeat split.
    + destruct (attempt <? retries - 1).
      * match goal with
        | |- context [safe_get_loop net rest retries ?u params auth ?w0] =>
            destruct (IH retries u params auth w0) as (new & Hw & Hwr & Hf)
        end.
        exists (EvRequest (mkRequest (add_params params url) headers) (NetHTTPError e)
                :: EvLog (LogRequestError e) :: EvSleep REQUEST_DELAY :: new).
        split; [|split; [exact Hwr | exact Hf]].
        rewrite Hw. cbn [w_fs w_trace]. now rewrite <- !app_assoc.
      * eexists [_; _]. cbn [fst snd]. rewrite <- app_assoc. repeat split.
    + eexists [_]. cbn [fst snd]. repeat split.
Qed.

Lemma help_scout_get_fetched url params token w :
  exists new,
    snd (help_scout_get net url params token w) = mkWorld (w_fs w) (w_trace w ++ new)
    /\ writes_of new = []
    /\ fetched_of new
       = match fst (help_scout_get net url params token w) with
         | Ok data => [data]
         | _ => []
         end.
Proof.
  change (help_scout_get net url params token)
    with (safe_get net url params (token_auth token) 2).
  destruct (safe_get_loop_fetched (range 2) 2 url params (token_auth token) w)
    as (new & Hw & Hwr & Hf).
  exists new. unfold safe_get, bind.
  destruct (safe_get_loop net (range 2) 2 url params (token_auth token) w)
    as [[[d|]|e|] w']; cbn [fst snd] in *; auto.
Qed.

(** [unique_filename] changes nothing, and a path it returns is one of its
    candidates and does not exist. *)
Lemma unique_filename_loop_result fuel dir base ext :
  forall j w,
    snd (unique_filename_loop fuel dir base ext (suffix_of j) (Z.of_nat j + 1) w) = w
    /\ forall p,
        fst (unique_filename_loop fuel dir base ext (suffix_of j) (Z.of_nat j + 1) w) = Ok p ->
        fs_exists (w_fs w) p = false /\ exists k, p = candidate dir base ext k.
Proof.
  induction fuel as [|fuel IH]; intros j w.
  - cbn [unique_filename_loop]. unfold bind, path_exists.
    fold (candidate dir base ext j).
    destruct (fs_exists (w_fs w) (candidate dir base ext j)) eqn:He; cbn.
    + split; [reflexivity | discriminate].
    + split; [reflexivity|]. intros p [= <-]. eauto.
  - cbn [unique_filename_loop]. unfold bind at 1 2, path_exists.
    fold (candidate dir base ext j).
    destruct (fs_exists (w_fs w) (candidate dir base ext j)) eqn:He.
    + replace (Z.of_nat j + 1) with (Z.of_nat (S j)) by lia.
      change ("-" ++ str_of_int (Z.of_nat (S j))) with (suffix_of (S j)).
      apply IH.
    + cbn. split; [reflexivity|]. intros p [= <-]. eauto.
Qed.

Lemma unique_filename_result fuel dir base ext w :
  snd (unique_filename fuel dir base ext w) = w
  /\ forall p,
      fst (unique_filename fuel dir base ext w) = Ok p ->
      fs_exists (w_fs w) p = false /\ exists k, p = candidate dir base ext k.
Proof.
  apply (unique_filename_loop_result fuel dir base ext 0%nat w).
Qed.

End ExportSteps.

Section ExportLoop.

Context {lib : PyLib}.
Variable net : nat -> Request -> NetOutcome.
Variables (fuel : nat) (dir : Path) (token : option string).

(** One article: the body of the [for] loop of [fetch_articles]. *)
Lemma fetch_articles_loop_cons i article_id rest total w :
  fetch_articles_loop net fuel ((i, article_id) :: rest) total dir token w
  = let w1 := mkWorld (w_fs w)
                (w_trace w ++ [EvLog (LogGettingArticle article_id (i + 1) total);
                               EvSleep REQUEST_DELAY]) in
    match help_scout_get net ("https://docsapi.helpscout.net/v1/articles/"
                              ++ py_str article_id) None token w1 with
    | (Ok data, w2) =>
        match getitem data "article" with
        | inl e => (Raise e, w2)
        | inr article =>
            match getitem article "slug" with
            | inl e => (Raise e, w2)
            | inr slug =>
                match unique_filename fuel dir slug ".json" w2 with
                | (Ok p, w3) =>
                    match write_file p (json_dumps data 2)
                            (mkWorld (w_fs w3) (w_trace w3 ++ [EvLog (LogSavingArticle p)])) with
                    | (Ok _, w4) => fetch_articles_loop net fuel rest total dir token w4
                    | (Raise e, w4) => (Raise e, w4)
                    | (OutOfFuel, w4) => (OutOfFuel, w4)
                    end
                | (Raise e, w3) => (Raise e, w3)
                | (OutOfFuel, w3) => (OutOfFuel, w3)
                end
            end
        end
    | (Raise e, w2) => (Raise e, w2)
    | (OutOfFuel, w2) => (OutOfFuel, w2)
    end.
Proof.
  cbn [fetch_articles_loop]. cbv zeta.
  unfold bind at 1, log, emit. unfold bind at 1, sleep, emit. cbn [w_fs w_trace].
  rewrite <- app_assoc. cbn [app].
  unfold bind at 1.
  destruct (help_scout_get net _ None token _) as [[data|e|] w2]; try reflexivity.
  unfold bind at 1. destruct (getitem data "article") as [e|article]; [reflexivity|].
  cbn [lift ret]. unfold bind at 1.
  destruct (getitem article "slug") as [e|slug]; [reflexivity|].
  cbn [lift ret]. unfold bind at 1.
  destruct (unique_filename fuel dir slug ".json" w2) as [[p|e|] w3]; reflexivity.
Qed.

(** Writing to a path that does not exist: refused by the system, or done. *)
Lemma write_file_fresh p content w :
  fs_exists (w_fs w) p = false ->
  write_file p content w
  = match os_refuses (w_fs w) (OsOpen p) with
    | Some what => (Raise (OSError what), w)
    | None => (Ok tt, mkWorld (fs_put (w_fs w) p (File content))
                              (w_trace w ++ [EvWrite p content]))
    end.
Proof.
  intros Hp. unfold write_file, fs_exists in *.
  destruct (fs_lookup (w_fs w) p); [discriminate | reflexivity].
Qed.

(** The two ways one turn of the loop can go: it stops, having written
    nothing and fetched at most one document; or it writes the whole
    document just fetched to a free candidate built on its slug and goes on
    with the remaining items. *)
Lemma fetch_articles_loop_turn i article_id rest total w :
  (exists r extra,
      r <> Ok tt
      /\ fetch_articles_loop net fuel ((i, article_id) :: rest) total dir token w
         = (r, mkWorld (w_fs w) (w_trace w ++ extra))
      /\ writes_of extra = []
      /\ (List.length (fetched_of extra) <= 1)%nat)
  \/ (exists pre data article slug k,
         getitem data "article" = inr article
         /\ getitem article "slug" = inr slug
         /\ fs_exists (w_fs w) (candidate dir slug ".json" k) = false
         /\ writes_of pre = []
         /\ fetched_of pre = [data]
         /\ fetch_articles_loop net fuel ((i, article_id) :: rest) total dir token w
            = fetch_articles_loop net fuel rest total dir token
                (mkWorld (fs_put (w_fs w) (candidate dir slug ".json" k)
                                 (File (json_dumps data 2)))
                         (w_trace w ++ pre
                          ++ [EvWrite (candidate dir slug ".json" k) (json_dumps data 2)]))).
Proof.
  rewrite fetch_articles_loop_cons. cbv zeta.
  match goal with
  | |- context [help_scout_get net ?u None token ?w1] =>
      destruct (help_scout_get_fetched net u None token w1) as (newh & Hw2 & Hwr & Hf);
      destruct (help_scout_get net u None token w1) as [r1 w2]
  end.
  cbn [fst snd w_fs w_trace] in Hw2, Hf. subst w2.
  set (head := [EvLog (LogGettingArticle article_id (i + 1) total); EvSleep REQUEST_DELAY]).
  assert (Hlen : (List.length (fetched_of newh) <= 1)%nat).
  { rewrite Hf. destruct r1; cbn; lia. }
  assert (stop : forall (r : result unit) tail,
             r <> Ok tt -> writes_of tail = [] -> fetched_of tail = [] ->
             exists r0 extra,
               r0 <> Ok tt
               /\ (r, mkWorld (w_fs w) (((w_trace w ++ head) ++ newh) ++ tail))
                  = (r0, mkWorld (w_fs w) (w_trace w ++ extra))
               /\ writes_of extra = []
               /\ (List.length (fetched_of extra) <= 1)%nat).
  { intros r tail Hr Hwt Hft. exists r, (head ++ newh ++ tail)%list.
    split; [exact Hr|]. split; [now rewrite <- !app_assoc|].
    rewrite !writes_of_app, !fetched_of_app, Hwr, Hwt, Hft.
    split; [reflexivity|]. cbn [head fetched_of flat_map app]. now rewrite app_nil_r. }
  assert (stop0 : forall r : result unit,
             r <> Ok tt ->
             exists r0 extra,
               r0 <> Ok tt
               /\ (r, mkWorld (w_fs w) ((w_trace w ++ head) ++ newh))
                  = (r0, mkWorld (w_fs w) (w_trace w ++ extra))
               /\ writes_of extra = []
               /\ (List.length (fetched_of extra) <= 1)%nat).
  { intros r Hr. destruct (stop r [] Hr eq_refl eq_refl) as (r0 & extra & H).
    rewrite app_nil_r in H. eauto. }
  destruct r1 as [data|e|]; [| left; apply stop0; discriminate | left; apply stop0; discriminate].
  destruct (getitem data "article") as [e|article] eqn:Harticle;
    [left; apply stop0; discriminate|].
  destruct (getitem article "slug") as [e|slug] eqn:Hslug;
    [left; apply stop0; discriminate|].
  destruct (unique_filename_result fuel dir slug ".json"
              (mkWorld (w_fs w) ((w_trace w ++ head) ++ newh))) as [Hsame Hpath].
  destruct (unique_filename fuel dir slug ".json" _) as [r3 w3].
  cbn [fst snd] in Hsame, Hpath. subst w3.
  destruct r3 as [p|e|]; [| left; apply stop0; discriminate | left; apply stop0; discriminate].
  destruct (Hpath p eq_refl) as [Hfresh [k Hk]]. cbn [w_fs] in Hfresh.
  rewrite write_file_fresh by exact Hfresh. cbn [w_fs w_trace].
  destruct (os_refuses (w_fs w) (OsOpen p)) as [what|].
  - left. apply (stop (Raise (OSError what)) [EvLog (LogSavingArticle p)]);
      [discriminate | reflexivity | reflexivity].
  - right. subst p.
    exists (head ++ newh ++ [EvLog (LogSavingArticle (candidate dir slug ".json" k))])%list,
           data, article, slug, k.
    split; [exact Harticle|]. split; [exact Hslug|]. split; [exact Hfresh|].
    rewrite !writes_of_app, !fetched_of_app, Hwr, Hf.
    split; [reflexivity|]. split; [reflexivity|].
    now rewrite <- !app_assoc.
Qed.

(** What the loop leaves behind, however it ends: entries that existed are
    kept; every file written is still there with the text written; the
    files written are, in order, the whole documents fetched, and only the
    document fetched last can be without its file. *)
Lemma fetch_articles_loop_effects items :
  forall total w,
  exists new,
    w_trace (snd (fetch_articles_loop net fuel items total dir token w)) = (w_trace w ++ new)%list
    /\ (forall q m,
           fs_lookup (w_fs w) q = Some m ->
           fs_lookup (w_fs (snd (fetch_articles_loop net fuel items total dir token w))) q
           = Some m)
    /\ Forall (fun file =>
                 fs_lookup (w_fs (snd (fetch_articles_loop net fuel items total dir token w)))
                           (fst file)
                 = Some (File (snd file)))
              (writes_of new)
    /\ Forall2 (written_from dir)
               (firstn (List.length (writes_of new)) (fetched_of new))
               (writes_of new)
    /\ (fst (fetch_articles_loop net fuel items total dir token w) = Ok tt ->
        List.length (writes_of new) = List.length items
        /\ List.length (fetched_of new) = List.length items)
    /\ (List.length (fetched_of new) <= S (List.length (writes_of new)))%nat.
Proof.
  induction items as [|[i article_id] rest IH]; intros total w.
  { exists []. cbn. rewrite app_nil_r. repeat split; auto. }
  destruct (fetch_articles_loop_turn i article_id rest total w)
    as [(r & extra & Hr & -> & Hwr & Hlen)
       | (pre & data & article & slug & k & Harticle & Hslug & Hfresh & Hwr & Hf & ->)].
  - exists extra. cbn [fst snd w_fs w_trace]. rewrite Hwr.
    repeat split; auto; try constructor; try contradiction; cbn [List.length]; lia.
  - match goal with
    | |- context [fetch_articles_loop net fuel rest total dir token ?w4] =>
        destruct (IH total w4) as (new' & Htr & Hkeep & Hfiles & Hdocs & Hlen & Hle)
    end.
    cbn [w_fs w_trace] in Htr, Hkeep.
    set (p := candidate dir slug ".json" k) in *.
    exists ((pre ++ [EvWrite p (json_dumps data 2)]) ++ new')%list.
    rewrite !writes_of_app, !fetched_of_app, Hwr, Hf.
    change (writes_of [EvWrite p (json_dumps data 2)]) with [(p, json_dumps data 2)].
    change (fetched_of [EvWrite p (json_dumps data 2)]) with (@nil value).
    cbn [app].
    split; [|split; [|split; [|split; [|split]]]].
    + rewrite Htr. now rewrite <- !app_assoc.
    + intros q m Hq. apply Hkeep. now apply fs_put_fresh_keeps.
    + constructor; [|exact Hfiles].
      cbn [fst snd]. apply Hkeep. apply fs_lookup_put_same.
    + cbn [List.length firstn]. constructor; [|exact Hdocs].
      split; [reflexivity|]. exists article, slug, k. auto.
    + intros Hok. destruct (Hlen Hok) as [H1 H2]. cbn [List.length]. now rewrite H1, H2.
    + cbn [List.length]. lia.
Qed.

End ExportLoop.

Section ExportResults.

Context {lib : PyLib}.
Variable net : nat -> Request -> NetOutcome.

(** [fetch_articles] on a directory that does not exist yet: it is created
    and the loop runs, unless the system refuses the [mkdir]. *)
Lemma fetch_articles_fresh fuel article_ids dir token w :
  fs_exists (w_fs w) dir = false ->
  os_refuses (w_fs w) (OsMkdir dir) = None ->
  fetch_articles net fuel article_ids dir token w
  = match fetch_articles_loop net fuel (enumerate_from 0 article_ids) (len article_ids)
            dir token
            (mkWorld (fs_put (w_fs w) dir Dir)
                     (w_trace w ++ [EvLog (LogCreatingDirectory dir); EvMkdir dir])) with
    | (Ok _, w') => (Ok [], w')
    | (Raise e, w') => (Raise e, w')
    | (OutOfFuel, w') => (OutOfFuel, w')
    end.
Proof.
  intros Hex Hos. unfold fetch_articles.
  unfold bind at 1, log, emit. unfold bind at 1.
  unfold try_except_FileExistsError, mkdir. cbn [w_fs w_trace]. rewrite Hex, Hos.
  rewrite <- app_assoc. cbn [app]. unfold bind at 1.
  now destruct (fetch_articles_loop net fuel _ _ dir token _) as [[[]|e|] w'].
Qed.

Lemma fetch_articles_refused fuel article_ids dir token w what :
  fs_exists (w_fs w) dir = false ->
  os_refuses (w_fs w) (OsMkdir dir) = Some what ->
  fetch_articles net fuel article_ids dir token w
  = (Raise (OSError what),
     mkWorld (w_fs w) (w_trace w ++ [EvLog (LogCreatingDirectory dir)])).
Proof.
  intros Hex Hos. unfold fetch_articles.
  unfold bind at 1, log, emit. unfold bind at 1.
  unfold try_except_FileExistsError, mkdir. cbn [w_fs w_trace]. now rewrite Hex, Hos.
Qed.

Lemma fetch_articles_existing fuel article_ids dir token w :
  fs_exists (w_fs w) dir = true ->
  fetch_articles net fuel article_ids dir token w
  = (Raise (SystemExit 1),
     mkWorld (w_fs w)
             (w_trace w ++ [EvLog (LogCreatingDirectory dir); EvLog (LogDirectoryExists dir)])).
Proof.
  intros Hex. unfold fetch_articles.
  unfold bind at 1, log, emit. unfold bind at 1.
  unfold try_except_FileExistsError, mkdir. cbn [w_fs w_trace]. rewrite Hex.
  unfold bind, log, emit, exit, raise. cbn [w_fs w_trace].
  now rewrite <- app_assoc.
Qed.

(** The list [fetch_articles] returns is the one it started with. *)
Lemma fetch_articles_ok_nil fuel article_ids dir token w articles :
  fst (fetch_articles net fuel article_ids dir token w) = Ok articles -> articles = [].
Proof.
  destruct (fs_exists (w_fs w) dir) eqn:Hex.
  - rewrite fetch_articles_existing by exact Hex. discriminate.
  - destruct (os_refuses (w_fs w) (OsMkdir dir)) as [what|] eqn:Hos.
    + rewrite (@fetch_articles_refused fuel article_ids dir token w what Hex Hos).
      discriminate.
    + rewrite fetch_articles_fresh by assumption.
      destruct (fetch_articles_loop net fuel _ _ dir token _) as [[[]|e|] w'];
        cbn [fst]; congruence.
Qed.

Lemma length_enumerate_from {A} (l : list A) :
  forall i, List.length (enumerate_from i l) = List.length l.
Proof.
  induction l as [|x l IH]; intros i; [reflexivity|].
  cbn [enumerate_from List.length]. now rewrite IH.
Qed.

Lemma export_help_scout_docs_run fuel token collection_id dir w :
  export_help_scout_docs net fuel token collection_id dir w
  = match get_article_ids net fuel token collection_id
            (mkWorld (w_fs w) (w_trace w ++ [EvLog LogStartingExport])) with
    | (Ok article_ids, w1) =>
        match fetch_articles net fuel article_ids dir token
                (mkWorld (w_fs w1)
                         (w_trace w1 ++ [EvLog (LogFoundArticleIds (len article_ids))])) with
        | (Ok articles, w2) =>
            (Ok tt, mkWorld (w_fs w2) (w_trace w2 ++ [EvLog (LogSavedAll (len articles) dir)]))
        | (Raise e, w2) => (Raise e, w2)
        | (OutOfFuel, w2) => (OutOfFuel, w2)
        end
    | (Raise e, w1) => (Raise e, w1)
    | (OutOfFuel, w1) => (OutOfFuel, w1)
    end.
Proof.
  unfold export_help_scout_docs. unfold bind at 1, log, emit. unfold bind at 1.
  destruct (get_article_ids net fuel token collection_id _) as [[ids|e|] w1];
    reflexivity.
Qed.

End ExportResults.

(** C7.  The files [fetch_articles] writes are the documents it fetches.
    One turn of its loop: once the document of an article is fetched and
    has an [article] with a [slug], the first free candidate built on the
    slug is found and the system does not refuse the [open], the whole
    fetched document (the envelope with its [article] key) is written there,
    dumped with indent 2, and the loop goes on.  The call starts this loop as
    soon as the directory is made.  And over any call, however it ends: the
    files written are, in order, the documents fetched, each such file is on
    disk with that text at the end, only the document fetched last can be
    without its file, and on return there is one file for each article id. *)
Theorem fetch_articles_writes_whole_documents `{lib : PyLib}
        (net : nat -> Request -> NetOutcome) (fuel : nat) (article_ids : list value)
        (dir : Path) (token : option string) (w : World) :
  (forall i article_id rest total data article slug k w1 w2,
      help_scout_get net (article_url article_id) None token
        (mkWorld (w_fs w1)
                 (w_trace w1 ++ [EvLog (LogGettingArticle article_id (i + 1) total);
                                 EvSleep REQUEST_DELAY]))
      = (Ok data, w2) ->
      getitem data "article" = inr article ->
      getitem article "slug" = inr slug ->
      (forall j, (j < k)%nat -> fs_exists (w_fs w2) (candidate dir slug ".json" j) = true) ->
      fs_exists (w_fs w2) (candidate dir slug ".json" k) = false ->
      (k <= fuel)%nat ->
      os_refuses (w_fs w2) (OsOpen (candidate dir slug ".json" k)) = None ->
      fetch_articles_loop net fuel ((i, article_id) :: rest) total dir token w1
      = fetch_articles_loop net fuel rest total dir token
          (mkWorld (fs_put (w_fs w2) (candidate dir slug ".json" k)
                           (File (json_dumps data 2)))
                   (w_trace w2
                    ++ [EvLog (LogSavingArticle (candidate dir slug ".json" k));
                        EvWrite (candidate dir slug ".json" k) (json_dumps data 2)])))
  /\ (fs_exists (w_fs w) dir = false ->
      os_refuses (w_fs w) (OsMkdir dir) = None ->
      fetch_articles net fuel article_ids dir token w
      = match fetch_articles_loop net fuel (enumerate_from 0 article_ids) (len article_ids)
                dir token
                (mkWorld (fs_put (w_fs w) dir Dir)
                         (w_trace w ++ [EvLog (LogCreatingDirectory dir); EvMkdir dir])) with
        | (Ok _, w') => (Ok [], w')
        | (Raise e, w') => (Raise e, w')
        | (OutOfFuel, w') => (OutOfFuel, w')
        end)
  /\ exists new,
      w_trace (snd (fetch_articles net fuel article_ids dir token w)) = (w_trace w ++ new)%list
      /\ Forall2 (written_from dir)
                 (firstn (List.length (writes_of new)) (fetched_of new))
                 (writes_of new)
      /\ (List.length (fetched_of new) <= S (List.length (writes_of new)))%nat
      /\ Forall (fun file =>
                   fs_lookup (w_fs (snd (fetch_articles net fuel article_ids dir token w)))
                             (fst file)
                   = Some (File (snd file)))
                (writes_of new)
      /\ (forall articles,
             fst (fetch_articles net fuel article_ids dir token w) = Ok articles ->
             List.length (writes_of new) = List.length article_ids
             /\ List.length (fetched_of new) = List.length article_ids).
Proof.
  split; [|split].
  - intros i article_id rest total data article slug k w1 w2
           Hget Harticle Hslug Hbusy Hfree Hk Hos.
    rewrite fetch_articles_loop_cons. cbv zeta. fold (article_url article_id).
    rewrite Hget, Harticle, Hslug.
    assert (Hname : unique_filename fuel dir slug ".json" w2
                    = (Ok (candidate dir slug ".json" k), w2)).
    { unfold unique_filename.
      apply (@unique_filename_loop_from lib dir slug ".json" w2 k Hbusy Hfree k 0%nat fuel);
        lia. }
    rewrite Hname.
    rewrite write_file_fresh by exact Hfree. cbn [w_fs w_trace]. rewrite Hos.
    now rewrite <- app_assoc.
  - intros Hex Hos. now apply fetch_articles_fresh.
  - destruct (fs_exists (w_fs w) dir) eqn:Hex.
    + rewrite fetch_articles_existing by exact Hex.
      eexists [_; _]. cbn [fst snd w_trace].
      repeat split; try constructor; try discriminate. cbn. lia.
    + destruct (os_refuses (w_fs w) (OsMkdir dir)) as [what|] eqn:Hos.
      * rewrite (@fetch_articles_refused lib net fuel article_ids dir token w what Hex Hos).
        eexists [_]. cbn [fst snd w_trace].
        repeat split; try constructor; try discriminate. cbn. lia.
      * rewrite fetch_articles_fresh by assumption.
        match goal with
        | |- context [fetch_articles_loop net fuel ?items ?total dir token ?w1] =>
            destruct (@fetch_articles_loop_effects lib net fuel dir token items total w1)
              as (new & Htr & _ & Hfiles & Hdocs & Hlen & Hle);
            destruct (fetch_articles_loop net fuel items total dir token w1) as [r w']
        end.
        cbn [fst snd w_fs w_trace] in *.
        exists (EvLog (LogCreatingDirectory dir) :: EvMkdir dir :: new).
        change (writes_of (?a :: ?b :: new)) with (writes_of new).
        change (fetched_of (?a :: ?b :: new)) with (fetched_of new).
        rewrite length_enumerate_from in Hlen.
        destruct r as [[]|e|]; cbn [fst snd]; rewrite Htr, <- app_assoc;
          (split; [reflexivity|]); (split; [exact Hdocs|]); (split; [exact Hle|]);
          (split; [exact Hfiles|]); intros articles Hok; auto; discriminate.
Qed.

(** C9.  A list returned by [fetch_articles] is empty, and the last line
    [export_help_scout_docs] logs reports 0 saved articles, whatever was
    written. *)
Theorem fetch_articles_returns_empty_list `{lib : PyLib}
        (net : nat -> Request -> NetOutcome) (fuel : nat) (dir : Path)
        (token : option string) (w : World) :
  (forall article_ids articles,
      fst (fetch_articles net fuel article_ids dir token w) = Ok articles ->
      articles = [])
  /\ (forall collection_id,
         fst (export_help_scout_docs net fuel token collection_id dir w) = Ok tt ->
         exists tr,
           w_trace (snd (export_help_scout_docs net fuel token collection_id dir w))
           = (tr ++ [EvLog (LogSavedAll 0 dir)])%list).
Proof.
  split.
  - intros article_ids articles. apply fetch_articles_ok_nil.
  - intros collection_id. rewrite export_help_scout_docs_run.
    destruct (get_article_ids net fuel token collection_id _) as [[ids|e|] w1];
      try discriminate.
    pose proof (@fetch_articles_ok_nil lib net fuel ids dir token
                  (mkWorld (w_fs w1) (w_trace w1 ++ [EvLog (LogFoundArticleIds (len ids))])))
      as Hnil.
    destruct (fetch_articles net fuel ids dir token _) as [[articles|e|] w2];
      try discriminate.
    rewrite (Hnil articles eq_refl). intros _.
    exists (w_trace w2). reflexivity.
Qed.

(** ** The end-to-end scenario *)

(** The run succeeds and leaves [intro.json] and [intro-1.json], each with
    its own envelope, in the new directory. *)
Example scenario_files :
  fst Scenario.run = Ok tt
  /\ w_fs (snd Scenario.run)
     = [("out/intro-1.json", File (Sample.dumps (Sample.article "intro" "a2") 2));
        ("out/intro.json", File (Sample.dumps (Sample.article "intro" "a1") 2));
        ("out", Dir)].
Proof. split; reflexivity. Qed.

Example scenario_last_log :
  last (w_trace (snd Scenario.run)) (EvSleep 0) = EvLog (LogSavedAll 0 "out").
Proof. reflexivity. Qed.

(** The scenario writes [intro.json] and [intro-1.json], each with its
    whole envelope; and the turn for the second article, taken alone in a
    directory that holds [intro.json], writes [intro-1.json]. *)
Lemma fetch_articles_writes_whole_documents_witness :
  (exists new,
      w_trace (snd (fetch_articles (lib := Sample.lib) Scenario.server 5
                      [VStr "a1"; VStr "a2"] "out" (Some "tok") Sample.world0))
      = ([] ++ new)%list
      /\ writes_of new
         = [("out/intro.json", Sample.dumps (Sample.article "intro" "a1") 2);
            ("out/intro-1.json", Sample.dumps (Sample.article "intro" "a2") 2)]
      /\ Forall2 (written_from (lib := Sample.lib) "out")
                 (firstn (List.length (writes_of new)) (fetched_of new))
                 (writes_of new)
      /\ Forall (fun file =>
                   fs_lookup (w_fs (snd (fetch_articles (lib := Sample.lib) Scenario.server 5
                                           [VStr "a1"; VStr "a2"] "out" (Some "tok")
                                           Sample.world0)))
                             (fst file)
                   = Some (File (snd file)))
                (writes_of new))
  /\ fetch_articles_loop (lib := Sample.lib) Scenario.server 5 [(1, VStr "a2")] 2 "out"
       (Some "tok") (mkWorld [("out/intro.json", File "{}"); ("out", Dir)] [])
     = (Ok tt,
        mkWorld [("out/intro-1.json", File (Sample.dumps (Sample.article "intro" "a2") 2));
                 ("out/intro.json", File "{}"); ("out", Dir)]
                [EvLog (LogGettingArticle (VStr "a2") 2 2);
                 EvSleep 1;
                 EvRequest (mkRequest "https://docsapi.helpscout.net/v1/articles/a2"
                                      [("Authorization", "Basic dG9rOng=")])
                           (NetOk (Sample.article "intro" "a2"));
                 EvLog (LogSavingArticle "out/intro-1.json");
                 EvWrite "out/intro-1.json" (Sample.dumps (Sample.article "intro" "a2") 2)]).
Proof.
  split.
  - destruct (proj2 (proj2 (@fetch_articles_writes_whole_documents Sample.lib
                              Scenario.server 5 [VStr "a1"; VStr "a2"] "out" (Some "tok")
                              Sample.world0)))
      as (new & Htr & Hdocs & _ & Hfiles & _).
    exists new. split; [exact Htr|].
    assert (Hnew : w_trace (snd (fetch_articles (lib := Sample.lib) Scenario.server 5
                                   [VStr "a1"; VStr "a2"] "out" (Some "tok") Sample.world0))
                   = new) by exact Htr.
    vm_compute in Hnew. subst new.
    split; [reflexivity|]. split; [exact Hdocs | exact Hfiles].
  - refine (proj1 (@fetch_articles_writes_whole_documents Sample.lib
                     Scenario.server 5 [] "out" (Some "tok") Sample.world0)
                  1 (VStr "a2") [] 2 (Sample.article "intro" "a2")
                  (VDict [("slug", VStr "intro"); ("id", VStr "a2")]) (VStr "intro") 1%nat
                  (mkWorld [("out/intro.json", File "{}"); ("out", Dir)] []) _
                  eq_refl eq_refl eq_refl _ eq_refl _ eq_refl).
    + intros [|j] Hj; [reflexivity | lia].
    + lia.
Defined.

(** Two files are written and the final line still counts 0. *)
Lemma fetch_articles_returns_empty_list_witness :
  List.length (writes_of (w_trace (snd (export_help_scout_docs (lib := Sample.lib)
                                          Scenario.server 5 (Some "tok") "c1" "out"
                                          Sample.world0)))) = 2%nat
  /\ exists tr,
      w_trace (snd (export_help_scout_docs (lib := Sample.lib) Scenario.server 5
                      (Some "tok") "c1" "out" Sample.world0))
      = (tr ++ [EvLog (LogSavedAll 0 "out")])%list.
Proof.
  split; [reflexivity|].
  apply (proj2 (@fetch_articles_returns_empty_list Sample.lib Scenario.server 5 "out"
                  (Some "tok") Sample.world0) "c1").
  reflexivity.
Defined.

(** * Further properties *)

(** ** The HTTP client, beyond the retry policy *)

Lemma attempt_url_falsy `{lib : PyLib} params url k :
  params_truthy params = false -> attempt_url params url k = url.
Proof.
  intros Hp. unfold attempt_url.
  induction k as [|k IH]; simpl; [reflexivity|].
  rewrite IH. unfold add_params. now rewrite Hp.
Qed.

Lemma quiet_app (t1 t2 : list event) : quiet t1 -> quiet t2 -> quiet (t1 ++ t2).
Proof. unfold quiet. intros H1 H2. apply Forall_app. now split. Qed.

Lemma quiet_writes (tr : list event) : quiet tr -> writes_of tr = [].
Proof.
  induction 1 as [|e tr He _ IH]; [reflexivity|].
  destruct e; try discriminate; exact IH.
Qed.

Section SafeGetCounts.

Context {lib : PyLib}.
Variable net : nat -> Request -> NetOutcome.

(** Requests and sleeps of the loop over the attempts [a .. a+n-1] of
    [retries = a+n]: at most [n] requests, one sleep between two of them. *)
Lemma safe_get_loop_counts n :
  forall a url params auth w,
  exists new,
    snd (safe_get_loop net (map Z.of_nat (seq a n)) (Z.of_nat (a + n)) url params auth w)
    = mkWorld (w_fs w) (w_trace w ++ new)
    /\ (List.length (requests_of new) <= n)%nat
    /\ sleeps_of new = repeat REQUEST_DELAY (Nat.pred (List.length (requests_of new)))
    /\ quiet new
    /\ (forall headers, auth_headers auth = inr headers -> (1 <= n)%nat ->
                        (1 <= List.length (requests_of new))%nat)
    /\ beats_of new = sleep_between (requests_of new).
Proof.
  induction n as [|n IH]; intros a url params auth w.
  { exists []. cbn. rewrite app_nil_r. destruct w.
    repeat split; auto; try constructor; intros; lia. }
  cbn [seq map]. rewrite safe_get_loop_step.
  destruct (auth_headers auth) as [e|headers] eqn:Ha.
  { exists []. cbn. rewrite app_nil_r. destruct w.
    repeat split; auto; try constructor; try lia; intros; discriminate. }
  cbn zeta. destruct (net _ _) as [data|e|what].
  - eexists [_]. cbn [snd].
    split; [reflexivity|]. split; [cbn; lia|]. split; [reflexivity|].
    split; [unfold quiet; repeat constructor|].
    split; [intros; cbn; lia | reflexivity].
  - destruct (Z.of_nat a <? Z.of_nat (a + S n) - 1) eqn:Hlt.
    + apply Z.ltb_lt in Hlt.
      replace (Z.of_nat (a + S n)) with (Z.of_nat (S a + n)) by (f_equal; lia).
      match goal with
      | |- context [safe_get_loop net _ _ ?u params auth ?w0] =>
          destruct (IH (S a) u params auth w0) as (new & Hw & Hle & Hsl & Hq & Hone & Hb)
      end.
      specialize (Hone headers Ha ltac:(lia)).
      exists (EvRequest (mkRequest (add_params params url) headers) (NetHTTPError e)
              :: EvLog (LogRequestError e) :: EvSleep REQUEST_DELAY :: new).
      change (requests_of (?r :: ?b :: ?c :: new))
        with (mkRequest (add_params params url) headers :: requests_of new).
      change (sleeps_of (?r :: ?b :: ?c :: new)) with (REQUEST_DELAY :: sleeps_of new).
      change (beats_of (?r :: ?b :: ?c :: new))
        with (BeatRequest (mkRequest (add_params params url) headers)
              :: BeatSleep REQUEST_DELAY :: beats_of new).
      cbn [List.length Nat.pred].
      split; [|split; [|split; [|split; [|split]]]].
      * rewrite Hw. cbn [w_fs w_trace]. now rewrite <- !app_assoc.
      * lia.
      * rewrite Hsl. destruct (List.length (requests_of new)); [lia | reflexivity].
      * unfold quiet. repeat (constructor; [reflexivity|]). exact Hq.
      * intros; lia.
      * rewrite Hb. cbn [sleep_between].
        destruct (requests_of new); [cbn in Hone; lia | reflexivity].
    + eexists [_; _]. cbn [snd]. rewrite <- app_assoc.
      split; [reflexivity|]. split; [cbn; lia|]. split; [reflexivity|].
      split; [unfold quiet; repeat constructor|].
      split; [intros; cbn; lia | reflexivity].
  - eexists [_]. cbn [snd].
    split; [reflexivity|]. split; [cbn; lia|]. split; [reflexivity|].
    split; [unfold quiet; repeat constructor|].
    split; [intros; cbn; lia | reflexivity].
Qed.

End SafeGetCounts.

(** X1.  With [retries <= 0] the loop of [safe_get] has no attempt to make:
    no request is issued and the [raise Exception] after the loop is what
    the caller gets. *)
Theorem safe_get_without_attempts `{lib : PyLib} (net : nat -> Request -> NetOutcome)
        (url : string) (params : option (list (string * value)))
        (auth : option (string * option string)) (retries : Z) (w : World) :
  retries <= 0 ->
  safe_get net url params auth retries w = (Raise BareException, w).
Proof.
  intros Hr. unfold safe_get, bind. rewrite range_seq.
  replace (Z.to_nat retries) with 0%nat by lia. reflexivity.
Qed.

Lemma safe_get_without_attempts_witness :
  safe_get (lib := Sample.lib) (Sample.always VNone) "https://h" None None 0 Sample.world0
  = (Raise BareException, Sample.world0).
Proof.
  apply (@safe_get_without_attempts Sample.lib). lia.
Defined.

(** X2.  A failure that is no [HTTPError] is not retried: whatever
    [retries >= 1] allows, the first such failure is raised after its one
    request, with no log line and no sleep. *)
Theorem safe_get_other_failure_not_retried `{lib : PyLib}
        (net : nat -> Request -> NetOutcome) (url : string)
        (params : option (list (string * value))) (auth : option (string * option string))
        (headers : list (string * string)) (retries : Z) (what : string) (w : World) :
  auth_headers auth = inr headers ->
  1 <= retries ->
  net (ncalls (w_trace w)) (mkRequest (add_params params url) headers) = NetFailure what ->
  safe_get net url params auth retries w
  = (Raise (TransportError what),
     mkWorld (w_fs w)
             (w_trace w ++ [EvRequest (mkRequest (add_params params url) headers)
                                      (NetFailure what)])).
Proof.
  intros Ha Hr Hn. unfold safe_get, bind. rewrite range_seq.
  destruct (Z.to_nat retries) as [|m] eqn:Hm; [lia|].
  cbn [seq map]. now rewrite safe_get_loop_step, Ha; cbn zeta; rewrite Hn.
Qed.

Lemma safe_get_other_failure_not_retried_witness :
  safe_get (lib := Sample.lib) (fun _ _ => NetFailure "connection refused")
           "https://h" None None 5 Sample.world0
  = (Raise (TransportError "connection refused"),
     mkWorld [] [EvRequest (mkRequest "https://h" []) (NetFailure "connection refused")]).
Proof.
  apply (@safe_get_other_failure_not_retried Sample.lib
           (fun _ _ => NetFailure "connection refused") "https://h" None None []
           5 "connection refused" Sample.world0 eq_refl); [lia | reflexivity].
Defined.

(** X3.  Without parameters ([None] or an empty dict) every attempt of a
    call requests the url as it was given. *)
Theorem safe_get_same_url_without_params `{lib : PyLib}
        (net : nat -> Request -> NetOutcome) (url : string)
        (params : option (list (string * value))) (auth : option (string * option string))
        (retries : Z) (w : World) :
  params_truthy params = false ->
  exists new,
    snd (safe_get net url params auth retries w) = mkWorld (w_fs w) (w_trace w ++ new)
    /\ Forall (fun r => req_url r = url) (requests_of new).
Proof.
  intros Hp.
  destruct (@safe_get_loop_trace lib net (range retries) retries url params auth w)
    as (new & n & Hw & _ & _ & Hreq).
  exists new. rewrite safe_get_snd. split; [exact Hw|].
  destruct (auth_headers auth) as [e|headers].
  - subst new. constructor.
  - destruct Hreq as [-> _]. unfold attempt_requests.
    apply Forall_forall. intros r Hin. apply in_map_iff in Hin.
    destruct Hin as (k & <- & _). cbn [req_url]. now apply attempt_url_falsy.
Qed.

Lemma safe_get_same_url_without_params_witness :
  exists new,
    snd (safe_get (lib := Sample.lib) (Sample.down Sample.err503) "https://h" (Some [])
                  None 3 Sample.world0)
    = mkWorld [] ([] ++ new)
    /\ Forall (fun r => req_url r = "https://h") (requests_of new).
Proof.
  exact (@safe_get_same_url_without_params Sample.lib (Sample.down Sample.err503)
           "https://h" (Some []) None 3 Sample.world0 eq_refl).
Defined.

(** X4.  Any call of [safe_get] issues at most [retries] requests and
    sleeps [REQUEST_DELAY] exactly once between two consecutive requests and
    at no other time: its requests and sleeps, in the order in which they
    happen, are request, sleep, request, ..., request.  It leaves the
    filesystem alone. *)
Theorem safe_get_bounded_attempts `{lib : PyLib} (net : nat -> Request -> NetOutcome)
        (url : string) (params : option (list (string * value)))
        (auth : option (string * option string)) (retries : Z) (w : World) :
  exists new,
    snd (safe_get net url params auth retries w) = mkWorld (w_fs w) (w_trace w ++ new)
    /\ (List.length (requests_of new) <= Z.to_nat retries)%nat
    /\ beats_of new = sleep_between (requests_of new)
    /\ quiet new.
Proof.
  destruct (@safe_get_loop_counts lib net (Z.to_nat retries) 0%nat url params auth w)
    as (new & Hw & Hle & _ & Hq & _ & Hb).
  exists new. rewrite safe_get_snd, range_seq.
  cbn [Nat.add] in Hw.
  destruct (Z_le_gt_dec retries 0) as [H0|H0].
  - replace (Z.to_nat retries) with 0%nat in * by lia.
    cbn [seq map safe_get_loop ret snd] in *. auto.
  - rewrite Z2Nat.id in Hw by lia. auto.
Qed.

(** Three attempts against a server that fails twice: request, sleep,
    request, sleep, request. *)
Lemma safe_get_bounded_attempts_witness :
  exists new,
    snd (safe_get (lib := Sample.lib)
                  (Sample.flaky 2 Sample.err503 (VDict []))
                  "https://h" None None 3 Sample.world0)
    = mkWorld [] ([] ++ new)
    /\ beats_of new
       = [BeatRequest (mkRequest "https://h" []); BeatSleep 1;
          BeatRequest (mkRequest "https://h" []); BeatSleep 1;
          BeatRequest (mkRequest "https://h" [])]
    /\ beats_of new = sleep_between (requests_of new).
Proof.
  destruct (@safe_get_bounded_attempts Sample.lib
              (Sample.flaky 2 Sample.err503 (VDict []))
              "https://h" None None 3 Sample.world0)
    as (new & Hw & _ & Hb & _).
  exists new. split; [exact Hw|].
  assert (Hnew : w_trace (snd (safe_get (lib := Sample.lib)
                                 (Sample.flaky 2 Sample.err503 (VDict []))
                                 "https://h" None None 3 Sample.world0))
                 = new) by now rewrite Hw.
  vm_compute in Hnew. subst new.
  split; [reflexivity | exact Hb].
Defined.

(** X5.  Without a token, or with the empty token, [help_scout_get] sends
    its requests with no header at all, so without credentials. *)
Theorem help_scout_get_anonymous `{lib : PyLib} (net : nat -> Request -> NetOutcome)
        (url : string) (params : option (list (string * value)))
        (token : option string) (w : World) :
  token = None \/ token = Some EmptyString ->
  exists new,
    snd (help_scout_get net url params token w) = mkWorld (w_fs w) (w_trace w ++ new)
    /\ requests_of new <> []
    /\ Forall (fun r => req_headers r = []) (requests_of new).
Proof.
  intros Ht.
  assert (Hauth : help_scout_get net url params token = safe_get net url params None 2)
    by (destruct Ht as [-> | ->]; reflexivity).
  rewrite Hauth, safe_get_snd.
  destruct (@safe_get_loop_trace lib net (range 2) 2 url params None w)
    as (new & n & Hw & _ & _ & Hreq & Hn).
  exists new. split; [exact Hw|].
  assert (H1 : (1 <= n)%nat) by (apply Hn; discriminate).
  rewrite Hreq. unfold attempt_requests. split.
  - destruct n; [lia | discriminate].
  - apply Forall_forall. intros r Hin. apply in_map_iff in Hin.
    destruct Hin as (k & <- & _). reflexivity.
Qed.

Lemma help_scout_get_anonymous_witness :
  exists new,
    snd (help_scout_get (lib := Sample.lib) (Sample.always VNone) "https://h" None
                        (Some EmptyString) Sample.world0)
    = mkWorld [] ([] ++ new)
    /\ requests_of new <> []
    /\ Forall (fun r => req_headers r = []) (requests_of new).
Proof.
  apply (@help_scout_get_anonymous Sample.lib (Sample.always VNone) "https://h" None
           (Some EmptyString) Sample.world0).
  right. reflexivity.
Defined.



(** ** Unique file names, beyond the first free candidate *)

Lemma str_of_int_inj (a b : Z) : str_of_int a = str_of_int b -> a = b.
Proof.
  unfold str_of_int. intros E.
  assert (Hnn : forall z, Z.to_int z <> Decimal.Pos Decimal.Nil
                          /\ Z.to_int z <> Decimal.Neg Decimal.Nil).
  { intros [|p|p]; cbn; split; try discriminate;
      intros [= H]; now apply DecimalPos.Unsigned.to_uint_nonnil in H. }
  apply DecimalZ.to_int_inj.
  assert (H : NilZero.int_of_string (NilZero.string_of_int (Z.to_int a))
              = NilZero.int_of_string (NilZero.string_of_int (Z.to_int b)))
    by now rewrite E.
  rewrite !NilZero.isi in H by apply Hnn. now injection H.
Qed.

Lemma append_inv_head (a b c : string) : a ++ b = a ++ c -> b = c.
Proof.
  induction a as [|x a IH]; simpl; intros E; [exact E | injection E; auto].
Qed.

Lemma append_inv_tail (a b c : string) : a ++ c = b ++ c -> a = b.
Proof.
  revert b. induction a as [|x a IH]; intros b E.
  - destruct b as [|y b]; [reflexivity|].
    assert (L : String.length (EmptyString ++ c) = String.length (String y b ++ c))
      by now rewrite E.
    rewrite !length_append in L. cbn in L. lia.
  - destruct b as [|y b].
    + assert (L : String.length (String x a ++ c) = String.length (EmptyString ++ c))
        by now rewrite E.
      rewrite !length_append in L. cbn in L. lia.
    + cbn in E. injection E as -> E. f_equal. now apply IH.
Qed.

Lemma suffix_of_inj (j k : nat) : suffix_of j = suffix_of k -> j = k.
Proof.
  destruct j as [|j], k as [|k]; cbn [suffix_of]; intros E;
    try reflexivity; try discriminate.
  injection E as E. apply str_of_int_inj in E. lia.
Qed.

Lemma sample_candidates_differ (dir : Path) (base : value) (ext : string) :
  candidates_differ (lib := Sample.lib) dir base ext.
Proof.
  intros j k E. unfold candidate in E. cbn [joinpath Sample.lib] in E.
  apply append_inv_head in E. injection E as E.
  apply append_inv_head in E. apply append_inv_tail in E.
  now apply suffix_of_inj.
Qed.

Lemma fs_exists_in (fs : FS) (p : Path) :
  fs_exists fs p = true -> In p (map fst fs).
Proof.
  unfold fs_exists. induction fs as [|[q n] fs IH]; cbn [fs_lookup map fst]; [discriminate|].
  destruct (String.eqb_spec q p) as [->|Hq]; intros H; [now left | right; auto].
Qed.

Section UniqueFilename.

Context {lib : PyLib}.
Variables (dir : Path) (base : value) (ext : string).

(** Where the loop stands after [j] names: it never raises; a path it
    returns is the first free candidate from [j] on; out of fuel, every
    candidate it could try exists. *)
Lemma unique_filename_loop_outcome fuel :
  forall j w,
    match fst (unique_filename_loop fuel dir base ext (suffix_of j) (Z.of_nat j + 1) w) with
    | Ok p =>
        exists k,
          (j <= k <= j + fuel)%nat
          /\ p = candidate dir base ext k
          /\ fs_exists (w_fs w) p = false
          /\ forall i, (j <= i < k)%nat -> fs_exists (w_fs w) (candidate dir base ext i) = true
    | Raise _ => False
    | OutOfFuel =>
        forall i, (j <= i <= j + fuel)%nat ->
                  fs_exists (w_fs w) (candidate dir base ext i) = true
    end.
Proof.
  induction fuel as [|fuel IH]; intros j w.
  - cbn [unique_filename_loop]. unfold bind, path_exists.
    fold (candidate dir base ext j).
    destruct (fs_exists (w_fs w) (candidate dir base ext j)) eqn:He; cbn.
    + intros i Hi. now replace i with j by lia.
    + exists j. repeat split; auto; intros; lia.
  - cbn [unique_filename_loop]. unfold bind at 1, path_exists.
    fold (candidate dir base ext j).
    destruct (fs_exists (w_fs w) (candidate dir base ext j)) eqn:He.
    + replace (Z.of_nat j + 1) with (Z.of_nat (S j)) by lia.
      change ("-" ++ str_of_int (Z.of_nat (S j))) with (suffix_of (S j)).
      specialize (IH (S j) w).
      destruct (fst (unique_filename_loop fuel dir base ext (suffix_of (S j))
                                          (Z.of_nat (S j) + 1) w)) as [p|e|].
      * destruct IH as (k & Hk & Hp & Hfree & Hbusy).
        exists k. repeat split; auto; try lia.
        intros i Hi. destruct (Nat.eq_dec i j) as [->|Hne]; [exact He | apply Hbusy; lia].
      * exact IH.
      * intros i Hi. destruct (Nat.eq_dec i j) as [->|Hne]; [exact He | apply IH; lia].
    + cbn. exists j. repeat split; auto; intros; lia.
Qed.

(** In a filesystem of [n] entries one of the first [n+1] candidates is
    free, when the candidates are different paths. *)
Lemma some_candidate_is_free (fs : FS) :
  candidates_differ dir base ext ->
  ~ (forall i, (i <= List.length fs)%nat -> fs_exists fs (candidate dir base ext i) = true).
Proof.
  intros Hinj Hall.
  assert (Hincl : incl (map (candidate dir base ext) (seq 0 (S (List.length fs))))
                       (map fst fs)).
  { intros p Hin. apply in_map_iff in Hin. destruct Hin as (i & <- & Hi).
    apply in_seq in Hi. apply fs_exists_in, Hall. lia. }
  assert (Hnd : NoDup (map (candidate dir base ext) (seq 0 (S (List.length fs))))).
  { apply Finite.Injective_map_NoDup_in; [|apply seq_NoDup].
    intros i k _ _ E. now apply Hinj. }
  pose proof (NoDup_incl_length Hnd Hincl) as Hlen.
  rewrite !length_map, length_seq in Hlen. lia.
Qed.

End UniqueFilename.

(** X7.  [unique_filename] never changes the world, and a path it
    returns does not exist and is the first of its candidates that does not:
    every candidate before it exists. *)
Theorem unique_filename_returns_first_free `{lib : PyLib} (fuel : nat) (dir : Path)
        (base : value) (ext : string) (w : World) :
  snd (unique_filename fuel dir base ext w) = w
  /\ (forall p,
         fst (unique_filename fuel dir base ext w) = Ok p ->
         exists k,
           (k <= fuel)%nat
           /\ p = candidate dir base ext k
           /\ fs_exists (w_fs w) p = false
           /\ forall i, (i < k)%nat -> fs_exists (w_fs w) (candidate dir base ext i) = true).
Proof.
  split; [apply unique_filename_result|].
  pose proof (@unique_filename_loop_outcome lib dir base ext fuel 0%nat w) as H.
  change (unique_filename_loop fuel dir base ext (suffix_of 0) (Z.of_nat 0 + 1) w)
    with (unique_filename fuel dir base ext w) in H.
  destruct (fst (unique_filename fuel dir base ext w)) as [p|e|].
  - intros q [= <-].
    destruct H as (k & Hk & Hp & Hfree & Hbusy).
    exists k. repeat split; auto; try lia. intros i Hi. apply Hbusy. lia.
  - contradiction.
  - discriminate.
Qed.

Lemma unique_filename_returns_first_free_witness :
  let w := mkWorld [("out/foo-1.json", File "{}"); ("out/foo.json", File "{}");
                    ("out", Dir)] [] in
  exists k,
    (k <= 5)%nat
    /\ "out/foo-2.json" = candidate (lib := Sample.lib) "out" (VStr "foo") ".json" k
    /\ fs_exists (w_fs w) "out/foo-2.json" = false
    /\ forall i, (i < k)%nat ->
                 fs_exists (w_fs w) (candidate (lib := Sample.lib) "out" (VStr "foo") ".json" i)
                 = true.
Proof.
  cbv zeta.
  apply (proj2 (@unique_filename_returns_first_free Sample.lib 5 "out"
                  (VStr "foo") ".json" _)).
  reflexivity.
Defined.

Lemma unique_filename_enough_fuel `{lib : PyLib} (fuel : nat) (dir : Path)
      (base : value) (ext : string) (w : World) :
  candidates_differ dir base ext ->
  (List.length (w_fs w) <= fuel)%nat ->
  exists p, unique_filename fuel dir base ext w = (Ok p, w).
Proof.
  intros Hinj Hfuel.
  pose proof (@unique_filename_loop_outcome lib dir base ext fuel 0%nat w) as H.
  change (unique_filename_loop fuel dir base ext (suffix_of 0) (Z.of_nat 0 + 1) w)
    with (unique_filename fuel dir base ext w) in H.
  pose proof (proj1 (unique_filename_result fuel dir base ext w)) as Hw.
  destruct (unique_filename fuel dir base ext w) as [[p|e|] w']; cbn [fst snd] in *.
  - exists p. now subst w'.
  - contradiction.
  - exfalso. apply (@some_candidate_is_free lib dir base ext (w_fs w) Hinj).
    intros i Hi. apply H. lia.
Qed.

(** ** The paginated fetcher on servers of any kind *)

Section PagingAnyServer.

Context {lib : PyLib}.
Variable net : nat -> Request -> NetOutcome.

(** One turn of the [while] loop, whatever the server answers. *)
Lemma paged_loop_body fuel token url entity_name cur tot next entities w :
  paged_continue cur tot = inr true ->
  paged_loop net (S fuel) token url entity_name cur tot next entities w
  = match help_scout_get net url (Some [("page", VInt next)]) token
            (mkWorld (w_fs w) (w_trace w ++ [EvLog (LogGettingPage next)])) with
    | (Ok data, w2) =>
        match page_number data entity_name with
        | inl e => (Raise e, w2)
        | inr cp =>
            match page_count data entity_name with
            | inl e => (Raise e, w2)
            | inr tp =>
                match page_items data entity_name with
                | inl e => (Raise e, w2)
                | inr items =>
                    paged_loop net fuel token url entity_name (Some cp) (Some tp) (cp + 1)
                               (entities ++ items)
                               (mkWorld (w_fs w2) (w_trace w2 ++ [EvSleep REQUEST_DELAY]))
                end
            end
        end
    | (Raise e, w2) => (Raise e, w2)
    | (OutOfFuel, w2) => (OutOfFuel, w2)
    end.
Proof.
  intros Hc. cbn [paged_loop]. unfold bind at 1. rewrite Hc. cbn [lift ret].
  unfold bind at 1, log, emit. unfold bind at 1.
  destruct (help_scout_get net url _ token _) as [[data|e|] w2]; try reflexivity.
  unfold bind at 1. destruct (page_number data entity_name) as [e|cp]; [reflexivity|].
  cbn [lift ret]. unfold bind at 1.
  destruct (page_count data entity_name) as [e|tp]; [reflexivity|].
  cbn [lift ret]. unfold bind at 1.
  destruct (page_items data entity_name) as [e|items]; reflexivity.
Qed.

Lemma help_scout_get_quiet url params token w :
  exists new,
    snd (help_scout_get net url params token w) = mkWorld (w_fs w) (w_trace w ++ new)
    /\ quiet new.
Proof.
  change (help_scout_get net url params token)
    with (safe_get net url params (token_auth token) 2).
  destruct (@safe_get_loop_counts lib net 2 0%nat url params (token_auth token) w)
    as (new & Hw & _ & _ & Hq & _).
  exists new. rewrite safe_get_snd. split; [exact Hw | exact Hq].
Qed.

(** The loop never touches the filesystem. *)
Lemma paged_loop_quiet fuel :
  forall token url entity_name cur tot next entities w,
  exists new,
    snd (paged_loop net fuel token url entity_name cur tot next entities w)
    = mkWorld (w_fs w) (w_trace w ++ new)
    /\ quiet new.
Proof.
  assert (Hnil : forall (r : result (list value)) w,
             exists new, snd (r, w) = mkWorld (w_fs w) (w_trace w ++ new) /\ quiet new).
  { intros r w. exists []. cbn. rewrite app_nil_r. destruct w. split; [reflexivity|constructor]. }
  induction fuel as [|fuel IH]; intros token url entity_name cur tot next entities w.
  - cbn [paged_loop]. unfold bind.
    destruct (paged_continue cur tot) as [e|[|]]; cbn [lift ret raise]; apply Hnil.
  - destruct (paged_continue cur tot) as [e|[|]] eqn:Hc.
    + cbn [paged_loop]. unfold bind. rewrite Hc. apply Hnil.
    + rewrite paged_loop_body by exact Hc.
      match goal with
      | |- context [help_scout_get net url ?p token ?w1] =>
          destruct (help_scout_get_quiet url p token w1) as (newh & Hw2 & Hq);
          destruct (help_scout_get net url p token w1) as [r w2]
      end.
      cbn [snd w_fs w_trace] in Hw2. subst w2.
      assert (Hstop : forall r0 : result (list value),
                 exists new,
                   snd (r0, mkWorld (w_fs w)
                              ((w_trace w ++ [EvLog (LogGettingPage next)]) ++ newh))
                   = mkWorld (w_fs w) (w_trace w ++ new)
                   /\ quiet new).
      { intros r0. exists (EvLog (LogGettingPage next) :: newh).
        cbn [snd]. rewrite <- app_assoc. split; [reflexivity|].
        constructor; [reflexivity | exact Hq]. }
      destruct r as [data|e|]; try apply Hstop.
      destruct (page_number data entity_name) as [e|cp]; [apply Hstop|].
      destruct (page_count data entity_name) as [e|tp]; [apply Hstop|].
      destruct (page_items data entity_name) as [e|items]; [apply Hstop|].
      match goal with
      | |- context [paged_loop net fuel token url entity_name ?c ?t ?n ?es ?w3] =>
          destruct (IH token url entity_name c t n es w3) as (new' & Hw3 & Hq')
      end.
      exists (EvLog (LogGettingPage next) :: newh ++ EvSleep REQUEST_DELAY :: new').
      rewrite Hw3. cbn [w_fs w_trace]. rewrite <- !app_assoc. split; [reflexivity|].
      constructor; [reflexivity|]. apply quiet_app; [exact Hq|].
      constructor; [reflexivity | exact Hq'].
    + cbn [paged_loop]. unfold bind. rewrite Hc. apply Hnil.
Qed.

End PagingAnyServer.

(** X9.  A first page that cannot be read (the entity key or [page] is
    missing, or [page] is no number) ends the fetcher with that error right
    after the one request: nothing is returned and the delay is not slept. *)
Theorem paged_fetch_malformed_first_page `{lib : PyLib}
        (net : nat -> Request -> NetOutcome) (fuel : nat) (token : option string)
        (url entity_name : string) (w : World) (headers : list (string * string))
        (data : value) (e : exn) :
  auth_headers (token_auth token) = inr headers ->
  net (ncalls (w_trace w)) (page_request url headers 1) = NetOk data ->
  page_number data entity_name = inl e ->
  (1 <= fuel)%nat ->
  get_paged_help_scout_entities net fuel token url entity_name w
  = (Raise e,
     mkWorld (w_fs w)
             (w_trace w ++ [EvLog (LogGettingPage 1);
                            EvRequest (page_request url headers 1) (NetOk data)])).
Proof.
  intros Ha Hn Hp Hfuel. unfold get_paged_help_scout_entities.
  destruct fuel as [|fuel]; [lia|].
  rewrite paged_loop_body by reflexivity.
  rewrite (@help_scout_get_ok lib net url (Some [("page", VInt 1)]) token headers data
             (mkWorld (w_fs w) (w_trace w ++ [EvLog (LogGettingPage 1)])) Ha).
  2:{ cbn [w_trace]. rewrite ncalls_app. cbn [ncalls filter is_request List.length].
      rewrite Nat.add_0_r. exact Hn. }
  rewrite Hp. cbn [w_fs w_trace]. now rewrite <- app_assoc.
Qed.

Lemma paged_fetch_malformed_first_page_witness :
  get_paged_help_scout_entities (lib := Sample.lib)
    (Sample.always (VDict [("error", VStr "not found")])) 3 (Some "tok")
    "https://h/articles" "articles" Sample.world0
  = (Raise (KeyError "articles"),
     mkWorld []
       [EvLog (LogGettingPage 1);
        EvRequest (mkRequest "https://h/articles?page=1"
                             [("Authorization", "Basic dG9rOng=")])
                  (NetOk (VDict [("error", VStr "not found")]))]).
Proof.
  apply (@paged_fetch_malformed_first_page Sample.lib
           (Sample.always (VDict [("error", VStr "not found")])) 3 (Some "tok")
           "https://h/articles" "articles" Sample.world0
           [("Authorization", "Basic dG9rOng=")]
           (VDict [("error", VStr "not found")]) (KeyError "articles"));
    [reflexivity | reflexivity | reflexivity | lia].
Defined.

(** X10.  The fetcher never touches the filesystem, whatever the server
    answers and however the call ends. *)
Theorem paged_fetch_leaves_filesystem `{lib : PyLib} (net : nat -> Request -> NetOutcome)
        (fuel : nat) (token : option string) (url entity_name : string) (w : World) :
  exists new,
    snd (get_paged_help_scout_entities net fuel token url entity_name w)
    = mkWorld (w_fs w) (w_trace w ++ new)
    /\ quiet new
    /\ writes_of new = [].
Proof.
  destruct (@paged_loop_quiet lib net fuel token url entity_name None None 1 [] w)
    as (new & Hw & Hq).
  exists new. split; [exact Hw|]. split; [exact Hq | now apply quiet_writes].
Qed.

Lemma last_app_nonempty {A} (l1 l2 : list A) (d : A) :
  l2 <> [] -> last (l1 ++ l2) d = last l2 d.
Proof.
  intros H. induction l1 as [|x l1 IH]; [reflexivity|].
  cbn [app]. destruct (l1 ++ l2)%list eqn:E.
  - apply app_eq_nil in E. destruct E as [_ E]. contradiction.
  - cbn [last]. exact IH.
Qed.

Section PagingForever.

Context {lib : PyLib}.
Variable net : nat -> Request -> NetOutcome.
Variables (token : option string) (url entity_name : string).
Variable headers : list (string * string).
Variable data : value.
Variables (cp tp : Z) (items : list value).

Hypothesis Hauth : auth_headers (token_auth token) = inr headers.
Hypothesis Hnet : forall c k, net c (page_request url headers k) = NetOk data.
Hypothesis Hpage : page_number data entity_name = inr cp.
Hypothesis Hpages : page_count data entity_name = inr tp.
Hypothesis Hitems : page_items data entity_name = inr items.
Hypothesis Hmore : cp < tp.

Lemma paged_loop_keeps_asking fuel :
  forall entities w,
    paged_loop net fuel token url entity_name (Some cp) (Some tp) (cp + 1) entities w
    = (OutOfFuel,
       mkWorld (w_fs w)
               (w_trace w
                ++ List.concat (repeat (page_events url headers (cp + 1) data) fuel))).
Proof.
  assert (Hc : paged_continue (Some cp) (Some tp) = inr true).
  { unfold paged_continue. replace (cp <? tp) with true by (symmetry; apply Z.ltb_lt; lia).
    reflexivity. }
  induction fuel as [|fuel IH]; intros entities w.
  - cbn [paged_loop]. unfold bind. rewrite Hc. cbn. rewrite app_nil_r. now destruct w.
  - rewrite (@paged_loop_turn lib net fuel token url entity_name (Some cp) (Some tp)
               (cp + 1) entities w headers data cp tp items Hc Hauth (Hnet _ _)
               Hpage Hpages Hitems).
    rewrite IH. cbn [w_fs w_trace repeat List.concat]. now rewrite <- !app_assoc.
Qed.

End PagingForever.

(** X11.  The fetcher has no bound of its own on the pages it asks for: as
    long as the answers report [page < pages] it goes on, asking for the page
    after the one last reported.  Against a server that always answers so,
    every bound on the turns of the loop is used up, one request per turn. *)
Theorem paged_fetch_keeps_asking `{lib : PyLib} (net : nat -> Request -> NetOutcome)
        (fuel : nat) (token : option string) (url entity_name : string) (w : World)
        (headers : list (string * string)) (data : value) (cp tp : Z)
        (items : list value) :
  auth_headers (token_auth token) = inr headers ->
  (forall c k, net c (page_request url headers k) = NetOk data) ->
  page_number data entity_name = inr cp ->
  page_count data entity_name = inr tp ->
  page_items data entity_name = inr items ->
  cp < tp ->
  exists new,
    get_paged_help_scout_entities net fuel token url entity_name w
    = (OutOfFuel, mkWorld (w_fs w) (w_trace w ++ new))
    /\ requests_of new
       = match fuel with
         | O => []
         | S turns => page_request url headers 1
                      :: repeat (page_request url headers (cp + 1)) turns
         end.
Proof.
  intros Ha Hn Hp Ht Hi Hlt. unfold get_paged_help_scout_entities.
  destruct fuel as [|fuel].
  - exists []. cbn. rewrite app_nil_r. now destruct w.
  - rewrite (@paged_loop_turn lib net fuel token url entity_name None None 1 [] w
               headers data cp tp items eq_refl Ha (Hn _ _) Hp Ht Hi).
    rewrite (@paged_loop_keeps_asking lib net token url entity_name headers data cp tp
               items Ha Hn Hp Ht Hi Hlt).
    cbn [w_fs w_trace].
    exists (page_events url headers 1 data
            ++ List.concat (repeat (page_events url headers (cp + 1) data) fuel))%list.
    rewrite <- app_assoc. split; [reflexivity|].
    rewrite requests_of_app.
    change (requests_of (page_events url headers 1 data)) with [page_request url headers 1].
    cbn [app]. f_equal.
    induction fuel as [|fuel IH]; [reflexivity|].
    cbn [repeat List.concat]. rewrite requests_of_app, IH. reflexivity.
Qed.

Lemma paged_fetch_keeps_asking_witness :
  exists new,
    get_paged_help_scout_entities (lib := Sample.lib)
      (Sample.always (Sample.page "articles" 1 2 [VStr "a"])) 3 (Some "tok")
      "https://h/articles" "articles" Sample.world0
    = (OutOfFuel, mkWorld [] ([] ++ new))
    /\ requests_of new
       = [mkRequest "https://h/articles?page=1" [("Authorization", "Basic dG9rOng=")];
          mkRequest "https://h/articles?page=2" [("Authorization", "Basic dG9rOng=")];
          mkRequest "https://h/articles?page=2" [("Authorization", "Basic dG9rOng=")]].
Proof.
  refine (@paged_fetch_keeps_asking Sample.lib
            (Sample.always (Sample.page "articles" 1 2 [VStr "a"])) 3 (Some "tok")
            "https://h/articles" "articles" Sample.world0
            [("Authorization", "Basic dG9rOng=")]
            (Sample.page "articles" 1 2 [VStr "a"]) 1 2 [VStr "a"]
            eq_refl _ eq_refl eq_refl eq_refl _).
  - intros c k. reflexivity.
  - lia.
Defined.

(** X12.  Against a listing of [P] pages the fetcher sleeps [REQUEST_DELAY]
    once right after every page it has fetched, the last one included, and
    at no other time: its requests and sleeps, in the order in which they
    happen, are the request for page 1, a sleep, the request for page 2, a
    sleep, ..., the request for page [P], a sleep.  It never touches the
    filesystem. *)
Theorem paged_fetch_sleeps_after_every_page `{lib : PyLib}
        (net : nat -> Request -> NetOutcome) (token : option string)
        (url entity_name : string) (headers : list (string * string))
        (pages : list (list value)) (doc : nat -> value) (fuel : nat) (w : World) :
  auth_headers (token_auth token) = inr headers ->
  serves_pages net url entity_name headers pages doc ->
  (Nat.max 1 (List.length pages) <= fuel)%nat ->
  exists new,
    snd (get_paged_help_scout_entities net fuel token url entity_name w)
    = mkWorld (w_fs w) (w_trace w ++ new)
    /\ beats_of new
       = sleep_after (map (fun k => page_request url headers (Z.of_nat k))
                          (seq 1 (Nat.max 1 (List.length pages)))).
Proof.
  intros Ha Hs Hfuel.
  rewrite (@paged_all_pages lib net token url entity_name headers pages doc Ha Hs fuel w Hfuel).
  eexists. split; [reflexivity|].
  generalize (seq 1 (Nat.max 1 (List.length pages))). intros l.
  induction l as [|k l IH]; [reflexivity|].
  cbn [flat_map map sleep_after]. unfold beats_of in *. rewrite flat_map_app.
  fold (sleep_after (map (fun k => page_request url headers (Z.of_nat k)) l)).
  rewrite IH. reflexivity.
Qed.

(** ** Article ids *)

Lemma ids_of_all (articles ids : list value) :
  Forall2 (fun a id => getitem a "id" = inr id) articles ids ->
  ids_of articles = inr ids.
Proof.
  induction 1 as [|a id articles ids Ha _ IH]; [reflexivity|].
  cbn [ids_of]. unfold sum_bind. now rewrite Ha, IH.
Qed.

Lemma ids_of_first_error (before after : list value) (a : value) (e : exn) :
  Forall (fun x => exists id, getitem x "id" = inr id) before ->
  getitem a "id" = inl e ->
  ids_of (before ++ a :: after) = inl e.
Proof.
  intros Hb Ha. induction Hb as [|x before [id Hx] _ IH].
  - cbn [app ids_of]. unfold sum_bind. now rewrite Ha.
  - cbn [app ids_of]. unfold sum_bind at 1. rewrite Hx. unfold sum_bind at 1.
    now rewrite IH.
Qed.

Lemma get_article_ids_run `{lib : PyLib} (net : nat -> Request -> NetOutcome)
      (fuel : nat) (token : option string) (collection_id : string) (w : World) :
  get_article_ids net fuel token collection_id w
  = match get_paged_help_scout_entities net fuel token (articles_url collection_id)
            "articles"
            (mkWorld (w_fs w) (w_trace w ++ [EvLog (LogGettingArticleIds collection_id)])) with
    | (Ok articles, w1) =>
        match ids_of articles with
        | inr ids => (Ok ids, w1)
        | inl e => (Raise e, w1)
        end
    | (Raise e, w1) => (Raise e, w1)
    | (OutOfFuel, w1) => (OutOfFuel, w1)
    end.
Proof.
  unfold get_article_ids, articles_url. unfold bind at 1, log, emit. unfold bind at 1.
  destruct (get_paged_help_scout_entities net fuel token _ "articles" _)
    as [[articles|e|] w1]; try reflexivity.
  unfold bind. now destruct (ids_of articles).
Qed.

(** X13.  Against a listing of article summaries, [get_article_ids] returns
    the [id] of every summary, in the order of the listing (page by page);
    and if some summary has no [id], the lookup error of the first such
    summary is raised instead. *)
Theorem get_article_ids_projects `{lib : PyLib} (net : nat -> Request -> NetOutcome)
        (token : option string) (collection_id : string)
        (headers : list (string * string)) (pages : list (list value))
        (doc : nat -> value) (fuel : nat) (w : World) :
  auth_headers (token_auth token) = inr headers ->
  serves_pages net (articles_url collection_id) "articles" headers pages doc ->
  (Nat.max 1 (List.length pages) <= fuel)%nat ->
  (forall ids,
      Forall2 (fun a id => getitem a "id" = inr id) (List.concat pages) ids ->
      fst (get_article_ids net fuel token collection_id w) = Ok ids)
  /\ (forall before a after e,
         List.concat pages = (before ++ a :: after)%list ->
         Forall (fun x => exists id, getitem x "id" = inr id) before ->
         getitem a "id" = inl e ->
         fst (get_article_ids net fuel token collection_id w) = Raise e).
Proof.
  intros Ha Hs Hfuel. rewrite get_article_ids_run.
  rewrite (@paged_all_pages lib net token (articles_url collection_id) "articles"
             headers pages doc Ha Hs fuel _ Hfuel).
  split.
  - intros ids Hids. now rewrite (@ids_of_all _ ids Hids).
  - intros before a after e Hcat Hb He. rewrite Hcat.
    now rewrite (@ids_of_first_error before after a e Hb He).
Qed.

Lemma two_pages_served :
  serves_pages (lib := Sample.lib)
    (Sample.by_url
       [("https://docsapi.helpscout.net/v1/collections/c1/articles?page=1",
         Sample.page "articles" 1 2 [VDict [("id", VStr "a1")]; VDict [("id", VStr "a2")]]);
        ("https://docsapi.helpscout.net/v1/collections/c1/articles?page=2",
         Sample.page "articles" 2 2 [VDict [("id", VStr "a3")]])])
    (articles_url "c1") "articles" [("Authorization", "Basic dG9rOng=")]
    [[VDict [("id", VStr "a1")]; VDict [("id", VStr "a2")]]; [VDict [("id", VStr "a3")]]]
    (fun k => Sample.page "articles" (Z.of_nat k) 2
                (nth (k - 1) [[VDict [("id", VStr "a1")]; VDict [("id", VStr "a2")]];
                              [VDict [("id", VStr "a3")]]] [])).
Proof.
  intros c k Hk. cbn [List.length Nat.max] in Hk.
  destruct k as [|[|[|k]]]; try lia; repeat split; reflexivity.
Qed.

Lemma get_article_ids_projects_witness :
  fst (get_article_ids (lib := Sample.lib)
         (Sample.by_url
            [("https://docsapi.helpscout.net/v1/collections/c1/articles?page=1",
              Sample.page "articles" 1 2
                          [VDict [("id", VStr "a1")]; VDict [("id", VStr "a2")]]);
             ("https://docsapi.helpscout.net/v1/collections/c1/articles?page=2",
              Sample.page "articles" 2 2 [VDict [("id", VStr "a3")]])])
         2 (Some "tok") "c1" Sample.world0)
  = Ok [VStr "a1"; VStr "a2"; VStr "a3"].
Proof.
  apply (proj1 (@get_article_ids_projects Sample.lib _ (Some "tok") "c1"
                  [("Authorization", "Basic dG9rOng=")] _ _ 2 Sample.world0
                  eq_refl two_pages_served ltac:(cbn; lia))).
  repeat constructor.
Defined.

Lemma paged_fetch_sleeps_after_every_page_witness :
  exists new,
    snd (get_paged_help_scout_entities (lib := Sample.lib)
           (Sample.by_url
              [("https://docsapi.helpscout.net/v1/collections/c1/articles?page=1",
                Sample.page "articles" 1 2
                            [VDict [("id", VStr "a1")]; VDict [("id", VStr "a2")]]);
               ("https://docsapi.helpscout.net/v1/collections/c1/articles?page=2",
                Sample.page "articles" 2 2 [VDict [("id", VStr "a3")]])])
           2 (Some "tok") (articles_url "c1") "articles" Sample.world0)
    = mkWorld [] ([] ++ new)
    /\ beats_of new
       = [BeatRequest
            (mkRequest "https://docsapi.helpscout.net/v1/collections/c1/articles?page=1"
                       [("Authorization", "Basic dG9rOng=")]);
          BeatSleep 1;
          BeatRequest
            (mkRequest "https://docsapi.helpscout.net/v1/collections/c1/articles?page=2"
                       [("Authorization", "Basic dG9rOng=")]);
          BeatSleep 1].
Proof.
  exact (@paged_fetch_sleeps_after_every_page Sample.lib _ (Some "tok") (articles_url "c1")
           "articles" [("Authorization", "Basic dG9rOng=")] _ _ 2 Sample.world0
           eq_refl two_pages_served ltac:(cbn; lia)).
Defined.

(** ** The exporter: what it leaves on disk *)

Lemma length_fs_remove (fs : FS) (p : Path) :
  (List.length (fs_remove fs p) <= List.length fs)%nat.
Proof.
  induction fs as [|[q n] fs IH]; cbn [fs_remove List.length]; [lia|].
  destruct (String.eqb q p); cbn [List.length]; lia.
Qed.

Lemma length_fs_put (fs : FS) (p : Path) (n : node) :
  (List.length (fs_put fs p n) <= S (List.length fs))%nat.
Proof.
  unfold fs_put. cbn [List.length]. pose proof (length_fs_remove fs p). lia.
Qed.

Lemma fs_exists_put_fresh (fs : FS) (p q : Path) (n : node) :
  fs_exists fs p = false ->
  fs_exists fs q = true ->
  fs_exists (fs_put fs p n) q = true.
Proof.
  unfold fs_exists at 2. intros Hp Hq.
  destruct (fs_lookup fs q) as [m|] eqn:Hl; [|discriminate].
  unfold fs_exists. now rewrite (@fs_put_fresh_keeps fs p q n m Hp Hl).
Qed.

Section ExportPaths.

Context {lib : PyLib}.
Variable net : nat -> Request -> NetOutcome.
Variables (fuel : nat) (dir : Path) (token : option string).

(** The loop writes to paths that did not exist when it started, each
    once. *)
Lemma fetch_articles_loop_fresh_paths items :
  forall total w,
  exists new,
    w_trace (snd (fetch_articles_loop net fuel items total dir token w))
    = (w_trace w ++ new)%list
    /\ Forall (fun file => fs_exists (w_fs w) (fst file) = false) (writes_of new)
    /\ NoDup (map fst (writes_of new)).
Proof.
  induction items as [|[i article_id] rest IH]; intros total w.
  { exists []. cbn. rewrite app_nil_r. repeat split; constructor. }
  destruct (@fetch_articles_loop_turn lib net fuel dir token i article_id rest total w)
    as [(r & extra & _ & Heq & Hwr & _)
       | (pre & data & article & slug & k & _ & _ & Hfresh & Hwr & _ & Heq)].
  { rewrite Heq. exists extra. cbn [snd w_trace]. rewrite Hwr.
    repeat split; constructor. }
  rewrite Heq.
  set (p := candidate dir slug ".json" k) in *.
  match goal with
  | |- context [fetch_articles_loop net fuel rest total dir token ?w4] =>
      destruct (IH total w4) as (new' & Htr & Hnew & Hnd)
  end.
  cbn [w_fs w_trace] in Htr, Hnew.
  exists (pre ++ EvWrite p (json_dumps data 2) :: new')%list.
  assert (Hwrites : writes_of (pre ++ EvWrite p (json_dumps data 2) :: new')
                    = (p, json_dumps data 2) :: writes_of new').
  { rewrite writes_of_app, Hwr. reflexivity. }
  rewrite Hwrites. cbn [map fst].
  assert (Hold : Forall (fun file => fs_exists (w_fs w) (fst file) = false) (writes_of new')).
  { eapply Forall_impl; [|exact Hnew]. intros file Hfile. cbv beta in Hfile.
    destruct (fs_exists (w_fs w) (fst file)) eqn:Hex; [|reflexivity].
    rewrite (@fs_exists_put_fresh _ p (fst file) _ Hfresh Hex) in Hfile. discriminate. }
  split; [|split].
  - rewrite Htr. rewrite <- !app_assoc. reflexivity.
  - constructor; [exact Hfresh | exact Hold].
  - constructor; [|exact Hnd].
    intros Hin. apply in_map_iff in Hin. destruct Hin as (file & Hp & Hin).
    rewrite Forall_forall in Hnew. specialize (Hnew file Hin). rewrite Hp in Hnew.
    unfold fs_exists in Hnew. now rewrite fs_lookup_put_same in Hnew.
Qed.

End ExportPaths.

(** X14.  [fetch_articles] never overwrites: whatever existed before the
    call is still there unchanged when it ends, however it ends; every file
    it writes goes to a path that did not exist before the call, and no path
    is written twice. *)
Theorem fetch_articles_never_overwrites `{lib : PyLib}
        (net : nat -> Request -> NetOutcome) (fuel : nat) (article_ids : list value)
        (dir : Path) (token : option string) (w : World) :
  exists new,
    w_trace (snd (fetch_articles net fuel article_ids dir token w)) = (w_trace w ++ new)%list
    /\ (forall q m,
           fs_lookup (w_fs w) q = Some m ->
           fs_lookup (w_fs (snd (fetch_articles net fuel article_ids dir token w))) q = Some m)
    /\ Forall (fun file => fs_exists (w_fs w) (fst file) = false) (writes_of new)
    /\ NoDup (map fst (writes_of new)).
Proof.
  destruct (fs_exists (w_fs w) dir) eqn:Hex.
  { rewrite fetch_articles_existing by exact Hex.
    eexists [_; _]. cbn [snd w_fs w_trace]. repeat split; auto; constructor. }
  destruct (os_refuses (w_fs w) (OsMkdir dir)) as [what|] eqn:Hos.
  - rewrite (@fetch_articles_refused lib net fuel article_ids dir token w what Hex Hos).
    eexists [_]. cbn [snd w_fs w_trace]. repeat split; auto; constructor.
  - rewrite fetch_articles_fresh by assumption.
    match goal with
    | |- context [fetch_articles_loop net fuel ?items ?total dir token ?w1] =>
        destruct (@fetch_articles_loop_fresh_paths lib net fuel dir token items total w1)
          as (new & Htr & Hnew & Hnd);
        destruct (@fetch_articles_loop_effects lib net fuel dir token items total w1)
          as (new0 & _ & Hkeep & _);
        destruct (fetch_articles_loop net fuel items total dir token w1) as [r w']
    end.
    cbn [fst snd w_fs w_trace] in *.
    exists (EvLog (LogCreatingDirectory dir) :: EvMkdir dir :: new).
    change (writes_of (?a :: ?b :: new)) with (writes_of new).
    assert (Hall : w_trace w' = (w_trace w ++ EvLog (LogCreatingDirectory dir)
                                          :: EvMkdir dir :: new)%list
                   /\ (forall q m, fs_lookup (w_fs w) q = Some m ->
                                   fs_lookup (w_fs w') q = Some m)
                   /\ Forall (fun file => fs_exists (w_fs w) (fst file) = false) (writes_of new)
                   /\ NoDup (map fst (writes_of new))).
    { split; [rewrite Htr; now rewrite <- app_assoc|].
      split; [intros q m Hq; apply Hkeep; now apply fs_put_fresh_keeps|].
      split; [|exact Hnd].
      eapply Forall_impl; [|exact Hnew]. intros file Hfile. cbv beta in Hfile.
      destruct (fs_exists (w_fs w) (fst file)) eqn:Hq; [|reflexivity].
      rewrite (@fs_exists_put_fresh _ dir (fst file) _ Hex Hq) in Hfile. discriminate. }
    destruct r as [[]|e|]; exact Hall.
Qed.

Lemma beats_of_app (t1 t2 : list event) :
  beats_of (t1 ++ t2) = (beats_of t1 ++ beats_of t2)%list.
Proof. apply flat_map_app. Qed.

Lemma beats_of_pages `{lib : PyLib} (url : string) (headers : list (string * string))
      (doc : nat -> value) (l : list nat) :
  beats_of (flat_map (fun k => page_events url headers (Z.of_nat k) (doc k)) l)
  = sleep_after (map (fun k => page_request url headers (Z.of_nat k)) l).
Proof.
  induction l as [|k l IH]; [reflexivity|].
  cbn [flat_map map]. rewrite beats_of_app, IH. reflexivity.
Qed.

Section ExportSucceeds.

Context {lib : PyLib}.
Variable net : nat -> Request -> NetOutcome.
Variables (fuel : nat) (dir : Path) (token : option string).
Variable headers : list (string * string).
Variable doc : value -> value.

Hypothesis Hauth : auth_headers (token_auth token) = inr headers.
Hypothesis Hdiff : forall slug, candidates_differ dir slug ".json".

(** With every article served, a free name found each time and no [open]
    refused, the loop goes through all its items: one sleep, one request
    and one file each. *)
Lemma fetch_articles_loop_succeeds items :
  forall total w,
    serves_articles net headers (map snd items) doc ->
    accepts_articles dir (map snd items) doc ->
    fs_lookup (w_fs w) dir = Some Dir ->
    (List.length (w_fs w) + List.length items <= fuel)%nat ->
    exists new,
      fst (fetch_articles_loop net fuel items total dir token w) = Ok tt
      /\ w_trace (snd (fetch_articles_loop net fuel items total dir token w))
         = (w_trace w ++ new)%list
      /\ map snd (writes_of new)
         = map (fun article_id => json_dumps (doc article_id) 2) (map snd items)
      /\ beats_of new
         = sleep_before (map (fun article_id => mkRequest (article_url article_id) headers)
                             (map snd items)).
Proof.
  induction items as [|[i article_id] rest IH]; intros total w Hserved Haccept Hdir Hfuel.
  { exists []. cbn. rewrite app_nil_r. repeat split. }
  rewrite fetch_articles_loop_cons. cbv zeta.
  destruct (Hserved (ncalls (w_trace w)) article_id (or_introl eq_refl))
    as (Hn & article & slug & Harticle & Hslug).
  fold (article_url article_id).
  rewrite (@help_scout_get_ok lib net (article_url article_id) None token headers
             (doc article_id) _ Hauth).
  2:{ cbn [w_trace]. rewrite ncalls_app. cbn [ncalls filter is_request List.length].
      rewrite Nat.add_0_r. exact Hn. }
  cbn [w_fs w_trace]. rewrite Harticle, Hslug.
  match goal with
  | |- context [unique_filename fuel dir slug ".json" ?w2] =>
      destruct (@unique_filename_enough_fuel lib fuel dir slug ".json" w2 (Hdiff slug)
                  ltac:(cbn [w_fs List.length] in *; lia)) as [p Hp];
      pose proof (proj2 (unique_filename_result fuel dir slug ".json" w2) p) as Hfresh;
      rewrite Hp in Hfresh |- *
  end.
  destruct (Hfresh eq_refl) as [Hfree [k Hk]]. cbn [w_fs] in Hfree.
  rewrite write_file_fresh by exact Hfree. cbn [w_fs w_trace].
  pose proof (Haccept (w_fs w) article_id article slug k (or_introl eq_refl)
                      Harticle Hslug Hdir) as Hopen.
  rewrite <- Hk in Hopen. rewrite Hopen.
  match goal with
  | |- context [fetch_articles_loop net fuel rest total dir token ?w4] =>
      destruct (IH total w4) as (new' & Hok & Htr & Hw & Hb)
  end.
  { intros c id Hin. apply Hserved. now right. }
  { intros fs id a sl j Hin. apply Haccept. now right. }
  { cbn [w_fs]. now apply fs_put_fresh_keeps. }
  { cbn [w_fs List.length] in *.
    pose proof (length_fs_put (w_fs w) p (File (json_dumps (doc article_id) 2))). lia. }
  cbn [w_fs w_trace] in Htr.
  exists (EvLog (LogGettingArticle article_id (i + 1) total) :: EvSleep REQUEST_DELAY
          :: EvRequest (mkRequest (article_url article_id) headers) (NetOk (doc article_id))
          :: EvLog (LogSavingArticle p) :: EvWrite p (json_dumps (doc article_id) 2) :: new').
  split; [exact Hok|]. split.
  { rewrite Htr. rewrite <- !app_assoc. reflexivity. }
  change (writes_of (?a :: ?b :: ?c :: ?d :: EvWrite ?q ?t :: new'))
    with ((q, t) :: writes_of new').
  change (beats_of (?a :: EvSleep ?n :: EvRequest ?r ?o :: ?d :: ?e :: new'))
    with (BeatSleep n :: BeatRequest r :: beats_of new').
  cbn [map snd]. rewrite Hw, Hb. split; reflexivity.
Qed.

End ExportSucceeds.

Lemma fetch_articles_succeeds `{lib : PyLib}
        (net : nat -> Request -> NetOutcome) (fuel : nat) (article_ids : list value)
        (dir : Path) (token : option string) (headers : list (string * string))
        (doc : value -> value) (w : World) :
  auth_headers (token_auth token) = inr headers ->
  (forall slug, candidates_differ dir slug ".json") ->
  serves_articles net headers article_ids doc ->
  fs_exists (w_fs w) dir = false ->
  os_refuses (w_fs w) (OsMkdir dir) = None ->
  accepts_articles dir article_ids doc ->
  (List.length (w_fs w) + List.length article_ids + 1 <= fuel)%nat ->
  exists new,
    fst (fetch_articles net fuel article_ids dir token w) = Ok []
    /\ w_trace (snd (fetch_articles net fuel article_ids dir token w))
       = (w_trace w ++ new)%list
    /\ fs_lookup (w_fs (snd (fetch_articles net fuel article_ids dir token w))) dir
       = Some Dir
    /\ map snd (writes_of new)
       = map (fun article_id => json_dumps (doc article_id) 2) article_ids
    /\ Forall (fun file =>
                 fs_lookup (w_fs (snd (fetch_articles net fuel article_ids dir token w)))
                           (fst file)
                 = Some (File (snd file)))
              (writes_of new)
    /\ beats_of new
       = sleep_before (map (fun article_id => mkRequest (article_url article_id) headers)
                           article_ids).
Proof.
  intros Ha Hdiff Hserved Hex Hos Haccept Hfuel.
  assert (Hmap : forall (l : list value) i, map snd (enumerate_from i l) = l).
  { induction l as [|x l IH]; intros i; [reflexivity|].
    cbn [enumerate_from map snd]. now rewrite IH. }
  rewrite fetch_articles_fresh by assumption.
  match goal with
  | |- context [fetch_articles_loop net fuel ?items ?total dir token ?w1] =>
      destruct (@fetch_articles_loop_succeeds lib net fuel dir token headers doc Ha Hdiff
                  items total w1) as (new & Hok & Htr & Hw & Hb);
      [ rewrite Hmap; exact Hserved
      | rewrite Hmap; exact Haccept
      | cbn [w_fs]; apply fs_lookup_put_same
      | rewrite length_enumerate_from; cbn [w_fs];
        pose proof (length_fs_put (w_fs w) dir Dir); lia
      | destruct (@fetch_articles_loop_effects lib net fuel dir token items total w1)
          as (new0 & Htr0 & Hkeep & Hfiles & _);
        destruct (fetch_articles_loop net fuel items total dir token w1) as [r w'] ]
  end.
  cbn [fst snd w_fs w_trace] in *. subst r. cbn [fst snd].
  assert (new0 = new) by (rewrite Htr in Htr0; now apply app_inv_head in Htr0).
  subst new0.
  rewrite Hmap in Hw, Hb.
  exists (EvLog (LogCreatingDirectory dir) :: EvMkdir dir :: new).
  change (writes_of (?a :: ?b :: new)) with (writes_of new).
  change (beats_of (?a :: ?b :: new)) with (beats_of new).
  split; [reflexivity|]. split; [rewrite Htr; now rewrite <- app_assoc|].
  split; [apply Hkeep, fs_lookup_put_same|].
  split; [exact Hw|]. split; [exact Hfiles | exact Hb].
Qed.


Lemma scenario_articles_served :
  serves_articles (lib := Sample.lib) Scenario.server [("Authorization", "Basic dG9rOng=")]
    [VStr "a1"; VStr "a2"]
    (fun article_id => Sample.article "intro" (@py_str Sample.lib article_id)).
Proof.
  intros c article_id [<- | [<- | []]]; (split; [reflexivity|]);
    eexists; eexists; split; reflexivity.
Qed.

Lemma parent_of_name (name : string) :
  (forall c, In c (list_ascii_of_string name) -> c <> "/"%char) ->
  Sample.parent_of name = None.
Proof.
  induction name as [|c name IH]; intros Hno; [reflexivity|].
  cbn [Sample.parent_of]. rewrite IH.
  - destruct (Ascii.eqb_spec c "/"%char) as [->|Hc]; [|reflexivity].
    exfalso. apply (Hno "/"%char); [now left | reflexivity].
  - intros c' Hin. apply Hno. now right.
Qed.

Lemma parent_of_join (dir name : string) :
  (forall c, In c (list_ascii_of_string name) -> c <> "/"%char) ->
  Sample.parent_of (dir ++ "/" ++ name) = Some dir.
Proof.
  intros Hno. induction dir as [|c dir IH].
  - cbn. now rewrite parent_of_name.
  - cbn [append Sample.parent_of]. cbn [append] in IH. now rewrite IH.
Qed.

Lemma digits_no_slash (d : Decimal.uint) :
  forall c, In c (list_ascii_of_string (NilZero.string_of_uint d)) -> c <> "/"%char.
Proof.
  assert (H : forall d c, In c (list_ascii_of_string (NilEmpty.string_of_uint d)) ->
                          c <> "/"%char).
  { clear d. induction d as [|d IH|d IH|d IH|d IH|d IH|d IH|d IH|d IH|d IH|d IH];
      cbn; intros c Hin; [contradiction|..];
      (destruct Hin as [<- | Hin]; [discriminate | now apply IH]). }
  destruct d; try apply H.
  cbn. intros c [<- | []]. discriminate.
Qed.

Lemma list_ascii_of_string_app (a b : string) :
  list_ascii_of_string (a ++ b) = (list_ascii_of_string a ++ list_ascii_of_string b)%list.
Proof.
  induction a as [|c a IH]; [reflexivity|]. cbn. now rewrite IH.
Qed.

Lemma suffix_of_no_slash (k : nat) :
  forall c, In c (list_ascii_of_string (suffix_of k)) -> c <> "/"%char.
Proof.
  destruct k as [|k]; cbn [suffix_of]; [intros c []|].
  intros c Hin. cbn [append list_ascii_of_string] in Hin.
  destruct Hin as [<- | Hin]; [discriminate|].
  unfold str_of_int in Hin.
  destruct (Z.to_int (Z.of_nat (S k))) as [d|d] eqn:E; [|discriminate E].
  cbn in Hin. now apply digits_no_slash in Hin.
Qed.

(** In the scenario every name tried lies right under [out]. *)
Lemma scenario_accepts_articles :
  accepts_articles (lib := Sample.lib) "out" [VStr "a1"; VStr "a2"]
    (fun article_id => Sample.article "intro" (@py_str Sample.lib article_id)).
Proof.
  intros fs article_id article slug k Hin Harticle Hslug Hdir.
  assert (Hs : slug = VStr "intro").
  { destruct Hin as [<- | [<- | []]]; cbn in Harticle; injection Harticle as <-;
      cbn in Hslug; now injection Hslug as <-. }
  subst slug. unfold candidate. cbn [os_refuses joinpath Sample.lib py_str].
  unfold Sample.refuses. rewrite parent_of_join.
  - now rewrite Hdir.
  - intros c Hin'. rewrite !list_ascii_of_string_app in Hin'.
    apply in_app_or in Hin'. destruct Hin' as [Hin' | Hin'].
    + cbn in Hin'. intuition (subst; discriminate).
    + apply in_app_or in Hin'. destruct Hin' as [Hin' | Hin'].
      * now apply (suffix_of_no_slash k).
      * cbn in Hin'. intuition (subst; discriminate).
Qed.



Lemma scenario_listing_served :
  serves_pages (lib := Sample.lib) Scenario.server (articles_url "c1") "articles"
    [("Authorization", "Basic dG9rOng=")] [Scenario.summaries]
    (fun k => Sample.page "articles" (Z.of_nat k) 1 (nth (k - 1) [Scenario.summaries] [])).
Proof.
  intros c k Hk. cbn [List.length Nat.max] in Hk.
  destruct k as [|[|k]]; try lia; repeat split; reflexivity.
Qed.


(** ** The command line: credential and listing mode *)

(** X17.  Without a credential (no [--token] or an empty one, and the
    environment variable unset) [main] ends through [parser.error] with exit
    status 2 right away: one log line, no request, the filesystem as it
    was. *)
Theorem main_without_credential `{lib : PyLib} (net : nat -> Request -> NetOutcome)
        (fuel : nat) (args : Namespace) (getenv : option string) (now : string)
        (w : World) :
  resolved_token args getenv = None ->
  main net fuel args getenv now w
  = (Raise (SystemExit 2),
     mkWorld (w_fs w)
             (w_trace w
              ++ [EvLog (LogParserError
                           "HELPSCOUTAUTH environment variable (or --token) must be set.")])).
Proof.
  intros Ht. unfold main. fold (resolved_token args getenv). rewrite Ht. reflexivity.
Qed.

Lemma main_without_credential_witness :
  main (lib := Sample.lib) (Sample.always VNone) 5
       (mkNamespace (Some EmptyString) (Some "c1") None) None "2024-01-01T00:00:00"
       Sample.world0
  = (Raise (SystemExit 2),
     mkWorld []
       ([] ++ [EvLog (LogParserError
                        "HELPSCOUTAUTH environment variable (or --token) must be set.")])).
Proof.
  apply (@main_without_credential Sample.lib). reflexivity.
Defined.

Section ListingMode.

Context {lib : PyLib}.
Variable net : nat -> Request -> NetOutcome.

Lemma log_collections_quiet collections :
  forall w,
  exists new,
    snd (log_collections collections w) = mkWorld (w_fs w) (w_trace w ++ new)
    /\ quiet new.
Proof.
  induction collections as [|c cs IH]; intros w.
  - exists []. cbn. rewrite app_nil_r. destruct w. split; [reflexivity | constructor].
  - cbn [log_collections]. unfold bind at 1.
    destruct (getitem c "id") as [e|id]; cbn [lift ret raise].
    + exists []. cbn. rewrite app_nil_r. destruct w. split; [reflexivity | constructor].
    + unfold bind at 1, log, emit.
      match goal with
      | |- context [log_collections cs ?w1] =>
          destruct (IH w1) as (new & Hw & Hq)
      end.
      exists (EvLog (LogCollection id (json_dumps c 2)) :: new).
      rewrite Hw. cbn [w_fs w_trace]. rewrite <- app_assoc.
      split; [reflexivity|]. constructor; [reflexivity | exact Hq].
Qed.

Lemma log_collections_all collections :
  Forall (fun c => exists id, getitem c "id" = inr id) collections ->
  forall w, fst (log_collections collections w) = Ok tt.
Proof.
  induction 1 as [|c cs [id Hid] _ IH]; intros w; [reflexivity|].
  cbn [log_collections]. unfold bind at 1. rewrite Hid. cbn [lift ret].
  unfold bind at 1, log, emit. apply IH.
Qed.

Lemma log_collections_first_error before c after e :
  Forall (fun x => exists id, getitem x "id" = inr id) before ->
  getitem c "id" = inl e ->
  forall w, fst (log_collections (before ++ c :: after) w) = Raise e.
Proof.
  intros Hb He. induction Hb as [|x before [id Hid] _ IH]; intros w.
  - cbn [app log_collections]. unfold bind. now rewrite He.
  - cbn [app log_collections]. unfold bind at 1. rewrite Hid. cbn [lift ret].
    unfold bind at 1, log, emit. apply IH.
Qed.

(** [main] without [--collection], once the credential is there. *)
Lemma main_listing_run fuel args getenv now t w :
  arg_collection args = None ->
  resolved_token args getenv = Some t ->
  main net fuel args getenv now w
  = match get_paged_help_scout_entities net fuel (Some t) collections_url "collections"
            (mkWorld (w_fs w)
                     (w_trace w ++ [EvLog LogNoCollection; EvLog LogFetchingCollectionInfo;
                                    EvLog LogGettingCollections])) with
    | (Ok [], w1) =>
        (Raise (SystemExit 2),
         mkWorld (w_fs w1)
                 (w_trace w1 ++ [EvLog (LogParserError "No collections found for token.")]))
    | (Ok (c :: cs), w1) =>
        match log_collections (c :: cs)
                (mkWorld (w_fs w1) (w_trace w1 ++ [EvLog LogFoundCollections])) with
        | (Ok _, w2) =>
            (Raise (SystemExit 1), mkWorld (w_fs w2) (w_trace w2 ++ [EvLog LogPleaseSpecify]))
        | (Raise e, w2) => (Raise e, w2)
        | (OutOfFuel, w2) => (OutOfFuel, w2)
        end
    | (Raise e, w1) => (Raise e, w1)
    | (OutOfFuel, w1) => (OutOfFuel, w1)
    end.
Proof.
  intros Hc Ht. unfold main. fold (resolved_token args getenv). rewrite Ht, Hc.
  unfold bind at 1, log, emit. unfold bind at 1. cbn [w_fs w_trace].
  unfold bind at 1, get_collections. unfold bind at 1, log, emit. cbn [w_fs w_trace].
  unfold bind at 1. rewrite <- !app_assoc. cbn [app].
  fold collections_url.
  destruct (get_paged_help_scout_entities net fuel (Some t) collections_url "collections" _)
    as [[[|c cs]|e|] w1]; reflexivity.
Qed.

End ListingMode.

(** X18.  Without [--collection], [main] never succeeds and never touches
    the filesystem, whatever the server answers: it creates no directory and
    writes no file, and ends in an exit, an error or a used-up bound. *)
Theorem main_listing_creates_nothing `{lib : PyLib} (net : nat -> Request -> NetOutcome)
        (fuel : nat) (args : Namespace) (getenv : option string) (now : string)
        (w : World) :
  arg_collection args = None ->
  fst (main net fuel args getenv now w) <> Ok tt
  /\ exists new,
      snd (main net fuel args getenv now w) = mkWorld (w_fs w) (w_trace w ++ new)
      /\ quiet new
      /\ writes_of new = [].
Proof.
  intros Hc.
  assert (Hq : forall new, quiet new -> quiet new /\ writes_of new = [])
    by (intros new H; split; [exact H | now apply quiet_writes]).
  destruct (resolved_token args getenv) as [t|] eqn:Ht.
  - rewrite (@main_listing_run lib net fuel args getenv now t w Hc Ht).
    match goal with
    | |- context [get_paged_help_scout_entities net fuel ?tok ?u ?en ?w0] =>
        destruct (@paged_loop_quiet lib net fuel tok u en None None 1 [] w0)
          as (newp & Hwp & Hqp);
        change (paged_loop net fuel tok u en None None 1 [] w0)
          with (get_paged_help_scout_entities net fuel tok u en w0) in Hwp;
        destruct (get_paged_help_scout_entities net fuel tok u en w0) as [r w1]
    end.
    cbn [snd w_fs w_trace] in Hwp. subst w1.
    set (start := [EvLog LogNoCollection; EvLog LogFetchingCollectionInfo;
                   EvLog LogGettingCollections]) in *.
    assert (Hstart : quiet start) by (unfold quiet, start; repeat constructor).
    destruct r as [[|c cs]|e|]; cbn [fst snd w_fs w_trace].
    + split; [discriminate|].
      exists (start ++ newp ++ [EvLog (LogParserError "No collections found for token.")])%list.
      split; [now rewrite <- !app_assoc|]. apply Hq.
      repeat apply quiet_app; auto. unfold quiet. repeat constructor.
    + match goal with
      | |- context [log_collections (c :: cs) ?w2] =>
          destruct (@log_collections_quiet lib (c :: cs) w2) as (newl & Hwl & Hql);
          destruct (log_collections (c :: cs) w2) as [r2 w3]
      end.
      cbn [snd w_fs w_trace] in Hwl. subst w3.
      assert (Hfound : quiet [EvLog LogFoundCollections])
        by (unfold quiet; repeat constructor).
      destruct r2 as [[]|e|]; cbn [fst snd w_fs w_trace]; (split; [discriminate|]).
      * exists (start ++ newp ++ [EvLog LogFoundCollections] ++ newl
                ++ [EvLog LogPleaseSpecify])%list.
        split; [now rewrite <- !app_assoc|]. apply Hq.
        repeat apply quiet_app; auto. unfold quiet. repeat constructor.
      * exists (start ++ newp ++ [EvLog LogFoundCollections] ++ newl)%list.
        split; [now rewrite <- !app_assoc|]. apply Hq. repeat apply quiet_app; auto.
      * exists (start ++ newp ++ [EvLog LogFoundCollections] ++ newl)%list.
        split; [now rewrite <- !app_assoc|]. apply Hq. repeat apply quiet_app; auto.
    + split; [discriminate|]. exists (start ++ newp)%list.
      split; [now rewrite <- !app_assoc|]. apply Hq. now apply quiet_app.
    + split; [discriminate|]. exists (start ++ newp)%list.
      split; [now rewrite <- !app_assoc|]. apply Hq. now apply quiet_app.
  - unfold main. fold (resolved_token args getenv). rewrite Ht.
    split; [discriminate|]. eexists [_]. split; [reflexivity|].
    apply Hq. unfold quiet. repeat constructor.
Qed.

Lemma main_listing_creates_nothing_witness :
  fst (main (lib := Sample.lib)
            (Sample.always (Sample.page "collections" 1 1 [VDict [("id", VStr "c1")]]))
            5 (mkNamespace (Some "tok") None (Some "out")) None "2024-01-01T00:00:00"
            Sample.world0) <> Ok tt
  /\ exists new,
      snd (main (lib := Sample.lib)
                (Sample.always (Sample.page "collections" 1 1 [VDict [("id", VStr "c1")]]))
                5 (mkNamespace (Some "tok") None (Some "out")) None "2024-01-01T00:00:00"
                Sample.world0)
      = mkWorld [] ([] ++ new)
      /\ quiet new
      /\ writes_of new = [].
Proof.
  apply (@main_listing_creates_nothing Sample.lib). reflexivity.
Defined.

Lemma log_collections_lines `{lib : PyLib} (collections ids : list value) :
  Forall2 (fun c id => getitem c "id" = inr id) collections ids ->
  forall w,
    log_collections collections w
    = (Ok tt,
       mkWorld (w_fs w)
               (w_trace w
                ++ map (fun p => EvLog (LogCollection (snd p) (json_dumps (fst p) 2)))
                       (combine collections ids))).
Proof.
  induction 1 as [|c id cs ids Hid _ IH]; intros w.
  - cbn. rewrite app_nil_r. now destruct w.
  - cbn [log_collections]. unfold bind at 1. rewrite Hid. cbn [lift ret].
    unfold bind at 1, log, emit. rewrite IH. cbn [w_fs w_trace combine map fst snd].
    now rewrite <- app_assoc.
Qed.

(** X19.  Listing mode against a server that lists the collections.  With
    no collection at all [main] ends through [parser.error], exit status 2.
    Otherwise it logs every collection with its [id], in listing order, and
    ends with exit status 1; a collection without an [id] makes the lookup
    error escape instead. *)
Theorem main_lists_collections `{lib : PyLib} (net : nat -> Request -> NetOutcome)
        (fuel : nat) (args : Namespace) (getenv : option string) (now : string)
        (t : string) (headers : list (string * string)) (pages : list (list value))
        (doc : nat -> value) (w : World) :
  arg_collection args = None ->
  resolved_token args getenv = Some t ->
  auth_headers (token_auth (Some t)) = inr headers ->
  serves_pages net collections_url "collections" headers pages doc ->
  (Nat.max 1 (List.length pages) <= fuel)%nat ->
  let start :=
    ([EvLog LogNoCollection; EvLog LogFetchingCollectionInfo; EvLog LogGettingCollections]
     ++ flat_map (fun k => page_events collections_url headers (Z.of_nat k) (doc k))
                 (seq 1 (Nat.max 1 (List.length pages))))%list in
  (List.concat pages = [] ->
   main net fuel args getenv now w
   = (Raise (SystemExit 2),
      mkWorld (w_fs w)
              (w_trace w ++ start
               ++ [EvLog (LogParserError "No collections found for token.")])))
  /\ (forall ids,
         List.concat pages <> [] ->
         Forall2 (fun c id => getitem c "id" = inr id) (List.concat pages) ids ->
         main net fuel args getenv now w
         = (Raise (SystemExit 1),
            mkWorld (w_fs w)
                    (w_trace w ++ start
                     ++ [EvLog LogFoundCollections]
                     ++ map (fun p => EvLog (LogCollection (snd p) (json_dumps (fst p) 2)))
                            (combine (List.concat pages) ids)
                     ++ [EvLog LogPleaseSpecify])))
  /\ (forall before c after e,
         List.concat pages = (before ++ c :: after)%list ->
         Forall (fun x => exists id, getitem x "id" = inr id) before ->
         getitem c "id" = inl e ->
         fst (main net fuel args getenv now w) = Raise e).
Proof.
  intros Hc Ht Ha Hs Hfuel start.
  rewrite (@main_listing_run lib net fuel args getenv now t w Hc Ht).
  rewrite (@paged_all_pages lib net (Some t) collections_url "collections"
             headers pages doc Ha Hs fuel _ Hfuel).
  cbn [w_fs w_trace]. split; [|split].
  - intros ->. unfold start. now rewrite <- !app_assoc.
  - intros ids Hne Hids.
    destruct (List.concat pages) as [|c cs] eqn:Hcat; [contradiction|].
    rewrite (@log_collections_lines lib (c :: cs) ids Hids). cbn [w_fs w_trace].
    unfold start. now rewrite <- !app_assoc.
  - intros before c after e Hcat Hb He. rewrite Hcat.
    destruct (before ++ c :: after)%list as [|c0 cs0] eqn:Hl.
    { destruct before; discriminate. }
    rewrite <- Hl.
    match goal with
    | |- context [log_collections (before ++ c :: after) ?w1] =>
        pose proof (@log_collections_first_error lib before c after e Hb He w1) as Herr;
        destruct (log_collections (before ++ c :: after) w1) as [r w2]
    end.
    cbn [fst] in Herr. now subst r.
Qed.

Lemma main_lists_collections_witness :
  let pages := [[VDict [("id", VStr "c1")]; VDict [("id", VStr "c2")]]] in
  let doc := fun k => Sample.page "collections" (Z.of_nat k) 1 (nth (k - 1) pages []) in
  fst (main (lib := Sample.lib)
            (Sample.by_url [("https://docsapi.helpscout.net/v1/collections?page=1", doc 1%nat)])
            5 (mkNamespace (Some "tok") None None) None "2024-01-01T00:00:00"
            Sample.world0)
  = Raise (SystemExit 1).
Proof.
  cbv zeta.
  refine (f_equal fst
            (proj1 (proj2
               (@main_lists_collections Sample.lib
                  (Sample.by_url
                     [("https://docsapi.helpscout.net/v1/collections?page=1",
                       Sample.page "collections" 1 1
                                   [VDict [("id", VStr "c1")]; VDict [("id", VStr "c2")]])])
                  5 (mkNamespace (Some "tok") None None) None "2024-01-01T00:00:00" "tok"
                  [("Authorization", "Basic dG9rOng=")]
                  [[VDict [("id", VStr "c1")]; VDict [("id", VStr "c2")]]]
                  (fun k => Sample.page "collections" (Z.of_nat k) 1
                              (nth (k - 1) [[VDict [("id", VStr "c1")];
                                             VDict [("id", VStr "c2")]]] []))
                  Sample.world0 eq_refl eq_refl eq_refl _ _))
               [VStr "c1"; VStr "c2"] _ _)).
  - intros c k Hk. cbn [List.length Nat.max] in Hk.
    destruct k as [|[|k]]; try lia; repeat split; reflexivity.
  - cbn. lia.
  - discriminate.
  - repeat constructor.
Defined.

(** ** The exporter: a failure in the middle *)

Lemma enumerate_from_app {A} (l1 l2 : list A) :
  forall i,
    enumerate_from i (l1 ++ l2)
    = (enumerate_from i l1 ++ enumerate_from (i + len l1) l2)%list.
Proof.
  induction l1 as [|x l1 IH]; intros i.
  - cbn. now rewrite Z.add_0_r.
  - cbn [app enumerate_from]. rewrite IH. cbn [app]. do 3 f_equal.
    unfold len. cbn [List.length]. lia.
Qed.

Section ExportStops.

Context {lib : PyLib}.
Variable net : nat -> Request -> NetOutcome.
Variables (fuel : nat) (dir : Path) (token : option string).

(** The loop over two lists in a row is the loop over the first and then,
    if that went through, the loop over the second. *)
Lemma fetch_articles_loop_app items1 :
  forall items2 total w,
    fetch_articles_loop net fuel (items1 ++ items2) total dir token w
    = match fetch_articles_loop net fuel items1 total dir token w with
      | (Ok _, w1) => fetch_articles_loop net fuel items2 total dir token w1
      | (Raise e, w1) => (Raise e, w1)
      | (OutOfFuel, w1) => (OutOfFuel, w1)
      end.
Proof.
  induction items1 as [|[i article_id] rest IH]; intros items2 total w; [reflexivity|].
  cbn [app]. rewrite !fetch_articles_loop_cons. cbv zeta.
  destruct (help_scout_get net _ None token _) as [[data|e|] w2]; try reflexivity.
  destruct (getitem data "article") as [e|article]; [reflexivity|].
  destruct (getitem article "slug") as [e|slug]; [reflexivity|].
  destruct (unique_filename fuel dir slug ".json" w2) as [[p|e|] w3]; try reflexivity.
  destruct (write_file p _ _) as [[[]|e|] w4]; try reflexivity.
  apply IH.
Qed.

End ExportStops.

(** X20.  No rollback.  [fetch_articles] on a directory it could make:
    when the turns of its loop for the ids [done] went through and the
    document then fetched for the next id [bad] has no [article] key, or its
    article no [slug], the call ends with that lookup error right after the
    fetch.  The filesystem is as the turns for [done] left it: the directory
    stays, whatever existed before the call is still there, and each of the
    files written for [done], one per id, is on disk.  Nothing is written
    for [bad], and the requests of the failing turn all go to the url of
    [bad]: the ids after it are never requested. *)
Theorem fetch_articles_stops_at_bad_document `{lib : PyLib}
        (net : nat -> Request -> NetOutcome) (fuel : nat) (done rest : list value)
        (bad : value) (dir : Path) (token : option string) (data : value)
        (e : exn) (w w1 w2 : World) :
  fs_exists (w_fs w) dir = false ->
  os_refuses (w_fs w) (OsMkdir dir) = None ->
  fetch_articles_loop net fuel (enumerate_from 0 done) (len (done ++ bad :: rest)) dir token
    (mkWorld (fs_put (w_fs w) dir Dir)
             (w_trace w ++ [EvLog (LogCreatingDirectory dir); EvMkdir dir]))
  = (Ok tt, w1) ->
  help_scout_get net (article_url bad) None token
    (mkWorld (w_fs w1)
             (w_trace w1
              ++ [EvLog (LogGettingArticle bad (len done + 1) (len (done ++ bad :: rest)));
                  EvSleep REQUEST_DELAY]))
  = (Ok data, w2) ->
  (getitem data "article" = inl e
   \/ exists article, getitem data "article" = inr article
                      /\ getitem article "slug" = inl e) ->
  fetch_articles net fuel (done ++ bad :: rest) dir token w = (Raise e, w2)
  /\ w_fs w2 = w_fs w1
  /\ fs_lookup (w_fs w2) dir = Some Dir
  /\ (forall q m, fs_lookup (w_fs w) q = Some m -> fs_lookup (w_fs w2) q = Some m)
  /\ exists before turn,
      w_trace w1
      = (w_trace w ++ [EvLog (LogCreatingDirectory dir); EvMkdir dir] ++ before)%list
      /\ w_trace w2
         = (w_trace w1
            ++ [EvLog (LogGettingArticle bad (len done + 1) (len (done ++ bad :: rest)));
                EvSleep REQUEST_DELAY]
            ++ turn)%list
      /\ List.length (writes_of before) = List.length done
      /\ Forall (fun file => fs_lookup (w_fs w2) (fst file) = Some (File (snd file)))
                (writes_of before)
      /\ writes_of turn = []
      /\ Forall (fun r => req_url r = article_url bad) (requests_of turn).
Proof.
  intros Hex Hos Hdone Hget Hkey.
  set (total := len (done ++ bad :: rest)) in *.
  set (w0 := mkWorld (fs_put (w_fs w) dir Dir)
                     (w_trace w ++ [EvLog (LogCreatingDirectory dir); EvMkdir dir])) in *.
  set (wt := mkWorld (w_fs w1)
                     (w_trace w1 ++ [EvLog (LogGettingArticle bad (len done + 1) total);
                                     EvSleep REQUEST_DELAY])) in *.
  (* the failing turn *)
  assert (Hturn : exists turn,
             w2 = mkWorld (w_fs w1) (w_trace wt ++ turn)
             /\ writes_of turn = []
             /\ Forall (fun r => req_url r = article_url bad) (requests_of turn)).
  { destruct (@safe_get_loop_trace lib net (range 2) 2 (article_url bad) None
                (token_auth token) wt) as (turn & n & Hw & _ & Hwr & Hreq).
    exists turn. split; [|split; [exact Hwr|]].
    - rewrite <- safe_get_snd in Hw.
      change (safe_get net (article_url bad) None (token_auth token) 2)
        with (help_scout_get net (article_url bad) None token) in Hw.
      rewrite Hget in Hw. exact Hw.
    - destruct (auth_headers (token_auth token)) as [err|headers].
      + subst turn. constructor.
      + destruct Hreq as [-> _]. unfold attempt_requests.
        apply Forall_forall. intros r Hin. apply in_map_iff in Hin.
        destruct Hin as (k & <- & _). cbn [req_url].
        now apply attempt_url_falsy. }
  destruct Hturn as (turn & Hw2 & Hwr & Hreq).
  (* the turns before *)
  destruct (@fetch_articles_loop_effects lib net fuel dir token (enumerate_from 0 done)
              total w0) as (before & Htr & Hkeep & Hfiles & _ & Hlen & _).
  rewrite Hdone in Htr, Hkeep, Hfiles, Hlen. cbn [fst snd] in Htr, Hkeep, Hfiles, Hlen.
  destruct (Hlen eq_refl) as [Hwrites _]. rewrite length_enumerate_from in Hwrites.
  assert (Hfs : w_fs w2 = w_fs w1) by now rewrite Hw2.
  split; [|split; [exact Hfs|split; [|split]]].
  - rewrite fetch_articles_fresh by assumption.
    fold w0. fold total.
    rewrite enumerate_from_app, fetch_articles_loop_app, Hdone.
    cbn [enumerate_from]. rewrite fetch_articles_loop_cons. cbv zeta.
    fold (article_url bad). rewrite Z.add_0_l. fold wt. rewrite Hget.
    destruct Hkey as [Hkey | (article & Harticle & Hslug)].
    + now rewrite Hkey.
    + now rewrite Harticle, Hslug.
  - rewrite Hfs. apply Hkeep. unfold w0. cbn [w_fs]. apply fs_lookup_put_same.
  - intros q m Hq. rewrite Hfs. apply Hkeep. unfold w0. cbn [w_fs].
    now apply fs_put_fresh_keeps.
  - exists before, turn.
    split; [rewrite Htr; unfold w0; cbn [w_trace]; now rewrite <- app_assoc|].
    split; [rewrite Hw2; unfold wt; cbn [w_trace]; now rewrite <- app_assoc|].
    split; [exact Hwrites|].
    split; [now rewrite Hfs|].
    split; [exact Hwr | exact Hreq].
Qed.

(** The first article is written, the second document has no [article]:
    [intro.json] is on disk after the [KeyError]. *)
Lemma fetch_articles_stops_at_bad_document_witness :
  fst (fetch_articles (lib := Sample.lib)
         (Sample.by_url
            [("https://docsapi.helpscout.net/v1/articles/a1", Sample.article "intro" "a1");
             ("https://docsapi.helpscout.net/v1/articles/a2",
              VDict [("error", VStr "gone")])])
         3 ([VStr "a1"] ++ VStr "a2" :: [VStr "a3"]) "out" (Some "tok") Sample.world0)
  = Raise (KeyError "article")
  /\ w_fs (snd (fetch_articles (lib := Sample.lib)
                  (Sample.by_url
                     [("https://docsapi.helpscout.net/v1/articles/a1",
                       Sample.article "intro" "a1");
                      ("https://docsapi.helpscout.net/v1/articles/a2",
                       VDict [("error", VStr "gone")])])
                  3 ([VStr "a1"] ++ VStr "a2" :: [VStr "a3"]) "out" (Some "tok")
                  Sample.world0))
     = [("out/intro.json", File (Sample.dumps (Sample.article "intro" "a1") 2));
        ("out", Dir)].
Proof.
  pose (server := Sample.by_url
                    [("https://docsapi.helpscout.net/v1/articles/a1",
                      Sample.article "intro" "a1");
                     ("https://docsapi.helpscout.net/v1/articles/a2",
                      VDict [("error", VStr "gone")])]).
  pose (w1 := mkWorld
                [("out/intro.json", File (Sample.dumps (Sample.article "intro" "a1") 2));
                 ("out", Dir)]
                [EvLog (LogCreatingDirectory "out"); EvMkdir "out";
                 EvLog (LogGettingArticle (VStr "a1") 1 3); EvSleep 1;
                 EvRequest (mkRequest "https://docsapi.helpscout.net/v1/articles/a1"
                                      [("Authorization", "Basic dG9rOng=")])
                           (NetOk (Sample.article "intro" "a1"));
                 EvLog (LogSavingArticle "out/intro.json");
                 EvWrite "out/intro.json" (Sample.dumps (Sample.article "intro" "a1") 2)]).
  pose (w2 := mkWorld (w_fs w1)
                (w_trace w1
                 ++ [EvLog (LogGettingArticle (VStr "a2") 2 3); EvSleep 1;
                     EvRequest (mkRequest "https://docsapi.helpscout.net/v1/articles/a2"
                                          [("Authorization", "Basic dG9rOng=")])
                               (NetOk (VDict [("error", VStr "gone")]))])%list).
  destruct (@fetch_articles_stops_at_bad_document Sample.lib server 3 [VStr "a1"]
              [VStr "a3"] (VStr "a2") "out" (Some "tok") (VDict [("error", VStr "gone")])
              (KeyError "article") Sample.world0 w1 w2
              eq_refl eq_refl eq_refl eq_refl (or_introl eq_refl))
    as (Hrun & Hfs & _).
  fold server. rewrite Hrun. split; [reflexivity|]. cbn [snd]. rewrite Hfs. reflexivity.
Defined.
